(** * ml-metadata: the query executor and the list-operation query helper

    A shallow embedding of
    [ml_metadata/metadata_store/query_config_executor.cc] (schema probing,
    the migration state machine, initialisation, template execution and the
    list-id query) and of the list-operation query helper exercised by
    [ml_metadata/metadata_store/list_operation_query_helper_test.cc].

    Integers of type [int64] and [int32] are modelled as [Z]; the version
    arithmetic of the executor ([db_version + 1] below the library version,
    [db_version - 1] above a non-negative target) never leaves the range of
    [int64], so no wrap-around is written out.  Strings are [string]. *)

From Stdlib Require Import ZArith String List Ascii Lia.
From stdpp Require Import base gmap list strings pretty.

Open Scope Z_scope.
Open Scope string_scope.

(** ** absl::Status *)

Inductive StatusCode : Type :=
  | kOk
  | kCancelled
  | kUnknown
  | kInvalidArgument
  | kDeadlineExceeded
  | kNotFound
  | kAlreadyExists
  | kPermissionDenied
  | kResourceExhausted
  | kFailedPrecondition
  | kAborted
  | kOutOfRange
  | kUnimplemented
  | kInternal
  | kUnavailable
  | kDataLoss
  | kUnauthenticated.

Record Status : Type := MkStatus { code : StatusCode; message : string }.

Definition StatusCode_eqb (a b : StatusCode) : bool :=
  match a, b with
  | kOk, kOk | kCancelled, kCancelled | kUnknown, kUnknown
  | kInvalidArgument, kInvalidArgument
  | kDeadlineExceeded, kDeadlineExceeded | kNotFound, kNotFound
  | kAlreadyExists, kAlreadyExists | kPermissionDenied, kPermissionDenied
  | kResourceExhausted, kResourceExhausted
  | kFailedPrecondition, kFailedPrecondition | kAborted, kAborted
  | kOutOfRange, kOutOfRange | kUnimplemented, kUnimplemented
  | kInternal, kInternal | kUnavailable, kUnavailable
  | kDataLoss, kDataLoss | kUnauthenticated, kUnauthenticated => true
  | _, _ => false
  end.

Definition OkStatus : Status := MkStatus kOk "".
Definition InvalidArgumentError (m : string) : Status := MkStatus kInvalidArgument m.
Definition NotFoundError (m : string) : Status := MkStatus kNotFound m.
Definition FailedPreconditionError (m : string) : Status := MkStatus kFailedPrecondition m.
Definition AbortedError (m : string) : Status := MkStatus kAborted m.
Definition DataLossError (m : string) : Status := MkStatus kDataLoss m.
Definition InternalError (m : string) : Status := MkStatus kInternal m.

(** [Status::ok()], [absl::IsNotFound] and [absl::IsInvalidArgument]. *)
Definition ok (s : Status) : bool := StatusCode_eqb (code s) kOk.
Definition IsNotFound (s : Status) : bool := StatusCode_eqb (code s) kNotFound.
Definition IsInvalidArgument (s : Status) : bool :=
  StatusCode_eqb (code s) kInvalidArgument.

(** ** String helpers of absl and the standard library *)

(** [std::to_string] on a signed integer: decimal digits, a leading minus
    sign for negative values. *)
Definition to_string (z : Z) : string := pretty z.

(** [absl::StrCat] over a list of pieces. *)
Definition StrCat (pieces : list string) : string := String.concat "" pieces.

(** [absl::StrJoin] of integers with a separator. *)
Definition StrJoin (values : list Z) (sep : string) : string :=
  String.concat sep (map to_string values).

(** [absl::StrJoin] of strings with a separator. *)
Definition StrJoinS (values : list string) (sep : string) : string :=
  String.concat sep values.

(** [absl::StrContains haystack needle]. *)
Fixpoint StrContains (haystack needle : string) : bool :=
  String.prefix needle haystack
  || match haystack with
     | EmptyString => false
     | String _ rest => StrContains rest needle
     end.

(** The replacement chosen by [absl::StrReplaceAll] at the head of [s]: among
    the non-empty keys that are a prefix of [s], the longest one, the earlier
    pair winning a tie. *)
Fixpoint match_at (s : string) (replacements : list (string * string))
  : option (string * string) :=
  match replacements with
  | [] => None
  | (key, value) :: rest =>
      let here :=
        if (negb (String.eqb key "") && String.prefix key s)%bool
        then Some (key, value) else None in
      match here, match_at s rest with
      | Some (k1, v1), Some (k2, v2) =>
          if (String.length k1 <? String.length k2)%nat
          then Some (k2, v2) else Some (k1, v1)
      | Some kv, None => Some kv
      | None, other => other
      end
  end.

(** [absl::StrReplaceAll]: one left-to-right pass; replaced text is not
    scanned again.  [skip] counts the characters of a matched key that are
    still to be dropped. *)
Fixpoint StrReplaceAll_from (skip : nat) (s : string)
  (replacements : list (string * string)) : string :=
  match skip with
  | S skip' =>
      match s with
      | EmptyString => EmptyString
      | String _ rest => StrReplaceAll_from skip' rest replacements
      end
  | O =>
      match s with
      | EmptyString => EmptyString
      | String c rest =>
          match match_at s replacements with
          | Some (key, value) =>
              value ++ StrReplaceAll_from (String.length key - 1) rest replacements
          | None => String c (StrReplaceAll_from O rest replacements)
          end
      end
  end.

Definition StrReplaceAll (s : string) (replacements : list (string * string))
  : string :=
  StrReplaceAll_from O s replacements.

(** ** Protocol messages used by the list operations *)

Inductive Field : Type := CREATE_TIME | LAST_UPDATE_TIME | ID.

Record OrderByField : Type := MkOrderByField { field : Field; is_asc : bool }.

Record ListOperationOptions : Type := MkListOperationOptions {
  max_result_size : Z;
  order_by_field : OrderByField;
  next_page_token : string
}.

Record ListOperationNextPageToken : Type := MkListOperationNextPageToken {
  field_offset : Z;
  id_offset : option Z;
  listed_ids : list Z;
  set_options : ListOperationOptions
}.

(** ** The list-operation query helper *)

Module ListOperationQueryHelper.

(** Column names used by the pagination helper. *)
Definition column_name (f : Field) : string :=
  match f with
  | CREATE_TIME => "create_time_since_epoch"
  | LAST_UPDATE_TIME => "last_update_time_since_epoch"
  | ID => "id"
  end.

(** The inclusive comparison on the ordering column and the strict
    comparison on [id]. *)
Definition inclusive_op (asc : bool) : string := if asc then ">=" else "<=".
Definition strict_op (asc : bool) : string := if asc then ">" else "<".

(** Modelled from the spec: [AppendOrderingThresholdClause] is defined in
    list_operation_query_helper.cc, which is not among the sources; only its
    tests are.  The clause follows the three cases of the spec's section on
    the ordering threshold; the spacing and the comma that joins
    [listed_ids] are the ones the tests expect.  The page token arrives
    decoded: the base64 and protobuf decoding of [options.next_page_token]
    is not modelled. *)
Definition AppendOrderingThresholdClause (options : ListOperationOptions)
  (token : ListOperationNextPageToken) (sql_query_clause : string)
  : Status * string :=
  let asc := is_asc (order_by_field options) in
  let col := column_name (field (order_by_field options)) in
  match field (order_by_field options) with
  | ID =>
      (OkStatus,
       sql_query_clause ++
       StrCat [" `"; col; "` "; strict_op asc; " ";
               to_string (field_offset token); " "])
  | _ =>
      match id_offset token with
      | Some ido =>
          (OkStatus,
           sql_query_clause ++
           StrCat [" `"; col; "` "; inclusive_op asc; " ";
                   to_string (field_offset token);
                   " AND `id` "; strict_op asc; " "; to_string ido; " "])
      | None =>
          (OkStatus,
           sql_query_clause ++
           StrCat [" `"; col; "` "; inclusive_op asc; " ";
                   to_string (field_offset token);
                   " AND `id` NOT IN ("; StrJoin (listed_ids token) ","; ") "])
      end
  end.

(** Modelled from the spec: [AppendOrderByClause] is defined in
    list_operation_query_helper.cc, which is not among the sources.
    [ORDER BY F <dir>, id <dir>]; the field [ID] emits [ORDER BY id <dir>]
    only.  Spacing and back quotes are the ones the tests expect. *)
Definition AppendOrderByClause (options : ListOperationOptions)
  (sql_query_clause : string) : Status * string :=
  let dir := if is_asc (order_by_field options) then "ASC" else "DESC" in
  let col := column_name (field (order_by_field options)) in
  match field (order_by_field options) with
  | ID =>
      (OkStatus, sql_query_clause ++ StrCat [" ORDER BY `"; col; "` "; dir; " "])
  | _ =>
      (OkStatus,
       sql_query_clause ++
       StrCat [" ORDER BY `"; col; "` "; dir; ", `id` "; dir; " "])
  end.

(** The largest row count the helper puts after [LIMIT].  The tests
    [LimitClause] and [LimitOverMaxClause] fix it: a [max_result_size] of 1
    is emitted as it is, and 200 is emitted as 101. *)
Definition kMaxLimit : Z := 101.

(** Modelled from the spec: [AppendLimitClause] is defined in
    list_operation_query_helper.cc, which is not among the sources; only its
    tests are.  From the spec: a [max_result_size] that is zero or negative
    is an [InvalidArgument], otherwise the size is capped and emitted after
    [LIMIT].  The cap is [kMaxLimit], the value the tests of the helper
    pin down. *)
Definition AppendLimitClause (options : ListOperationOptions)
  (sql_query_clause : string) : Status * string :=
  if (max_result_size options <=? 0)%Z then
    (InvalidArgumentError
       (StrCat ["max_result_size field value is required to be greater than 0. Set value: ";
                to_string (max_result_size options)]),
     sql_query_clause)
  else
    (OkStatus,
     sql_query_clause ++
     StrCat [" LIMIT "; to_string (Z.min (max_result_size options) kMaxLimit); " "]).

(** *** The fixtures and expectations of the test file *)

Definition BasicListOperationOptionsDesc : ListOperationOptions :=
  MkListOperationOptions 1 (MkOrderByField CREATE_TIME false) "".

Definition BasicListOperationOptionsAsc : ListOperationOptions :=
  MkListOperationOptions 1 (MkOrderByField CREATE_TIME true) "".

Definition BasicListOperationNextPageToken (options : ListOperationOptions)
  : ListOperationNextPageToken :=
  MkListOperationNextPageToken 56894 (Some 100) [] options.

End ListOperationQueryHelper.

(** ** Records and the query catalogue *)

(** [RecordSet::Record]: an ordered list of string cells. *)
Record RecordSet_Record : Type := MkRecord { values : list string }.

Record RecordSet : Type := MkRecordSet {
  column_names : list string;
  records : list RecordSet_Record
}.

(** A default-constructed [RecordSet]. *)
Definition empty_RecordSet : RecordSet := MkRecordSet [] [].

Definition records_size (rs : RecordSet) : Z := Z.of_nat (length (records rs)).

(** [MetadataSourceQueryConfig::TemplateQuery]. *)
Record TemplateQuery : Type := MkTemplateQuery {
  query : string;
  parameter_num : Z
}.

(** [MetadataSourceQueryConfig::MigrationScheme]. *)
Record MigrationScheme : Type := MkMigrationScheme {
  upgrade_queries : list TemplateQuery;
  downgrade_queries : list TemplateQuery
}.

(** The fields of [MetadataSourceQueryConfig] read by the functions embedded
    below.  [migration_schemes] is a protobuf map keyed by the destination
    version. *)
Record MetadataSourceQueryConfig : Type := MkQueryConfig {
  schema_version : Z;
  check_mlmd_env_table : TemplateQuery;
  check_tables_in_v0_13_2 : TemplateQuery;
  check_parent_type_table : TemplateQuery;
  check_parent_context_table : TemplateQuery;
  create_type_table : TemplateQuery;
  create_type_property_table : TemplateQuery;
  create_parent_type_table : TemplateQuery;
  create_artifact_table : TemplateQuery;
  create_artifact_property_table : TemplateQuery;
  create_execution_table : TemplateQuery;
  create_execution_property_table : TemplateQuery;
  create_event_table : TemplateQuery;
  create_event_path_table : TemplateQuery;
  create_mlmd_env_table : TemplateQuery;
  create_context_table : TemplateQuery;
  create_context_property_table : TemplateQuery;
  create_parent_context_table : TemplateQuery;
  create_association_table : TemplateQuery;
  create_attribution_table : TemplateQuery;
  secondary_indices : list TemplateQuery;
  migration_schemes : gmap Z MigrationScheme
}.

(** ** Outcomes, the world and the executor monad *)

(** A call either returns, or ends the process ([LOG(FATAL)], a failed
    [CHECK]).  [OutOfFuel] belongs to the embedding of the two [while]
    loops only; the executor never produces it (see [upgrade_loop_migrate]
    and [downgrade_loop_migrate] below). *)
Inductive Outcome (A : Type) : Type :=
  | Returned (a : A)
  | Fatal (log : string)
  | OutOfFuel.

Arguments Returned {A} a.
Arguments Fatal {A} log.
Arguments OutOfFuel {A}.

(** Member functions of [QueryConfigExecutor] that are defined in its header
    and are called, but not defined, in query_config_executor.cc. *)
Inductive HeaderCall : Type :=
  | UpdateSchemaVersion (schema_version : Z)
  | InsertSchemaVersion (schema_version : Z)
  | CheckTypeTable
  | CheckTypePropertyTable
  | CheckArtifactTable
  | CheckArtifactPropertyTable
  | CheckExecutionTable
  | CheckExecutionPropertyTable
  | CheckEventTable
  | CheckEventPathTable
  | CheckMLMDEnvTable
  | CheckContextTable
  | CheckContextPropertyTable
  | CheckAssociationTable
  | CheckAttributionTable
  | CheckSchemaVersionAlignsWithQueryVersion.

(** What the executor does to the outside, in order: a statement handed to
    [metadata_source_->ExecuteQuery], or a call of a header member. *)
Inductive Event : Type :=
  | SourceQuery (sql : string)
  | Header (call : HeaderCall).

(** The collaborators of the executor.  [DB] is the state behind the
    [MetadataSource]; [source_ExecuteQuery] is
    [MetadataSource::ExecuteQuery(query, RecordSet* results)], the record set
    being passed in and out; [header_effect] is the effect of a header
    member on the database, with the status it returns or, when it ends the
    process, what it logs; [SimpleAtoi] is [absl::SimpleAtoi] at [int64];
    the two [DebugString]s are the protobuf renderings; the three [Append]
    functions are the list-operation query helper as the executor calls it,
    with the page token still encoded inside the options. *)
Class Collaborators : Type := {
  DB : Type;
  source_ExecuteQuery : string -> RecordSet -> DB -> Status * RecordSet * DB;
  header_effect : HeaderCall -> DB -> (Status + string) * DB;
  SimpleAtoi : string -> option Z;
  RecordSet_DebugString : RecordSet -> string;
  TemplateQuery_DebugString : TemplateQuery -> string;
  AppendOrderingThresholdClause : ListOperationOptions -> string -> Status * string;
  AppendOrderByClause : ListOperationOptions -> string -> Status * string;
  AppendLimitClause : ListOperationOptions -> string -> Status * string
}.

(** A database together with the log of what was done to it. *)
Record WorldOf (D : Type) : Type := MkWorld {
  db : D;
  trace : list Event
}.

Arguments MkWorld {D} db trace.
Arguments db {D} w.
Arguments trace {D} w.

(** The world of the executor: the database behind its [MetadataSource]. *)
Definition World `{Collaborators} : Type := WorldOf DB.

Definition Exec `{Collaborators} (A : Type) : Type := World -> Outcome A * World.

Definition ret `{Collaborators} {A : Type} (a : A) : Exec A :=
  fun w => (Returned a, w).

Definition bind `{Collaborators} {A B : Type} (m : Exec A) (k : A -> Exec B)
  : Exec B :=
  fun w =>
    match m w with
    | (Returned a, w') => k a w'
    | (Fatal log, w') => (Fatal log, w')
    | (OutOfFuel, w') => (OutOfFuel, w')
    end.

(** [LOG(FATAL)] and a failed [CHECK]. *)
Definition fatal `{Collaborators} {A : Type} (log : string) : Exec A :=
  fun w => (Fatal log, w).

Definition out_of_fuel `{Collaborators} {A : Type} : Exec A :=
  fun w => (OutOfFuel, w).

Declare Scope exec_scope.
Delimit Scope exec_scope with exec.

Notation "x <- m ;; k" := (bind m (fun x => k))
  (at level 100, m at next level, right associativity) : exec_scope.

(** [MLMD_RETURN_IF_ERROR] of return_utils.h, for the rest [k] of a function
    that returns a [Status]. *)
Notation "'MLMD_RETURN_IF_ERROR' m ;; k" :=
  (bind m (fun _status => if ok _status then k else ret _status))
  (at level 100, m at next level, right associativity) : exec_scope.

(** The status built by [MLMD_RETURN_WITH_CONTEXT_IF_ERROR]: the same code,
    the context put in front of the message. *)
Definition with_context (context : string) (s : Status) : Status :=
  MkStatus (code s) (StrCat [context; message s]).

Notation "'MLMD_RETURN_WITH_CONTEXT_IF_ERROR' m 'CONTEXT' c ;; k" :=
  (bind m (fun _status => if ok _status then k else ret (with_context c _status)))
  (at level 100, m at next level, c at next level, right associativity)
  : exec_scope.

Open Scope exec_scope.

(** [absl::Status::ToString]. *)
Definition StatusCodeToString (c : StatusCode) : string :=
  match c with
  | kOk => "OK"
  | kCancelled => "CANCELLED"
  | kUnknown => "UNKNOWN"
  | kInvalidArgument => "INVALID_ARGUMENT"
  | kDeadlineExceeded => "DEADLINE_EXCEEDED"
  | kNotFound => "NOT_FOUND"
  | kAlreadyExists => "ALREADY_EXISTS"
  | kPermissionDenied => "PERMISSION_DENIED"
  | kResourceExhausted => "RESOURCE_EXHAUSTED"
  | kFailedPrecondition => "FAILED_PRECONDITION"
  | kAborted => "ABORTED"
  | kOutOfRange => "OUT_OF_RANGE"
  | kUnimplemented => "UNIMPLEMENTED"
  | kInternal => "INTERNAL"
  | kUnavailable => "UNAVAILABLE"
  | kDataLoss => "DATA_LOSS"
  | kUnauthenticated => "UNAUTHENTICATED"
  end.

Definition Status_ToString (s : Status) : string :=
  if ok s then "OK" else StrCat [StatusCodeToString (code s); ": "; message s].

(** The kinds of node [ListNodeIDsUsingOptions] can be instantiated at; the
    template's last branch takes every type that is none of the three. *)
Inductive Node : Type := NodeArtifact | NodeExecution | NodeContext | NodeOther.

(** The executor object: its catalogue and the pinned query version, if
    any.  The [MetadataSource] it points to is the [db] of the world. *)
Record QueryConfigExecutor : Type := MkQueryConfigExecutor {
  query_config_ : MetadataSourceQueryConfig;
  query_schema_version : option Z
}.

(** ** The executor's requests, one at a time

    What the executor asks of the outside in one step: a statement passed
    as text ([ExecuteQuery(const std::string&)]), a template of the
    catalogue called without parameters, or a header member. *)
Inductive Action : Type :=
  | Text (sql : string)
  | Template (template_query : TemplateQuery)
  | Member (call : HeaderCall).

(** What an action leaves in the log when it reaches the outside. *)
Definition event_of (a : Action) : Event :=
  match a with
  | Text sql => SourceQuery sql
  | Template t => SourceQuery (query t)
  | Member call => Header call
  end.

(** How a sequence of actions ended: every action was accepted; the action
    [a] returned the status [st], which was not accepted, and the actions
    after it were not tried; or the process ended. *)
Inductive Ending : Type :=
  | AllDone
  | Refused (a : Action) (st : Status)
  | Ended (log : string).

(** A sequence of actions performed on a database: the events that reached
    the outside, the statuses returned, how it ended, and the database it
    left. *)
Record Performance (D : Type) : Type := MkPerformance {
  performed : list Event;
  answers : list Status;
  ending : Ending;
  final : D
}.

Arguments MkPerformance {D} performed answers ending final.
Arguments performed {D} p.
Arguments answers {D} p.
Arguments ending {D} p.
Arguments final {D} p.

(** ** query_config_executor.cc *)

Section Executor.

Context `{Collaborators}.
Variable this : QueryConfigExecutor.

(** [metadata_source_->ExecuteQuery(query, record_set)]: the statement is
    logged and handed to the source. *)
Definition metadata_source_ExecuteQuery (sql : string) (record_set : RecordSet)
  : Exec (Status * RecordSet) :=
  fun w =>
    let '(st, rs, d) := source_ExecuteQuery sql record_set (db w) in
    (Returned (st, rs), MkWorld d (trace w ++ [SourceQuery sql])).

(** A header member: the call is logged and its effect applied. *)
Definition header (call : HeaderCall) : Exec Status :=
  fun w =>
    let '(r, d) := header_effect call (db w) in
    (match r with inl status => Returned status | inr log => Fatal log end,
     MkWorld d (trace w ++ [Header call])).

(** [ExecuteQuery(const std::string& query)]. *)
Definition ExecuteQueryString (sql : string) : Exec Status :=
  r <- metadata_source_ExecuteQuery sql empty_RecordSet ;;
  ret (fst r).

(** [ExecuteQuery(const std::string& query, RecordSet* record_set)]. *)
Definition ExecuteQueryStringInto (sql : string) (record_set : RecordSet)
  : Exec (Status * RecordSet) :=
  metadata_source_ExecuteQuery sql record_set.

(** The pairs [{"$i", parameters[i]}] built by the loop of [ExecuteQuery]. *)
Definition make_replacements (parameters : list string) : list (string * string) :=
  imap (fun i p => (StrCat ["$"; to_string (Z.of_nat i)], p)) parameters.

(** [ExecuteQuery(template_query, parameters, record_set)].  The comparison
    of [parameter_num()] with [parameters.size()] converts the signed
    number to [size_t]; with at most ten parameters the two are equal
    exactly when they are equal as integers. *)
Definition ExecuteQuery (template_query : TemplateQuery)
  (parameters : list string) (record_set : RecordSet)
  : Exec (Status * RecordSet) :=
  if (10 <? length parameters)%nat then
    ret (InvalidArgumentError
           "Template query has too many parameters (at most 10 is supported).",
         record_set)
  else if negb (parameter_num template_query =? Z.of_nat (length parameters))%Z then
    fatal (StrCat ["Template query parameter_num does not match with given ";
                   "parameters size (";
                   to_string (Z.of_nat (length parameters)); "): ";
                   TemplateQuery_DebugString template_query])
  else
    metadata_source_ExecuteQuery
      (StrReplaceAll (query template_query) (make_replacements parameters))
      record_set.

(** Modelled from the spec: the overload
    [ExecuteQuery(template_query, parameters = {})] is declared in
    query_config_executor.h, which is not among the sources.  By the
    spec's binding rules every template call is checked against
    [parameter_num] before substitution; the overload is the three-argument
    one at the given parameters and a record set of its own. *)
Definition ExecuteQueryTemplate (template_query : TemplateQuery)
  (parameters : list string) : Exec Status :=
  r <- ExecuteQuery template_query parameters empty_RecordSet ;;
  ret (fst r).

(** Modelled from the spec: [GetLibraryVersion] is defined in the header;
    the spec's catalogue has [schema_version] as "the library version the
    templates correspond to". *)
Definition GetLibraryVersion : Z := schema_version (query_config_ this).

Definition CheckParentTypeTable : Exec Status :=
  ExecuteQueryTemplate (check_parent_type_table (query_config_ this)) [].

Definition CheckParentContextTable : Exec Status :=
  ExecuteQueryTemplate (check_parent_context_table (query_config_ this)) [].

(** [GetSchemaVersion(int64* db_version)]: [db_version] is the value behind
    the pointer on entry, the second component of the result the value on
    exit.  Reading [values(0)] of a record without cells is outside the
    contract of the protobuf accessor and ends the run like a failed
    [CHECK]. *)
Definition GetSchemaVersion (db_version : Z) : Exec (Status * Z) :=
  r <- ExecuteQuery (check_mlmd_env_table (query_config_ this)) [] empty_RecordSet ;;
  let maybe_schema_version_status := fst r in
  let record_set := snd r in
  if ok maybe_schema_version_status then
    if (records_size record_set =? 0)%Z then
      ret (AbortedError
             (StrCat ["In the given db, MLMDEnv table exists but no schema_version can be ";
                      "found. This may be due to concurrent connection to the empty ";
                      "database. Please retry connection."]),
           db_version)
    else if (1 <? records_size record_set)%Z then
      ret (DataLossError
             (StrCat ["In the given db, MLMDEnv table exists but schema_version cannot be ";
                      "resolved due to there being more than one rows with the schema ";
                      "version. Expecting a single row: ";
                      RecordSet_DebugString record_set]),
           db_version)
    else
      match records record_set with
      | record :: _ =>
          match values record with
          | cell :: _ =>
              match SimpleAtoi cell with
              | Some parsed => ret (OkStatus, parsed)
              | None =>
                  fatal "Check failed: absl::SimpleAtoi(record_set.records(0).values(0), db_version)"
              end
          | [] => fatal "record_set.records(0).values(0): index out of range"
          end
      | [] => fatal "record_set.records(0): index out of range"
      end
  else
    r2 <- ExecuteQuery (check_tables_in_v0_13_2 (query_config_ this)) [] record_set ;;
    let maybe_v0_13_2_status := fst r2 in
    if ok maybe_v0_13_2_status then ret (OkStatus, 0%Z)
    else ret (NotFoundError "it looks an empty db is given.", db_version).

(** [IsCompatible(db_version, lib_version, bool* is_compatible)]. *)
Definition IsCompatible (db_version lib_version : Z) : Status * bool :=
  (OkStatus, (db_version =? lib_version)%Z).

(** The [for] loop over [upgrade_queries()]: the status the function returns
    from inside the loop, or [OkStatus] when the loop runs to its end. *)
Fixpoint run_upgrade_queries (queries : list TemplateQuery) : Exec Status :=
  match queries with
  | [] => ret OkStatus
  | upgrade_query :: rest =>
      MLMD_RETURN_WITH_CONTEXT_IF_ERROR
        ExecuteQueryString (query upgrade_query)
        CONTEXT (StrCat ["Upgrade query failed: "; query upgrade_query]) ;;
      run_upgrade_queries rest
  end.

(** The loop [while (db_version < lib_version)] of
    [UpgradeMetadataSourceIfOutOfDate]. *)
Fixpoint upgrade_loop (fuel : nat) (db_version lib_version : Z) : Exec Status :=
  if (db_version <? lib_version)%Z then
    match fuel with
    | O => out_of_fuel
    | S fuel' =>
        let to_version := (db_version + 1)%Z in
        match migration_schemes (query_config_ this) !! to_version with
        | None =>
            ret (InternalError
                   (StrCat ["Cannot find migration_schemes to version ";
                            to_string to_version]))
        | Some scheme =>
            MLMD_RETURN_IF_ERROR run_upgrade_queries (upgrade_queries scheme) ;;
            MLMD_RETURN_WITH_CONTEXT_IF_ERROR
              header (UpdateSchemaVersion to_version)
              CONTEXT "Failed to update schema." ;;
            upgrade_loop fuel' to_version lib_version
        end
    end
  else ret OkStatus.

Definition UpgradeMetadataSourceIfOutOfDate (enable_migration : bool)
  : Exec Status :=
  r <- GetSchemaVersion 0 ;;
  let get_schema_version_status := fst r in
  let lib_version := GetLibraryVersion in
  if (negb (IsNotFound get_schema_version_status)
      && negb (ok get_schema_version_status))%bool
  then ret get_schema_version_status
  else
    let db_version :=
      if IsNotFound get_schema_version_status then lib_version else snd r in
    let is_compatible := snd (IsCompatible db_version lib_version) in
    if negb (ok (fst (IsCompatible db_version lib_version))) then
      ret (fst (IsCompatible db_version lib_version))
    else if is_compatible then ret OkStatus
    else if (lib_version <? db_version)%Z then
      ret (FailedPreconditionError
             (StrCat ["MLMD database version "; to_string db_version;
                      " is greater than library version "; to_string lib_version;
                      ". Please upgrade the library to use the given database in order to ";
                      "prevent potential data loss. If data loss is acceptable, please";
                      " downgrade the database using a newer version of library."]))
    else if ((db_version <? lib_version)%Z && negb enable_migration)%bool then
      ret (FailedPreconditionError
             (StrCat ["MLMD database version "; to_string db_version;
                      " is older than library version "; to_string lib_version;
                      ". Schema migration is disabled. Please upgrade the database then use";
                      " the library version; or switch to a older library version to use the";
                      " current database. For more details, please refer to ml-metadata";
                      " https://github.com/google/ml-metadata/blob/master/g3doc/get_started.md#upgrade-the-database-schema"]))
    else
      upgrade_loop (Z.to_nat (lib_version - db_version)) db_version lib_version.

(** The [for] loop over [downgrade_queries()]. *)
Fixpoint run_downgrade_queries (queries : list TemplateQuery) : Exec Status :=
  match queries with
  | [] => ret OkStatus
  | downgrade_query :: rest =>
      MLMD_RETURN_WITH_CONTEXT_IF_ERROR
        ExecuteQueryTemplate downgrade_query []
        CONTEXT (StrCat ["Failed to migrate existing db; the ";
                         "migration transaction rolls back."]) ;;
      run_downgrade_queries rest
  end.

(** The loop [while (db_version > to_schema_version)] of
    [DowngradeMetadataSource]. *)
Fixpoint downgrade_loop (fuel : nat) (db_version to_schema_version : Z)
  : Exec Status :=
  if (to_schema_version <? db_version)%Z then
    match fuel with
    | O => out_of_fuel
    | S fuel' =>
        let to_version := (db_version - 1)%Z in
        match migration_schemes (query_config_ this) !! to_version with
        | None =>
            ret (InternalError
                   (StrCat ["Cannot find migration_schemes to version ";
                            to_string to_version]))
        | Some scheme =>
            MLMD_RETURN_IF_ERROR run_downgrade_queries (downgrade_queries scheme) ;;
            if (0 <? to_version)%Z then
              MLMD_RETURN_WITH_CONTEXT_IF_ERROR
                header (UpdateSchemaVersion to_version)
                CONTEXT (StrCat ["Failed to migrate existing db; the migration transaction rolls ";
                                 "back."]) ;;
              downgrade_loop fuel' to_version to_schema_version
            else
              downgrade_loop fuel' to_version to_schema_version
        end
    end
  else ret OkStatus.

Definition DowngradeMetadataSource (to_schema_version : Z) : Exec Status :=
  let lib_version := schema_version (query_config_ this) in
  if ((to_schema_version <? 0)%Z || (lib_version <? to_schema_version)%Z)%bool then
    ret (InvalidArgumentError
           (StrCat ["MLMD cannot be downgraded to schema_version: ";
                    to_string to_schema_version;
                    ". The target version should be greater or equal to 0, and the current";
                    " library version: ";
                    to_string lib_version;
                    " needs to be greater than the target version."]))
  else
    r <- GetSchemaVersion 0 ;;
    let get_schema_version_status := fst r in
    let db_version := snd r in
    if IsNotFound get_schema_version_status then
      ret (InvalidArgumentError
             "Empty database is given. Downgrade operation is not needed.")
    else if negb (ok get_schema_version_status) then
      ret get_schema_version_status
    else if (lib_version <? db_version)%Z then
      ret (FailedPreconditionError
             (StrCat ["MLMD database version "; to_string db_version;
                      " is greater than library version "; to_string lib_version;
                      ". The current library does not know how to downgrade it. ";
                      "Please upgrade the library to downgrade the schema."]))
    else
      downgrade_loop (Z.to_nat (db_version - to_schema_version))
        db_version to_schema_version.

(** The fifteen [create_*_table] statements of [InitMetadataSource], in the
    order the function runs them. *)
Definition create_table_queries : list TemplateQuery :=
  let c := query_config_ this in
  [ create_type_table c; create_type_property_table c;
    create_parent_type_table c; create_artifact_table c;
    create_artifact_property_table c; create_execution_table c;
    create_execution_property_table c; create_event_table c;
    create_event_path_table c; create_mlmd_env_table c;
    create_context_table c; create_context_property_table c;
    create_parent_context_table c; create_association_table c;
    create_attribution_table c ].

(** The run of [MLMD_RETURN_IF_ERROR(ExecuteQuery(create_..._table()))]
    statements that opens [InitMetadataSource]. *)
Fixpoint run_create_queries (queries : list TemplateQuery) : Exec Status :=
  match queries with
  | [] => ret OkStatus
  | create_query :: rest =>
      MLMD_RETURN_IF_ERROR ExecuteQueryTemplate create_query [] ;;
      run_create_queries rest
  end.

(** The [for] loop over [secondary_indices()]. *)
Fixpoint run_secondary_indices (queries : list TemplateQuery) : Exec Status :=
  match queries with
  | [] => ret OkStatus
  | index_query :: rest =>
      status <- ExecuteQueryTemplate index_query [] ;;
      if (negb (ok status)
          && StrContains (message status) "Duplicate key name")%bool
      then run_secondary_indices rest
      else
        MLMD_RETURN_IF_ERROR ret status ;;
        run_secondary_indices rest
  end.

(** The end of [InitMetadataSource]: the insert of the library version and,
    when it fails, the second look at the stored version. *)
Definition insert_or_confirm_schema_version : Exec Status :=
  let library_version := GetLibraryVersion in
  insert_schema_version_status <- header (InsertSchemaVersion library_version) ;;
  if negb (ok insert_schema_version_status) then
    r <- GetSchemaVersion (-1) ;;
    if negb (ok (fst r)) then ret (fst r)
    else
      let db_version := snd r in
      if negb (db_version =? library_version)%Z then
        ret (DataLossError
               (StrCat ["The database cannot be initialized with the schema_version in the ";
                        "current library. Current library version: ";
                        to_string library_version;
                        ", the db version on record is: "; to_string db_version;
                        ". It may result from a data race condition caused by other ";
                        "concurrent MLMD's migration procedures."]))
      else ret OkStatus
  else ret OkStatus.

Definition InitMetadataSource : Exec Status :=
  MLMD_RETURN_IF_ERROR run_create_queries create_table_queries ;;
  MLMD_RETURN_IF_ERROR
    run_secondary_indices (secondary_indices (query_config_ this)) ;;
  insert_or_confirm_schema_version.

(** The fifteen table checks of [InitMetadataSourceIfNotExists] with their
    names, in the order they are pushed.  [CheckParentTypeTable] and
    [CheckParentContextTable] are defined in this file, the others in the
    header. *)
Definition table_checks : list (Exec Status * string) :=
  [ (header CheckTypeTable, "type_table");
    (CheckParentTypeTable, "parent_type_table");
    (header CheckTypePropertyTable, "type_property_table");
    (header CheckArtifactTable, "artifact_table");
    (header CheckArtifactPropertyTable, "artifact_property_table");
    (header CheckExecutionTable, "execution_table");
    (header CheckExecutionPropertyTable, "execution_property_table");
    (header CheckEventTable, "event_table");
    (header CheckEventPathTable, "event_path_table");
    (header CheckMLMDEnvTable, "mlmd_env_table");
    (header CheckContextTable, "context_table");
    (CheckParentContextTable, "parent_context_table");
    (header CheckContextPropertyTable, "context_property_table");
    (header CheckAssociationTable, "association_table");
    (header CheckAttributionTable, "attribution_table") ].

(** The [checks.push_back({Check...(), name})] statements: every check is
    run, whatever the earlier ones returned. *)
Fixpoint run_checks (pending : list (Exec Status * string))
  : Exec (list (Status * string)) :=
  match pending with
  | [] => ret []
  | (check, name) :: rest =>
      status <- check ;;
      checks <- run_checks rest ;;
      ret ((status, name) :: checks)
  end.

Definition newline : string := String (ascii_of_nat 10) EmptyString.

(** The three vectors filled by the loop over [checks]. *)
Definition missing_schema_error_messages (checks : list (Status * string))
  : list string :=
  map (fun c => Status_ToString (fst c)) (filter (fun c => ok (fst c) = false) checks).

Definition failing_checks (checks : list (Status * string)) : list string :=
  map snd (filter (fun c => ok (fst c) = false) checks).

Definition successful_checks (checks : list (Status * string)) : list string :=
  map snd (filter (fun c => ok (fst c) = true) checks).

Definition InitMetadataSourceIfNotExists (enable_upgrade_migration : bool)
  : Exec Status :=
  match query_schema_version this with
  | Some _ => header CheckSchemaVersionAlignsWithQueryVersion
  | None =>
      MLMD_RETURN_IF_ERROR
        UpgradeMetadataSourceIfOutOfDate enable_upgrade_migration ;;
      checks <- run_checks table_checks ;;
      let missing := missing_schema_error_messages checks in
      if (length missing =? 0)%nat then ret OkStatus
      else if negb (length checks =? length missing)%nat then
        ret (AbortedError
               (StrCat ["There are a subset of tables in MLMD instance. This may be due to ";
                        "concurrent connection to the empty database. ";
                        "Please retry the connection. checks: ";
                        to_string (Z.of_nat (length checks));
                        " errors: "; to_string (Z.of_nat (length missing));
                        ", present tables: "; StrJoinS (successful_checks checks) ", ";
                        ", missing tables: "; StrJoinS (failing_checks checks) ", ";
                        " Errors: "; StrJoinS missing newline]))
      else InitMetadataSource
  end.

(** [Bind(const absl::Span<const int64> value)]. *)
Definition Bind_ids (value : list Z) : string := StrJoin value ", ".

(** [ListNodeIDsUsingOptions<Node>(options, candidate_ids, record_set)]; the
    record set is passed in and out. *)
Definition ListNodeIDsUsingOptions (node : Node) (options : ListOperationOptions)
  (candidate_ids : option (list Z)) (record_set : RecordSet)
  : Exec (Status * RecordSet) :=
  if match candidate_ids with Some [] => true | _ => false end then
    ret (OkStatus, record_set)
  else
    match
      match node with
      | NodeArtifact => Some "SELECT `id` FROM `Artifact` WHERE"
      | NodeExecution => Some "SELECT `id` FROM `Execution` WHERE"
      | NodeContext => Some "SELECT `id` FROM `Context` WHERE"
      | NodeOther => None
      end
    with
    | None =>
        ret (InvalidArgumentError "Invalid Node passed to ListNodeIDsUsingOptions",
             record_set)
    | Some select =>
        let sql_query0 :=
          match candidate_ids with
          | Some ids => select ++ StrCat [" `id` IN ("; Bind_ids ids; ") AND "]
          | None => select
          end in
        let r1 := AppendOrderingThresholdClause options sql_query0 in
        if negb (ok (fst r1)) then ret (fst r1, record_set)
        else
          let r2 := AppendOrderByClause options (snd r1) in
          if negb (ok (fst r2)) then ret (fst r2, record_set)
          else
            let r3 := AppendLimitClause options (snd r2) in
            if negb (ok (fst r3)) then ret (fst r3, record_set)
            else ExecuteQueryStringInto (snd r3) record_set
    end.

(** *** The sequences of the spec, performed on the database itself

    The spec describes migration and initialisation as sequences: "for each
    intermediate version v in (db, lib], run every
    migration_schemes[v].upgrade_queries in order, then
    UpdateSchemaVersion(v)", "Downgrade is the mirror, running
    migration_schemes[v-1].downgrade_queries and calling
    UpdateSchemaVersion(v-1) only when v-1 > 0", "check presence of the 15
    expected tables", "creates every table, every secondary index (ignoring
    duplicate index name errors), and inserts the library version".  The
    [perform] below carries such a sequence out with [source_ExecuteQuery]
    and [header_effect] alone, and the sequences are written out from the
    catalogue; none of them uses the functions and loops of the executor
    above, which the theorems compare with them. *)

(** One action on the database [d]: the events it leaves, the status
    returned or the log of the process that ended, and the database after
    it.  A template that declares parameters, called without any, ends the
    process before anything is sent. *)
Definition perform_action (a : Action) (d : DB)
  : list Event * (Status + string) * DB :=
  match a with
  | Text sql =>
      let '(st, _, d') := source_ExecuteQuery sql empty_RecordSet d in
      ([SourceQuery sql], inl st, d')
  | Template t =>
      if (parameter_num t =? 0)%Z then
        let '(st, _, d') := source_ExecuteQuery (query t) empty_RecordSet d in
        ([SourceQuery (query t)], inl st, d')
      else
        ([],
         inr (StrCat ["Template query parameter_num does not match with given ";
                      "parameters size ("; to_string 0; "): ";
                      TemplateQuery_DebugString t]),
         d)
  | Member call =>
      let '(r, d') := header_effect call d in ([Header call], r, d')
  end.

(** The actions one after the other, up to and including the first whose
    status [accept] turns down, or that ends the process. *)
Fixpoint perform (accept : Status -> bool) (actions : list Action) (d : DB)
  : Performance DB :=
  match actions with
  | [] => MkPerformance [] [] AllDone d
  | a :: rest =>
      match perform_action a d with
      | (events, inl st, d') =>
          if accept st then
            let p := perform accept rest d' in
            MkPerformance (events ++ performed p)%list (st :: answers p) (ending p)
              (final p)
          else MkPerformance events [st] (Refused a st) d'
      | (events, inr log, d') => MkPerformance events [] (Ended log) d'
      end
  end.

(** [perform] as a computation on the world: OK when every action was
    accepted, the refused status as [on_refusal] reports it otherwise. *)
Definition spec_perform (on_refusal : Action -> Status -> Status)
  (accept : Status -> bool) (actions : list Action) : Exec Status :=
  fun w =>
    let p := perform accept actions (db w) in
    (match ending p with
     | AllDone => Returned OkStatus
     | Refused a st => Returned (on_refusal a st)
     | Ended log => Fatal log
     end,
     MkWorld (final p) (trace w ++ performed p)%list).

(** The call of the executor that carries out one action. *)
Definition exec_action (a : Action) : Exec Status :=
  match a with
  | Text sql => ExecuteQueryString sql
  | Template t => ExecuteQueryTemplate t []
  | Member call => header call
  end.

(** The destination versions of an upgrade from [db_version] to
    [lib_version]: [db_version + 1, ..., lib_version]. *)
Definition upgrade_versions (db_version lib_version : Z) : list Z :=
  seqZ (db_version + 1) (lib_version - db_version).

(** The destination versions of a downgrade from [db_version] to
    [to_schema_version]: [db_version - 1, ..., to_schema_version]. *)
Definition downgrade_versions (db_version to_schema_version : Z) : list Z :=
  reverse (seqZ to_schema_version (db_version - to_schema_version)).

(** The step of an upgrade to [v]: every upgrade query of
    [migration_schemes[v]] in order, then [UpdateSchemaVersion(v)]. *)
Definition upgrade_actions (v : Z) : list Action :=
  match migration_schemes (query_config_ this) !! v with
  | None => []
  | Some scheme =>
      (map (fun q => Text (query q)) (upgrade_queries scheme)
       ++ [Member (UpdateSchemaVersion v)])%list
  end.

(** The step of a downgrade to [v]: every downgrade query of
    [migration_schemes[v]] in order, then [UpdateSchemaVersion(v)] only
    when [v > 0]. *)
Definition downgrade_actions (v : Z) : list Action :=
  match migration_schemes (query_config_ this) !! v with
  | None => []
  | Some scheme =>
      (map Template (downgrade_queries scheme)
       ++ (if (0 <? v)%Z then [Member (UpdateSchemaVersion v)] else []))%list
  end.

(** What an upgrade step to [v] does to the outside when nothing fails. *)
Definition upgrade_events (v : Z) : list Event :=
  match migration_schemes (query_config_ this) !! v with
  | None => []
  | Some scheme =>
      map (fun q => SourceQuery (query q)) (upgrade_queries scheme)
      ++ [Header (UpdateSchemaVersion v)]
  end.

(** What a downgrade step to [v] does to the outside when nothing fails. *)
Definition downgrade_events (v : Z) : list Event :=
  match migration_schemes (query_config_ this) !! v with
  | None => []
  | Some scheme =>
      map (fun q => SourceQuery (query q)) (downgrade_queries scheme)
      ++ (if (0 <? v)%Z then [Header (UpdateSchemaVersion v)] else [])
  end.

(** The steps to the given destination versions put end to end, up to the
    first version that has no migration scheme, and that version. *)
Fixpoint migration_plan (actions : Z -> list Action) (versions : list Z)
  : list Action * option Z :=
  match versions with
  | [] => ([], None)
  | v :: rest =>
      match migration_schemes (query_config_ this) !! v with
      | None => ([], Some v)
      | Some _ =>
          ((actions v ++ fst (migration_plan actions rest))%list,
           snd (migration_plan actions rest))
      end
  end.

(** The context a failed step of an upgrade is reported with. *)
Definition upgrade_context (a : Action) : string :=
  match a with
  | Text sql => StrCat ["Upgrade query failed: "; sql]
  | _ => "Failed to update schema."
  end.

(** The context a failed step of a downgrade is reported with. *)
Definition downgrade_context (a : Action) : string :=
  "Failed to migrate existing db; the migration transaction rolls back.".

(** The migration of the spec: the plan is performed up to the first step
    that does not return OK; when all of it is done and a version without
    scheme stopped the plan, the result is [Internal]. *)
Definition spec_migration (context : Action -> string)
  (actions : Z -> list Action) (versions : list Z) : Exec Status :=
  MLMD_RETURN_IF_ERROR
    spec_perform (fun a st => with_context (context a) st) ok
      (fst (migration_plan actions versions)) ;;
  ret (match snd (migration_plan actions versions) with
       | None => OkStatus
       | Some v =>
           InternalError
             (StrCat ["Cannot find migration_schemes to version "; to_string v])
       end).

(** The checks of the fifteen expected tables. *)
Definition expected_table_checks : list Action :=
  let c := query_config_ this in
  [ Member CheckTypeTable; Template (check_parent_type_table c);
    Member CheckTypePropertyTable; Member CheckArtifactTable;
    Member CheckArtifactPropertyTable; Member CheckExecutionTable;
    Member CheckExecutionPropertyTable; Member CheckEventTable;
    Member CheckEventPathTable; Member CheckMLMDEnvTable;
    Member CheckContextTable; Template (check_parent_context_table c);
    Member CheckContextPropertyTable; Member CheckAssociationTable;
    Member CheckAttributionTable ].

(** The names the checks are reported under. *)
Definition expected_table_names : list string :=
  ["type_table"; "parent_type_table"; "type_property_table";
   "artifact_table"; "artifact_property_table"; "execution_table";
   "execution_property_table"; "event_table"; "event_path_table";
   "mlmd_env_table"; "context_table"; "parent_context_table";
   "context_property_table"; "association_table"; "attribution_table"].

(** The statements that create the fifteen tables. *)
Definition expected_table_creations : list Action :=
  let c := query_config_ this in
  [ Template (create_type_table c); Template (create_type_property_table c);
    Template (create_parent_type_table c); Template (create_artifact_table c);
    Template (create_artifact_property_table c);
    Template (create_execution_table c);
    Template (create_execution_property_table c);
    Template (create_event_table c); Template (create_event_path_table c);
    Template (create_mlmd_env_table c); Template (create_context_table c);
    Template (create_context_property_table c);
    Template (create_parent_context_table c);
    Template (create_association_table c);
    Template (create_attribution_table c) ].

(** The statements that create the secondary indices. *)
Definition expected_index_creations : list Action :=
  map Template (secondary_indices (query_config_ this)).

(** Every status is taken: the checks are all run. *)
Definition any_status (st : Status) : bool := true.

(** A status is taken when it is OK or reports a duplicate index. *)
Definition ok_or_duplicate_index (st : Status) : bool :=
  (ok st || StrContains (message st) "Duplicate key name")%bool.

(** [m] runs the events [expected] in order: whatever [m] returns, what it
    did to the outside is a prefix of [expected], and all of [expected] when
    it returns a status that is OK.  It never runs out of fuel. *)
Definition runs_in_order (m : Exec Status) (expected : list Event) : Prop :=
  forall w o w',
    m w = (o, w') ->
    o <> OutOfFuel /\
    exists t,
      trace w' = (trace w ++ t)%list /\
      t `prefix_of` expected /\
      (forall st, o = Returned st -> ok st = true -> t = expected).

End Executor.

(** ** query_config_executor.cc: binding and the typed statements *)

(** The remaining templates of [MetadataSourceQueryConfig] that
    query_config_executor.cc reads. *)
Record MoreTemplates : Type := MkMoreTemplates {
  insert_parent_type : TemplateQuery;
  select_parent_type_by_type_id : TemplateQuery;
  insert_event_path : TemplateQuery;
  insert_parent_context : TemplateQuery;
  select_parent_context_by_context_id : TemplateQuery;
  select_parent_context_by_parent_context_id : TemplateQuery;
  select_last_insert_id : TemplateQuery;
  select_type_by_id : TemplateQuery;
  select_type_by_name_and_version : TemplateQuery;
  select_type_by_name : TemplateQuery;
  select_all_types : TemplateQuery
}.

(** The value of an [Event::Path::Step]: an index, a key, or nothing. *)
Inductive Step : Type :=
  | StepIndex (index : Z)
  | StepKey (key : string)
  | StepNotSet.

(** A template cut into literal text and placeholders, to state what
    substitution does.  [render] writes the template, [instantiate] the
    statement with each placeholder replaced by its parameter. *)
Inductive Segment : Type :=
  | Lit (text : string)
  | Param (i : nat).

Definition placeholder (i : nat) : string := StrCat ["$"; to_string (Z.of_nat i)].

Fixpoint render (segments : list Segment) : string :=
  match segments with
  | [] => ""
  | Lit text :: rest => text ++ render rest
  | Param i :: rest => placeholder i ++ render rest
  end.

Fixpoint instantiate (parameters : list string) (segments : list Segment)
  : string :=
  match segments with
  | [] => ""
  | Lit text :: rest => text ++ instantiate parameters rest
  | Param i :: rest => nth i parameters "" ++ instantiate parameters rest
  end.

(** The text holds no dollar sign. *)
Fixpoint dollar_free (text : string) : bool :=
  match text with
  | EmptyString => true
  | String c rest => negb (Ascii.eqb c "$") && dollar_free rest
  end.

(** Every literal is free of dollar signs and every placeholder has a
    parameter. *)
Fixpoint well_formed (n : nat) (segments : list Segment) : bool :=
  match segments with
  | [] => true
  | Lit text :: rest => dollar_free text && well_formed n rest
  | Param i :: rest => (i <? n)%nat && well_formed n rest
  end.

Section Statements.

Context `{Collaborators}.
Variable this : QueryConfigExecutor.
(** The templates of [query_config_] listed in [MoreTemplates]. *)
Variable more : MoreTemplates.
(** [metadata_source_->EscapeString]. *)
Variable EscapeString : string -> string.
(** What [absl::SimpleAtoi] leaves in its output when it returns false. *)
Variable SimpleAtoi_leftover : string -> Z.

(** [Bind] of a C string and of an [absl::string_view]. *)
Definition Bind_string (value : string) : string :=
  StrCat ["'"; EscapeString value; "'"].

(** [Bind(int)], [Bind(int64)] and the [Bind]s of the enumerations, which
    print the number of the value. *)
Definition Bind_int64 (value : Z) : string := to_string value.

(** [Bind(bool)]. *)
Definition Bind_bool (value : bool) : string := if value then "1" else "0".

Definition InsertParentType (type_id parent_type_id : Z) : Exec Status :=
  ExecuteQueryTemplate (insert_parent_type more)
    [Bind_int64 type_id; Bind_int64 parent_type_id].

Definition SelectParentTypesByTypeID (type_id : Z) (record_set : RecordSet)
  : Exec (Status * RecordSet) :=
  ExecuteQuery (select_parent_type_by_type_id more) [Bind_int64 type_id] record_set.

(** [InsertEventPath(event_id, step)].  The second parameter is the bare
    text [step_index] or [step_key]: it is not passed through [Bind]. *)
Definition InsertEventPath (event_id : Z) (step : Step) : Exec Status :=
  match step with
  | StepIndex index =>
      ExecuteQueryTemplate (insert_event_path more)
        [Bind_int64 event_id; "step_index"; Bind_bool true; Bind_int64 index]
  | StepKey key =>
      ExecuteQueryTemplate (insert_event_path more)
        [Bind_int64 event_id; "step_key"; Bind_bool false; Bind_string key]
  | StepNotSet => ret OkStatus
  end.

Definition InsertParentContext (parent_id child_id : Z) : Exec Status :=
  ExecuteQueryTemplate (insert_parent_context more)
    [Bind_int64 child_id; Bind_int64 parent_id].

Definition SelectParentContextsByContextID (context_id : Z)
  (record_set : RecordSet) : Exec (Status * RecordSet) :=
  ExecuteQuery (select_parent_context_by_context_id more)
    [Bind_int64 context_id] record_set.

Definition SelectChildContextsByContextID (context_id : Z)
  (record_set : RecordSet) : Exec (Status * RecordSet) :=
  ExecuteQuery (select_parent_context_by_parent_context_id more)
    [Bind_int64 context_id] record_set.

(** [SelectLastInsertID(int64* last_insert_id)]: the argument is the value
    behind the pointer on entry, the second component the value on exit. *)
Definition SelectLastInsertID (last_insert_id : Z) : Exec (Status * Z) :=
  r <- ExecuteQuery (select_last_insert_id more) [] empty_RecordSet ;;
  let record_set := snd r in
  if negb (ok (fst r)) then ret (fst r, last_insert_id)
  else if (records_size record_set =? 0)%Z then
    ret (InternalError "Could not find last insert ID: no record", last_insert_id)
  else
    match records record_set with
    | record :: _ =>
        if (Z.of_nat (length (values record)) =? 0)%Z then
          ret (InternalError "Could not find last insert ID: missing value",
               last_insert_id)
        else
          match values record with
          | cell :: _ =>
              match SimpleAtoi cell with
              | Some parsed => ret (OkStatus, parsed)
              | None =>
                  ret (InternalError "Could not parse last insert ID as string",
                       SimpleAtoi_leftover cell)
              end
          | [] => fatal "record.values(0): index out of range"
          end
    | [] => fatal "record_set.records(0): index out of range"
    end.

(** [CheckTablesIn_V0_13_2()]. *)
Definition CheckTablesIn_V0_13_2 : Exec Status :=
  ExecuteQueryTemplate (check_tables_in_v0_13_2 (query_config_ this)) [].

Definition SelectTypeByID (type_id : Z) (type_kind : Z) (record_set : RecordSet)
  : Exec (Status * RecordSet) :=
  ExecuteQuery (select_type_by_id more)
    [Bind_int64 type_id; Bind_int64 type_kind] record_set.

(** [SelectTypeByNameAndVersion]: [type_version] is the optional
    [string_view]. *)
Definition SelectTypeByNameAndVersion (type_name : string)
  (type_version : option string) (type_kind : Z) (record_set : RecordSet)
  : Exec (Status * RecordSet) :=
  match type_version with
  | Some version =>
      if negb (String.eqb version "") then
        ExecuteQuery (select_type_by_name_and_version more)
          [Bind_string type_name; Bind_string version; Bind_int64 type_kind]
          record_set
      else
        ExecuteQuery (select_type_by_name more)
          [Bind_string type_name; Bind_int64 type_kind] record_set
  | None =>
      ExecuteQuery (select_type_by_name more)
        [Bind_string type_name; Bind_int64 type_kind] record_set
  end.

Definition SelectAllTypes (type_kind : Z) (record_set : RecordSet)
  : Exec (Status * RecordSet) :=
  ExecuteQuery (select_all_types more) [Bind_int64 type_kind] record_set.

Definition ListArtifactIDsUsingOptions := ListNodeIDsUsingOptions NodeArtifact.
Definition ListExecutionIDsUsingOptions := ListNodeIDsUsingOptions NodeExecution.
Definition ListContextIDsUsingOptions := ListNodeIDsUsingOptions NodeContext.

End Statements.

(** *** Devices for the proofs about substitution *)

(** A key that starts with a dollar sign, as all keys built by
    [ExecuteQuery] do. *)
Definition dollar_key (kv : string * string) : Prop :=
  exists rest, fst kv = String "$" rest.

(** The decimal digit [j] as a character, and the placeholder it makes. *)
Definition digit_char (j : nat) : ascii := ascii_of_nat (48 + j).

Definition digit_key (j : nat) : string := String "$" (String (digit_char j) "").

(** The replacement pairs for the given parameters, numbered from
    [offset]. *)
Fixpoint keyed_by (key : nat -> string) (offset : nat) (parameters : list string)
  : list (string * string) :=
  match parameters with
  | [] => []
  | p :: rest => (key offset, p) :: keyed_by key (S offset) rest
  end.

(** ** A small metadata source for running the executor on examples *)

Module Toy.

(** The state of the toy source: the rows of [MLMDEnv] when the table
    exists, whether the tables of release 0.13.2 are there, what the header
    checks answer, whether [ParentType] and [ParentContext] exist, whether
    an insert of the schema version goes through, and the statements run so
    far. *)
Record ToyDB : Type := MkToyDB {
  toy_env : option (list string);
  toy_legacy : bool;
  toy_tables_present : bool;
  toy_parent_tables : bool;
  toy_insert_succeeds : bool;
  toy_executed : list string
}.

Definition check_env_sql : string := "SELECT `schema_version` FROM `MLMDEnv`;".
Definition check_legacy_sql : string := "SELECT `type_id` FROM `Artifact` LIMIT 1;".
Definition check_parent_type_sql : string := "SELECT `type_id` FROM `ParentType` LIMIT 1;".
Definition check_parent_context_sql : string :=
  "SELECT `context_id` FROM `ParentContext` LIMIT 1;".
Definition failing_sql : string := "SELECT broken;".
Definition duplicate_index_sql : string := "CREATE INDEX `idx_dup` ON `Artifact`(`uri`);".

Definition toy_source (sql : string) (record_set : RecordSet) (d : ToyDB)
  : Status * RecordSet * ToyDB :=
  if String.eqb sql check_env_sql then
    match toy_env d with
    | Some rows =>
        (OkStatus,
         MkRecordSet ["schema_version"] (map (fun c => MkRecord [c]) rows), d)
    | None => (InternalError "no such table: MLMDEnv", record_set, d)
    end
  else if String.eqb sql check_legacy_sql then
    if toy_legacy d then (OkStatus, MkRecordSet ["type_id"] [], d)
    else (InternalError "no such table: Artifact", record_set, d)
  else if (String.eqb sql check_parent_type_sql
           || String.eqb sql check_parent_context_sql)%bool then
    if toy_parent_tables d then (OkStatus, record_set, d)
    else (InternalError "no such table", record_set, d)
  else if String.eqb sql failing_sql then
    (InternalError "syntax error", record_set, d)
  else if String.eqb sql duplicate_index_sql then
    (InternalError "Duplicate key name 'idx_dup'", record_set, d)
  else
    (OkStatus, record_set,
     MkToyDB (toy_env d) (toy_legacy d) (toy_tables_present d)
       (toy_parent_tables d) (toy_insert_succeeds d) (toy_executed d ++ [sql])).

Definition toy_header (call : HeaderCall) (d : ToyDB) : (Status + string) * ToyDB :=
  match call with
  | UpdateSchemaVersion v =>
      (inl OkStatus,
       MkToyDB (Some [to_string v]) (toy_legacy d) (toy_tables_present d)
         (toy_parent_tables d) (toy_insert_succeeds d) (toy_executed d))
  | InsertSchemaVersion v =>
      if toy_insert_succeeds d then
        (inl OkStatus,
         MkToyDB (Some (default [] (toy_env d) ++ [to_string v])%list) (toy_legacy d)
           (toy_tables_present d) (toy_parent_tables d) (toy_insert_succeeds d)
           (toy_executed d))
      else (inl (MkStatus kAlreadyExists "schema_version exists"), d)
  | CheckSchemaVersionAlignsWithQueryVersion => (inl OkStatus, d)
  | _ =>
      if toy_tables_present d then (inl OkStatus, d)
      else (inl (InternalError "no such table"), d)
  end.

(** A decimal reader standing for [absl::SimpleAtoi] in the examples: an
    optional minus sign and at least one digit. *)
Definition digit_of (c : ascii) : option Z :=
  let n := Z.of_nat (nat_of_ascii c) in
  if ((48 <=? n) && (n <=? 57))%Z%bool then Some (n - 48)%Z else None.

Fixpoint read_digits (s : string) (acc : Z) : option Z :=
  match s with
  | EmptyString => Some acc
  | String c rest =>
      match digit_of c with
      | Some d => read_digits rest (10 * acc + d)%Z
      | None => None
      end
  end.

Definition toy_atoi (s : string) : option Z :=
  match s with
  | EmptyString => None
  | String "-" EmptyString => None
  | String "-" rest => option_map Z.opp (read_digits rest 0)
  | _ => read_digits s 0
  end.

(** The page tokens the toy decoder knows. *)
Definition toy_decode (options : ListOperationOptions)
  : option ListOperationNextPageToken :=
  if String.eqb (next_page_token options) "token-56894-100" then
    Some (MkListOperationNextPageToken 56894 (Some 100) [] options)
  else None.

Definition toy_threshold (options : ListOperationOptions) (sql : string)
  : Status * string :=
  match toy_decode options with
  | Some token =>
      ListOperationQueryHelper.AppendOrderingThresholdClause options token sql
  | None => (InvalidArgumentError "Failed to decode next page token", sql)
  end.

#[local] Instance toy : Collaborators := {|
  DB := ToyDB;
  source_ExecuteQuery := toy_source;
  header_effect := toy_header;
  SimpleAtoi := toy_atoi;
  RecordSet_DebugString := fun _ => "<RecordSet>";
  TemplateQuery_DebugString := fun t => query t;
  AppendOrderingThresholdClause := toy_threshold;
  AppendOrderByClause := ListOperationQueryHelper.AppendOrderByClause;
  AppendLimitClause := ListOperationQueryHelper.AppendLimitClause
|}.

Definition T (sql : string) : TemplateQuery := MkTemplateQuery sql 0.

(** A catalogue at library version 3 with migration schemes to versions 0
    to 3. *)
Definition toy_config : MetadataSourceQueryConfig := {|
  schema_version := 3;
  check_mlmd_env_table := T check_env_sql;
  check_tables_in_v0_13_2 := T check_legacy_sql;
  check_parent_type_table := T check_parent_type_sql;
  check_parent_context_table := T check_parent_context_sql;
  create_type_table := T "CREATE TABLE `Type`;";
  create_type_property_table := T "CREATE TABLE `TypeProperty`;";
  create_parent_type_table := T "CREATE TABLE `ParentType`;";
  create_artifact_table := T "CREATE TABLE `Artifact`;";
  create_artifact_property_table := T "CREATE TABLE `ArtifactProperty`;";
  create_execution_table := T "CREATE TABLE `Execution`;";
  create_execution_property_table := T "CREATE TABLE `ExecutionProperty`;";
  create_event_table := T "CREATE TABLE `Event`;";
  create_event_path_table := T "CREATE TABLE `EventPath`;";
  create_mlmd_env_table := T "CREATE TABLE `MLMDEnv`;";
  create_context_table := T "CREATE TABLE `Context`;";
  create_context_property_table := T "CREATE TABLE `ContextProperty`;";
  create_parent_context_table := T "CREATE TABLE `ParentContext`;";
  create_association_table := T "CREATE TABLE `Association`;";
  create_attribution_table := T "CREATE TABLE `Attribution`;";
  secondary_indices :=
    [T "CREATE INDEX `idx_artifact_uri` ON `Artifact`(`uri`);";
     T duplicate_index_sql];
  migration_schemes :=
    <[0%Z := MkMigrationScheme [] [T "down to 0 a"; T "down to 0 b"]]>
    (<[1%Z := MkMigrationScheme [T "up to 1"] [T "down to 1"]]>
    (<[2%Z := MkMigrationScheme [T "up to 2 a"; T "up to 2 b"] [T "down to 2"]]>
    (<[3%Z := MkMigrationScheme [T "up to 3"] []]> ∅)))
|}.

Definition toy_executor : QueryConfigExecutor := MkQueryConfigExecutor toy_config None.

(** A catalogue whose scheme to version 2 is missing. *)
Definition gap_config : MetadataSourceQueryConfig := {|
  schema_version := 3;
  check_mlmd_env_table := T check_env_sql;
  check_tables_in_v0_13_2 := T check_legacy_sql;
  check_parent_type_table := check_parent_type_table toy_config;
  check_parent_context_table := check_parent_context_table toy_config;
  create_type_table := create_type_table toy_config;
  create_type_property_table := create_type_property_table toy_config;
  create_parent_type_table := create_parent_type_table toy_config;
  create_artifact_table := create_artifact_table toy_config;
  create_artifact_property_table := create_artifact_property_table toy_config;
  create_execution_table := create_execution_table toy_config;
  create_execution_property_table := create_execution_property_table toy_config;
  create_event_table := create_event_table toy_config;
  create_event_path_table := create_event_path_table toy_config;
  create_mlmd_env_table := create_mlmd_env_table toy_config;
  create_context_table := create_context_table toy_config;
  create_context_property_table := create_context_property_table toy_config;
  create_parent_context_table := create_parent_context_table toy_config;
  create_association_table := create_association_table toy_config;
  create_attribution_table := create_attribution_table toy_config;
  secondary_indices := secondary_indices toy_config;
  migration_schemes := delete 2%Z (migration_schemes toy_config)
|}.

Definition gap_executor : QueryConfigExecutor := MkQueryConfigExecutor gap_config None.

(** A catalogue whose scheme to version 2 holds a statement the source
    refuses, in both directions. *)
Definition broken_config : MetadataSourceQueryConfig := {|
  schema_version := 3;
  check_mlmd_env_table := T check_env_sql;
  check_tables_in_v0_13_2 := T check_legacy_sql;
  check_parent_type_table := check_parent_type_table toy_config;
  check_parent_context_table := check_parent_context_table toy_config;
  create_type_table := create_type_table toy_config;
  create_type_property_table := create_type_property_table toy_config;
  create_parent_type_table := create_parent_type_table toy_config;
  create_artifact_table := create_artifact_table toy_config;
  create_artifact_property_table := create_artifact_property_table toy_config;
  create_execution_table := create_execution_table toy_config;
  create_execution_property_table := create_execution_property_table toy_config;
  create_event_table := create_event_table toy_config;
  create_event_path_table := create_event_path_table toy_config;
  create_mlmd_env_table := create_mlmd_env_table toy_config;
  create_context_table := create_context_table toy_config;
  create_context_property_table := create_context_property_table toy_config;
  create_parent_context_table := create_parent_context_table toy_config;
  create_association_table := create_association_table toy_config;
  create_attribution_table := create_attribution_table toy_config;
  secondary_indices := secondary_indices toy_config;
  migration_schemes :=
    <[2%Z := MkMigrationScheme
               [T "up to 2 a"; T failing_sql; T "up to 2 c"]
               [T "down to 2 a"; T failing_sql; T "down to 2 c"]]>
      (migration_schemes toy_config)
|}.

Definition broken_executor : QueryConfigExecutor :=
  MkQueryConfigExecutor broken_config None.

(** A database whose [MLMDEnv] holds the given rows, with all tables; a
    database at the given schema version; a database of release 0.13.2; an
    empty database; a database on which only [ParentType] and
    [ParentContext] are missing. *)
Definition db_rows (rows : list string) : ToyDB :=
  MkToyDB (Some rows) true true true true [].
Definition db_at (v : Z) : ToyDB := db_rows [to_string v].
Definition db_legacy : ToyDB := MkToyDB None true true true true [].
Definition db_empty : ToyDB := MkToyDB None false false false true [].
Definition db_partial : ToyDB := MkToyDB (Some ["3"]) true true false true [].
(** An empty database on which another initializer writes the schema
    version first: the insert fails and the version on record is [v]. *)
Definition db_raced (v : Z) : ToyDB :=
  MkToyDB (Some [to_string v]) false false false false [].

Definition start (d : ToyDB) : World := MkWorld d [].

(** The world after the first probe of [GetSchemaVersion], and after
    both. *)
Definition probed (d : ToyDB) : World := MkWorld d [SourceQuery check_env_sql].
Definition probed_twice (d : ToyDB) : World :=
  MkWorld d [SourceQuery check_env_sql; SourceQuery check_legacy_sql].

(** A template that declares one parameter. *)
Definition select_type_by_id : TemplateQuery :=
  MkTemplateQuery "SELECT * FROM `Type` WHERE id = $0;" 1.

Definition eleven_parameters : list string :=
  ["0"; "1"; "2"; "3"; "4"; "5"; "6"; "7"; "8"; "9"; "10"].

End Toy.

(** ** A source and templates for running the typed statements *)

Module ToyStatements.

Definition last_insert_sql : string := "SELECT last_insert_rowid();".

(** The toy source, answering [last_insert_sql] with the rows of
    [toy_env]; an empty row text stands for a record without cells. *)
Definition toy_source2 (sql : string) (record_set : RecordSet) (d : Toy.ToyDB)
  : Status * RecordSet * Toy.ToyDB :=
  if String.eqb sql last_insert_sql then
    (OkStatus,
     MkRecordSet ["last_insert_rowid()"]
       (map (fun c => MkRecord (if String.eqb c "" then [] else [c]))
          (default [] (Toy.toy_env d))),
     d)
  else Toy.toy_source sql record_set d.

#[local] Instance toy2 : Collaborators := {|
  DB := Toy.ToyDB;
  source_ExecuteQuery := toy_source2;
  header_effect := Toy.toy_header;
  SimpleAtoi := Toy.toy_atoi;
  RecordSet_DebugString := fun _ => "<RecordSet>";
  TemplateQuery_DebugString := fun t => query t;
  AppendOrderingThresholdClause := Toy.toy_threshold;
  AppendOrderByClause := ListOperationQueryHelper.AppendOrderByClause;
  AppendLimitClause := ListOperationQueryHelper.AppendLimitClause
|}.

Definition insert_parent_context_segments : list Segment :=
  [Lit "INSERT INTO `ParentContext`(`context_id`, `parent_context_id`) VALUES (";
   Param 0; Lit ", "; Param 1; Lit ");"].

Definition insert_event_path_segments : list Segment :=
  [Lit "INSERT INTO `EventPath`(`event_id`, `is_index_step`, `"; Param 1;
   Lit "`) VALUES ("; Param 0; Lit ", "; Param 2; Lit ", "; Param 3; Lit ");"].

Definition select_by_id_segments : list Segment :=
  [Lit "SELECT * FROM `Type` WHERE id = "; Param 0; Lit " AND type_kind = ";
   Param 1; Lit ";"].

Definition toy_more : MoreTemplates := {|
  insert_parent_type :=
    MkTemplateQuery "INSERT INTO `ParentType`(`type_id`, `parent_type_id`) VALUES ($0, $1);" 2;
  select_parent_type_by_type_id :=
    MkTemplateQuery "SELECT * FROM `ParentType` WHERE `type_id` = $0;" 1;
  insert_event_path := MkTemplateQuery (render insert_event_path_segments) 4;
  insert_parent_context := MkTemplateQuery (render insert_parent_context_segments) 2;
  select_parent_context_by_context_id :=
    MkTemplateQuery "SELECT * FROM `ParentContext` WHERE `context_id` = $0;" 1;
  select_parent_context_by_parent_context_id :=
    MkTemplateQuery "SELECT * FROM `ParentContext` WHERE `parent_context_id` = $0;" 1;
  select_last_insert_id := MkTemplateQuery last_insert_sql 0;
  select_type_by_id := MkTemplateQuery (render select_by_id_segments) 2;
  select_type_by_name_and_version :=
    MkTemplateQuery "SELECT * FROM `Type` WHERE name = $0 AND version = $1 AND type_kind = $2;" 3;
  select_type_by_name :=
    MkTemplateQuery "SELECT * FROM `Type` WHERE name = $0 AND version IS NULL AND type_kind = $1;" 2;
  select_all_types := MkTemplateQuery "SELECT * FROM `Type` WHERE type_kind = $0;" 1
|}.

(** The same templates with a statement for the last insert id that the
    source rejects, and with an [insert_event_path] that declares three
    parameters. *)
Definition broken_more : MoreTemplates := {|
  insert_parent_type := insert_parent_type toy_more;
  select_parent_type_by_type_id := select_parent_type_by_type_id toy_more;
  insert_event_path := MkTemplateQuery (render insert_event_path_segments) 3;
  insert_parent_context := insert_parent_context toy_more;
  select_parent_context_by_context_id := select_parent_context_by_context_id toy_more;
  select_parent_context_by_parent_context_id :=
    select_parent_context_by_parent_context_id toy_more;
  select_last_insert_id := MkTemplateQuery Toy.failing_sql 0;
  select_type_by_id := select_type_by_id toy_more;
  select_type_by_name_and_version := select_type_by_name_and_version toy_more;
  select_type_by_name := select_type_by_name toy_more;
  select_all_types := select_all_types toy_more
|}.

(** An escaping that puts a backslash before every single quote. *)
Definition toy_escape (s : string) : string := StrReplaceAll s [("'", "\'")].

Definition toy_leftover (s : string) : Z := 0.

Definition start (d : Toy.ToyDB) : World := MkWorld d [].

(** A catalogue at library version 3 without a scheme to version 2, and a
    catalogue whose first upgrade query to version 2 fails. *)
Definition failing_upgrade : list TemplateQuery :=
  [Toy.T "up to 2 a"; Toy.T Toy.failing_sql; Toy.T "up to 2 c"].

Definition pinned_executor : QueryConfigExecutor :=
  MkQueryConfigExecutor Toy.toy_config (Some 2).

Definition page_options (size : Z) : ListOperationOptions :=
  MkListOperationOptions size (MkOrderByField CREATE_TIME true) "token-56894-100".

End ToyStatements.

(** ** mlmd_bench: the bytes a read workload transfers

    [read_nodes_by_properties_workload.cc] and
    [read_nodes_via_context_edges_workload.cc] carry the same byte counters
    (named [GetTransferredBytes] in the first and
    [GetTransferredBytesForNode] in the second).  Sizes are added in
    [int64]; a sum of sizes of strings held in memory stays below [2^63],
    so no wrap-around is written out. *)

Module MlmdBench.

(** The [oneof] of a property [Value]; a double is kept as its 64 bits. *)
Inductive Value : Type :=
  | int_value (v : Z)
  | double_value (bits : Z)
  | string_value (s : string)
  | struct_value (json : string)
  | value_not_set.

(** The accessor [Value::string_value()]: the default, empty string when
    the value is not a string. *)
Definition Value_string_value (v : Value) : string :=
  match v with
  | string_value s => s
  | _ => ""
  end.

(** The fields of [Artifact], [Execution] and [Context] that the counters
    read. *)
Record Artifact : Type := MkArtifact {
  artifact_id : Z;
  artifact_name : string;
  artifact_type : string;
  artifact_uri : string;
  artifact_properties : gmap string Value;
  artifact_custom_properties : gmap string Value
}.

Record Execution : Type := MkExecution {
  execution_id : Z;
  execution_name : string;
  execution_type : string;
  execution_properties : gmap string Value;
  execution_custom_properties : gmap string Value
}.

Record Context : Type := MkContext {
  context_id : Z;
  context_name : string;
  context_type : string;
  context_properties : gmap string Value;
  context_custom_properties : gmap string Value
}.

(** [Node], the variant over the three kinds. *)
Inductive Node : Type :=
  | ArtifactNode (a : Artifact)
  | ExecutionNode (e : Execution)
  | ContextNode (c : Context).

Inductive NodeKind : Type := KArtifact | KExecution | KContext.

Definition kInt64IdSize : Z := 8.
Definition kInt64TypeIdSize : Z := 8.
Definition kInt64CreateTimeSize : Z := 8.
Definition kInt64LastUpdateTimeSize : Z := 8.
Definition kEnumStateSize : Z := 1.

Definition size (s : string) : Z := Z.of_nat (String.length s).

(** One turn of the loop of [GetTransferredBytesForNodeProperties]. *)
Definition add_property (name : string) (value : Value) (bytes : Z) : Z :=
  bytes + size name + size (Value_string_value value).

Definition GetTransferredBytesForNodeProperties (properties : gmap string Value)
  : Z :=
  map_fold add_property 0 properties.

Definition GetTransferredBytes_Artifact (node : Artifact) : Z :=
  kInt64IdSize + kInt64TypeIdSize + kInt64CreateTimeSize + kInt64LastUpdateTimeSize
  + size (artifact_name node) + size (artifact_type node) + size (artifact_uri node)
  + kEnumStateSize
  + GetTransferredBytesForNodeProperties (artifact_properties node)
  + GetTransferredBytesForNodeProperties (artifact_custom_properties node).

Definition GetTransferredBytes_Execution (node : Execution) : Z :=
  kInt64IdSize + kInt64TypeIdSize + kInt64CreateTimeSize + kInt64LastUpdateTimeSize
  + size (execution_name node) + size (execution_type node)
  + kEnumStateSize
  + GetTransferredBytesForNodeProperties (execution_properties node)
  + GetTransferredBytesForNodeProperties (execution_custom_properties node).

Definition GetTransferredBytes_Context (node : Context) : Z :=
  kInt64IdSize + kInt64TypeIdSize + kInt64CreateTimeSize + kInt64LastUpdateTimeSize
  + size (context_name node) + size (context_type node)
  + GetTransferredBytesForNodeProperties (context_properties node)
  + GetTransferredBytesForNodeProperties (context_custom_properties node).

(** [absl::get<NT>(node)] followed by the overload of [GetTransferredBytes]
    and by [type()]: [None] stands for [absl::bad_variant_access], raised
    when the node holds another kind. *)
Definition bytes_as (kind : NodeKind) (node : Node) : option Z :=
  match kind, node with
  | KArtifact, ArtifactNode a => Some (GetTransferredBytes_Artifact a)
  | KExecution, ExecutionNode e => Some (GetTransferredBytes_Execution e)
  | KContext, ContextNode c => Some (GetTransferredBytes_Context c)
  | _, _ => None
  end.

Definition type_as (kind : NodeKind) (node : Node) : option string :=
  match kind, node with
  | KArtifact, ArtifactNode a => Some (artifact_type a)
  | KExecution, ExecutionNode e => Some (execution_type e)
  | KContext, ContextNode c => Some (context_type c)
  | _, _ => None
  end.

(** The loop of [GetTransferredBytesForAllNodesUnderAType<NT>], from the
    running count [bytes]. *)
Fixpoint all_nodes_under_a_type_from (kind : NodeKind) (type_name : string)
  (existing_nodes : list Node) (bytes : Z) : option Z :=
  match existing_nodes with
  | [] => Some bytes
  | node :: rest =>
      match type_as kind node, bytes_as kind node with
      | Some type, Some node_bytes =>
          all_nodes_under_a_type_from kind type_name rest
            (if String.eqb type type_name then bytes + node_bytes else bytes)
      | _, _ => None
      end
  end.

Definition GetTransferredBytesForAllNodesUnderAType (kind : NodeKind)
  (type_name : string) (existing_nodes : list Node) : option Z :=
  all_nodes_under_a_type_from kind type_name existing_nodes 0.

(** The nodes of the given kind and type. *)
Definition under_type (kind : NodeKind) (type_name : string) (node : Node) : bool :=
  match type_as kind node with
  | Some type => String.eqb type type_name
  | None => false
  end.

(** Two artifacts for the examples. *)
Definition model_a : Artifact :=
  MkArtifact 1 "a" "Model" "gs://a"
    (<["accuracy" := double_value 0]> (<["owner" := string_value "ann"]> ∅)) ∅.

Definition data_b : Artifact := MkArtifact 2 "b" "Data" "gs://b" ∅ ∅.

End MlmdBench.

(** * Properties *)

(** ** The list-operation query helper against its tests *)

Module ListOperationQueryHelperTest.
Import ListOperationQueryHelper.

Example OrderingWhereClauseDesc :
  AppendOrderingThresholdClause BasicListOperationOptionsDesc
    (BasicListOperationNextPageToken BasicListOperationOptionsDesc) ""
  = (OkStatus, " `create_time_since_epoch` <= 56894 AND `id` < 100 ").
Proof. vm_compute. reflexivity. Qed.

Example OrderingWhereClauseAsc :
  AppendOrderingThresholdClause BasicListOperationOptionsAsc
    (BasicListOperationNextPageToken BasicListOperationOptionsAsc) ""
  = (OkStatus, " `create_time_since_epoch` >= 56894 AND `id` > 100 ").
Proof. vm_compute. reflexivity. Qed.

Example OrderingOnLastUpdateTimeDesc :
  let options := MkListOperationOptions 1 (MkOrderByField LAST_UPDATE_TIME false) "" in
  AppendOrderingThresholdClause options
    (MkListOperationNextPageToken 56894 None [6; 5] options) ""
  = (OkStatus, " `last_update_time_since_epoch` <= 56894 AND `id` NOT IN (6,5) ").
Proof. vm_compute. reflexivity. Qed.

Example OrderingWhereClauseById :
  let options := MkListOperationOptions 1 (MkOrderByField ID false) "" in
  AppendOrderingThresholdClause options
    (MkListOperationNextPageToken 100 None [] options) ""
  = (OkStatus, " `id` < 100 ").
Proof. vm_compute. reflexivity. Qed.

Example OrderByClauseDesc :
  AppendOrderByClause BasicListOperationOptionsDesc ""
  = (OkStatus, " ORDER BY `create_time_since_epoch` DESC, `id` DESC ").
Proof. vm_compute. reflexivity. Qed.

Example OrderByClauseAsc :
  AppendOrderByClause BasicListOperationOptionsAsc ""
  = (OkStatus, " ORDER BY `create_time_since_epoch` ASC, `id` ASC ").
Proof. vm_compute. reflexivity. Qed.

Example OrderByClauseById :
  AppendOrderByClause (MkListOperationOptions 1 (MkOrderByField ID false) "") ""
  = (OkStatus, " ORDER BY `id` DESC ").
Proof. vm_compute. reflexivity. Qed.

Example LimitClause :
  AppendLimitClause BasicListOperationOptionsDesc "" = (OkStatus, " LIMIT 1 ").
Proof. vm_compute. reflexivity. Qed.

Example LimitOverMaxClause :
  AppendLimitClause
    (MkListOperationOptions 200 (MkOrderByField CREATE_TIME false) "") ""
  = (OkStatus, " LIMIT 101 ").
Proof. vm_compute. reflexivity. Qed.

Example InvalidLimit :
  IsInvalidArgument
    (fst (AppendLimitClause
            (MkListOperationOptions 0 (MkOrderByField CREATE_TIME false) "") ""))
  = true.
Proof. vm_compute. reflexivity. Qed.

End ListOperationQueryHelperTest.

Section LimitClauseOfAnyHelper.

(** Whatever the body of [AppendLimitClause] is, the expectation of the test
    [LimitClause] already excludes one row more than the page size: a
    helper that passes the test emits [LIMIT 1], not [LIMIT 2], for a
    [max_result_size] of 1. *)
Variable helper : ListOperationOptions -> string -> Status * string.
Hypothesis passes_LimitClause :
  helper ListOperationQueryHelper.BasicListOperationOptionsDesc ""
  = (OkStatus, " LIMIT 1 ").

Lemma LimitClause_test_excludes_one_more :
  helper ListOperationQueryHelper.BasicListOperationOptionsDesc ""
  <> (OkStatus, StrCat [" LIMIT "; to_string (Z.min 1 100 + 1); " "]).
Proof. rewrite passes_LimitClause. vm_compute. discriminate. Qed.

End LimitClauseOfAnyHelper.

(** C6. For each of the three ordering fields, both directions and both
    shapes of page token, [AppendOrderingThresholdClause] returns OK and
    appends exactly the prescribed fragment: for [ID], [`id`] compared
    strictly with [field_offset]; for a time field with [id_offset] set, the
    field column compared inclusively with [field_offset] and [`id`]
    compared strictly with [id_offset]; for a time field without
    [id_offset], the field column compared inclusively with [field_offset]
    and [`id` NOT IN] the comma-joined [listed_ids]. *)
Theorem AppendOrderingThresholdClause_fragment :
  forall (max : Z) (asc : bool) (page : string) (fo : Z) (ids : list Z)
         (set : ListOperationOptions) (clause : string),
    let opts f := MkListOperationOptions max (MkOrderByField f asc) page in
    let run f ido :=
      ListOperationQueryHelper.AppendOrderingThresholdClause (opts f)
        (MkListOperationNextPageToken fo ido ids set) clause in
    (forall ido,
       run ID ido =
       (OkStatus,
        clause ++ " `id` " ++ (if asc then ">" else "<") ++ " "
        ++ to_string fo ++ " ")) /\
    (forall io,
       run CREATE_TIME (Some io) =
       (OkStatus,
        clause ++ " `create_time_since_epoch` " ++ (if asc then ">=" else "<=")
        ++ " " ++ to_string fo ++ " AND `id` " ++ (if asc then ">" else "<")
        ++ " " ++ to_string io ++ " ") /\
       run LAST_UPDATE_TIME (Some io) =
       (OkStatus,
        clause ++ " `last_update_time_since_epoch` "
        ++ (if asc then ">=" else "<=")
        ++ " " ++ to_string fo ++ " AND `id` " ++ (if asc then ">" else "<")
        ++ " " ++ to_string io ++ " ")) /\
    run CREATE_TIME None =
    (OkStatus,
     clause ++ " `create_time_since_epoch` " ++ (if asc then ">=" else "<=")
     ++ " " ++ to_string fo ++ " AND `id` NOT IN ("
     ++ String.concat "," (map to_string ids) ++ ") ") /\
    run LAST_UPDATE_TIME None =
    (OkStatus,
     clause ++ " `last_update_time_since_epoch` "
     ++ (if asc then ">=" else "<=")
     ++ " " ++ to_string fo ++ " AND `id` NOT IN ("
     ++ String.concat "," (map to_string ids) ++ ") ").
Proof.
  intros max asc page fo ids set clause opts run.
  unfold run, opts, ListOperationQueryHelper.AppendOrderingThresholdClause,
    ListOperationQueryHelper.inclusive_op, ListOperationQueryHelper.strict_op,
    StrJoin, StrCat.
  repeat split; intros; destruct asc; cbn; reflexivity.
Qed.

(** C7, as stated, fails on the expectation of the test [LimitClause]: for a
    [max_result_size] of 1 the helper emits [LIMIT 1], where
    [min(1, 100) + 1] would be [LIMIT 2]. *)
Lemma AppendLimitClause_not_one_more :
  ListOperationQueryHelper.AppendLimitClause
    (MkListOperationOptions 1 (MkOrderByField CREATE_TIME false) "") ""
  <> (OkStatus, StrCat [" LIMIT "; to_string (Z.min 1 100 + 1); " "]).
Proof. vm_compute. discriminate. Qed.

(** C7, amended.  For a [max_result_size] of [k]: when [k <= 0] the helper
    returns [InvalidArgument] and leaves the clause as it was; when [k > 0]
    it returns OK and appends [LIMIT min(k, 101)], which is [k] itself up to
    101 and 101 above. *)
Theorem AppendLimitClause_cap :
  forall (options : ListOperationOptions) (clause : string),
    let k := max_result_size options in
    let r := ListOperationQueryHelper.AppendLimitClause options clause in
    (k <= 0 -> code (fst r) = kInvalidArgument /\ snd r = clause) /\
    (0 < k ->
     r = (OkStatus, clause ++ " LIMIT " ++ to_string (Z.min k 101) ++ " ") /\
     (k <= 101 -> Z.min k 101 = k) /\
     (101 <= k -> Z.min k 101 = 101)).
Proof.
  intros options clause k r. subst k r.
  unfold ListOperationQueryHelper.AppendLimitClause,
    ListOperationQueryHelper.kMaxLimit.
  split; intros Hk.
  - assert (E : (max_result_size options <=? 0)%Z = true) by (apply Z.leb_le; lia).
    rewrite E. cbn. split; reflexivity.
  - assert (E : (max_result_size options <=? 0)%Z = false) by (apply Z.leb_gt; lia).
    rewrite E. unfold StrCat. cbn. repeat split; intros; lia.
Qed.

Lemma AppendLimitClause_cap_witness :
  code (fst (ListOperationQueryHelper.AppendLimitClause
               (MkListOperationOptions 0 (MkOrderByField CREATE_TIME false) "")
               "SELECT"))
  = kInvalidArgument /\
  ListOperationQueryHelper.AppendLimitClause
    (MkListOperationOptions 200 (MkOrderByField ID false) "") "SELECT"
  = (OkStatus, "SELECT LIMIT 101 ").
Proof.
  split.
  - pose proof (AppendLimitClause_cap
                  (MkListOperationOptions 0 (MkOrderByField CREATE_TIME false) "")
                  "SELECT") as [Hneg _].
    destruct Hneg as [Hcode _]; [simpl; lia|].
    exact Hcode.
  - pose proof (AppendLimitClause_cap
                  (MkListOperationOptions 200 (MkOrderByField ID false) "")
                  "SELECT") as [_ Hpos].
    destruct Hpos as [Heq _]; [simpl; lia|].
    exact Heq.
Defined.

(** ** The executor *)

Lemma StrReplaceAll_nil (s : string) : StrReplaceAll s [] = s.
Proof.
  unfold StrReplaceAll.
  induction s as [|c s IH]; simpl; [reflexivity|].
  now rewrite IH.
Qed.

Lemma ok_with_context (context : string) (s : Status) :
  ok (with_context context s) = ok s.
Proof. reflexivity. Qed.

Section ExecutorProperties.

Context `{Collaborators}.
Variable this : QueryConfigExecutor.

(** *** Single calls and their traces *)

Lemma metadata_source_ExecuteQuery_returns (sql : string) (rs : RecordSet) (w : World) :
  exists st rs' d,
    metadata_source_ExecuteQuery sql rs w
    = (Returned (st, rs'), MkWorld d (trace w ++ [SourceQuery sql])).
Proof.
  unfold metadata_source_ExecuteQuery.
  destruct (source_ExecuteQuery sql rs (db w)) as [[st rs'] d].
  now exists st, rs', d.
Qed.

Lemma header_trace (call : HeaderCall) (w w' : World) (o : Outcome Status) :
  header call w = (o, w') ->
  o <> OutOfFuel /\ trace w' = (trace w ++ [Header call])%list.
Proof.
  unfold header. destruct (header_effect call (db w)) as [[st|log] d];
    intros E; inversion E; subst; split; simpl; congruence.
Qed.

Lemma ExecuteQueryString_trace (sql : string) (w w' : World) (o : Outcome Status) :
  ExecuteQueryString sql w = (o, w') ->
  (exists st, o = Returned st) /\ trace w' = (trace w ++ [SourceQuery sql])%list.
Proof.
  unfold ExecuteQueryString, bind, ret.
  destruct (metadata_source_ExecuteQuery_returns sql empty_RecordSet w)
    as (st & rs' & d & E).
  rewrite E. intros E'. inversion E'; subst. split; [now exists st|reflexivity].
Qed.

(** A template run without parameters: the process ends when the template
    declares parameters, otherwise the text goes to the source unchanged. *)
Lemma ExecuteQuery_no_parameters (t : TemplateQuery) (rs : RecordSet) (w : World) :
  ExecuteQuery t [] rs w =
  if (parameter_num t =? 0)%Z
  then metadata_source_ExecuteQuery (query t) rs w
  else (Fatal (StrCat ["Template query parameter_num does not match with given ";
                       "parameters size ("; to_string 0; "): ";
                       TemplateQuery_DebugString t]), w).
Proof.
  unfold ExecuteQuery.
  change (length (@nil string)) with O.
  change (Z.of_nat 0) with 0%Z.
  change (10 <? 0)%nat with false. cbv iota.
  destruct (parameter_num t =? 0)%Z; simpl; [|reflexivity].
  unfold make_replacements. simpl. now rewrite StrReplaceAll_nil.
Qed.

Lemma ExecuteQuery_no_parameters_trace (t : TemplateQuery) (rs : RecordSet)
  (w w' : World) (o : Outcome (Status * RecordSet)) :
  ExecuteQuery t [] rs w = (o, w') ->
  ((exists r, o = Returned r) /\ trace w' = (trace w ++ [SourceQuery (query t)])%list)
  \/ ((exists log, o = Fatal log) /\ w' = w).
Proof.
  rewrite ExecuteQuery_no_parameters.
  destruct (parameter_num t =? 0)%Z.
  - destruct (metadata_source_ExecuteQuery_returns (query t) rs w)
      as (st & rs' & d & E).
    rewrite E. intros E'. inversion E'; subst. left. split; [eauto|reflexivity].
  - intros E'. inversion E'; subst. right. split; [eauto|reflexivity].
Qed.

Lemma ExecuteQueryTemplate_trace (t : TemplateQuery) (w w' : World)
  (o : Outcome Status) :
  ExecuteQueryTemplate t [] w = (o, w') ->
  ((exists st, o = Returned st) /\ trace w' = (trace w ++ [SourceQuery (query t)])%list)
  \/ ((exists log, o = Fatal log) /\ w' = w).
Proof.
  unfold ExecuteQueryTemplate, bind, ret.
  destruct (ExecuteQuery t [] empty_RecordSet w) as [o1 w1] eqn:E.
  apply ExecuteQuery_no_parameters_trace in E.
  destruct E as [[[r ->] Ht] | [[log ->] ->]]; intros E'; inversion E'; subst.
  - left. split; [eauto|assumption].
  - right. split; [eauto|reflexivity].
Qed.

(** *** Template execution *)

(** C8, amended.  Before any substitution or execution, [ExecuteQuery]
    returns [InvalidArgument] for every call with more than ten parameters,
    whatever the template declares; a call with at most ten parameters
    whose count differs from [parameter_num] ends the process through
    [LOG(FATAL)] and returns no status.  In both cases nothing reaches the
    source.  Only a call that passes both tests is substituted and run. *)
Theorem ExecuteQuery_arity_check :
  forall (t : TemplateQuery) (parameters : list string) (rs : RecordSet) (w : World),
    ((10 < length parameters)%nat ->
     exists msg,
       ExecuteQuery t parameters rs w
       = (Returned (InvalidArgumentError msg, rs), w)) /\
    ((length parameters <= 10)%nat ->
     parameter_num t <> Z.of_nat (length parameters) ->
     exists log, ExecuteQuery t parameters rs w = (Fatal log, w)) /\
    ((length parameters <= 10)%nat ->
     parameter_num t = Z.of_nat (length parameters) ->
     ExecuteQuery t parameters rs w
     = metadata_source_ExecuteQuery
         (StrReplaceAll (query t) (make_replacements parameters)) rs w).
Proof.
  intros t parameters rs w. unfold ExecuteQuery.
  repeat split.
  - intros Hmany.
    assert (E : (10 <? length parameters)%nat = true) by (apply Nat.ltb_lt; lia).
    rewrite E. eexists. reflexivity.
  - intros Hfew Hne.
    assert (E : (10 <? length parameters)%nat = false) by (apply Nat.ltb_ge; lia).
    rewrite E.
    assert (E2 : (parameter_num t =? Z.of_nat (length parameters))%Z = false)
      by (apply Z.eqb_neq; assumption).
    rewrite E2. simpl. eexists. reflexivity.
  - intros Hfew Heq.
    assert (E : (10 <? length parameters)%nat = false) by (apply Nat.ltb_ge; lia).
    rewrite E.
    assert (E2 : (parameter_num t =? Z.of_nat (length parameters))%Z = true)
      by (apply Z.eqb_eq; assumption).
    rewrite E2. reflexivity.
Qed.

(** *** The list of node ids *)

(** C9. For every node kind, every [ListOperationOptions] and every record
    set handed in, [ListNodeIDsUsingOptions] with candidate ids that are
    present but empty returns OK at once: the world, and with it the log of
    statements sent to the source, is unchanged, and the record set comes
    back as it went in (so an empty one stays empty). *)
Theorem ListNodeIDsUsingOptions_empty_candidates :
  forall (node : Node) (options : ListOperationOptions) (rs : RecordSet)
         (w : World),
    ListNodeIDsUsingOptions node options (Some []) rs w
    = (Returned (OkStatus, rs), w) /\
    ListNodeIDsUsingOptions node options (Some []) empty_RecordSet w
    = (Returned (OkStatus, empty_RecordSet), w).
Proof. intros node options rs w. split; reflexivity. Qed.

(** *** Schema probing *)

(** C2. [GetSchemaVersion] by cases on the two probes.  When
    [check_mlmd_env_table] returns OK: no row gives [Aborted], more than
    one row gives [DataLoss], exactly one row whose first cell reads as the
    [int64] [n] gives OK and [n].  When it does not return OK and
    [check_tables_in_v0_13_2] does, the version is 0; when neither does,
    the result is [NotFound].  On the error paths the caller's
    [db_version] is left as it was. *)
Theorem GetSchemaVersion_cases :
  forall (db_version : Z) (w w1 : World) (st1 : Status) (rs1 : RecordSet),
    ExecuteQuery (check_mlmd_env_table (query_config_ this)) [] empty_RecordSet w
    = (Returned (st1, rs1), w1) ->
    (ok st1 = true -> records rs1 = [] ->
     exists msg,
       GetSchemaVersion this db_version w
       = (Returned (AbortedError msg, db_version), w1)) /\
    (ok st1 = true -> (1 < length (records rs1))%nat ->
     exists msg,
       GetSchemaVersion this db_version w
       = (Returned (DataLossError msg, db_version), w1)) /\
    (ok st1 = true ->
     forall (record : RecordSet_Record) (cell : string) (cells : list string) (n : Z),
       records rs1 = [record] -> values record = cell :: cells ->
       SimpleAtoi cell = Some n ->
       GetSchemaVersion this db_version w = (Returned (OkStatus, n), w1)) /\
    (ok st1 = false ->
     forall (st2 : Status) (rs2 : RecordSet) (w2 : World),
       ExecuteQuery (check_tables_in_v0_13_2 (query_config_ this)) [] rs1 w1
       = (Returned (st2, rs2), w2) ->
       (ok st2 = true ->
        GetSchemaVersion this db_version w = (Returned (OkStatus, 0), w2)) /\
       (ok st2 = false ->
        exists msg,
          GetSchemaVersion this db_version w
          = (Returned (NotFoundError msg, db_version), w2))).
Proof.
  intros db_version w w1 st1 rs1 E1.
  unfold GetSchemaVersion, bind. rewrite E1. cbn [fst snd].
  split; [|split; [|split]].
  - intros Hok Hrows. rewrite Hok. unfold records_size. rewrite Hrows.
    cbn. eexists. reflexivity.
  - intros Hok Hrows. rewrite Hok. unfold records_size.
    assert (E0 : (Z.of_nat (length (records rs1)) =? 0)%Z = false)
      by (apply Z.eqb_neq; lia).
    assert (E2 : (1 <? Z.of_nat (length (records rs1)))%Z = true)
      by (apply Z.ltb_lt; lia).
    rewrite E0, E2. eexists. reflexivity.
  - intros Hok record cell cells n Hrows Hcells Hparse.
    rewrite Hok. unfold records_size. rewrite Hrows. cbn.
    rewrite Hcells, Hparse. reflexivity.
  - intros Hok st2 rs2 w2 E2. rewrite Hok, E2. cbn [fst].
    split; intros Hok2; rewrite Hok2; [reflexivity|eexists; reflexivity].
Qed.

Lemma GetSchemaVersion_trace (db_version : Z) (w w' : World)
  (o : Outcome (Status * Z)) :
  GetSchemaVersion this db_version w = (o, w') ->
  o <> OutOfFuel /\ exists t, trace w' = (trace w ++ t)%list.
Proof.
  unfold GetSchemaVersion, bind.
  destruct (ExecuteQuery (check_mlmd_env_table (query_config_ this)) []
              empty_RecordSet w) as [o1 w1] eqn:E1.
  apply ExecuteQuery_no_parameters_trace in E1.
  destruct E1 as [[[r1 ->] Ht1] | [[log ->] ->]].
  2:{ intros E; inversion E; subst. split; [discriminate|].
      exists []. now rewrite app_nil_r. }
  cbn [fst snd]. destruct (ok (fst r1)).
  - assert (Hdone : forall (o0 : Outcome (Status * Z)),
               o0 <> OutOfFuel -> (o0, w1) = (o, w') ->
               o <> OutOfFuel /\ exists t, trace w' = (trace w ++ t)%list).
    { intros o0 Hne E; inversion E; subst. split; [assumption|eauto]. }
    destruct (records_size (snd r1) =? 0)%Z; [apply Hdone; discriminate|].
    destruct (1 <? records_size (snd r1))%Z; [apply Hdone; discriminate|].
    destruct (records (snd r1)) as [|record records]; [apply Hdone; discriminate|].
    destruct (values record) as [|cell cells]; [apply Hdone; discriminate|].
    destruct (SimpleAtoi cell); apply Hdone; discriminate.
  - destruct (ExecuteQuery (check_tables_in_v0_13_2 (query_config_ this)) []
                (snd r1) w1) as [o2 w2] eqn:E2.
    apply ExecuteQuery_no_parameters_trace in E2.
    destruct E2 as [[[r2 ->] Ht2] | [[log ->] ->]].
    + cbn [fst]. destruct (ok (fst r2)); intros E; inversion E; subst;
        (split; [discriminate|]); rewrite Ht2, Ht1, <- app_assoc; eauto.
    + intros E; inversion E; subst. split; [discriminate|eauto].
Qed.

(** [NotFound] comes out of [GetSchemaVersion] only after both probes went
    to the source and neither returned OK; the caller's [db_version] is
    untouched. *)
Lemma GetSchemaVersion_NotFound (db_version v : Z) (w w' : World) (st : Status) :
  GetSchemaVersion this db_version w = (Returned (st, v), w') ->
  IsNotFound st = true ->
  v = db_version /\
  trace w' =
  (trace w ++ [SourceQuery (query (check_mlmd_env_table (query_config_ this)));
               SourceQuery (query (check_tables_in_v0_13_2 (query_config_ this)))])%list.
Proof.
  unfold GetSchemaVersion, bind.
  destruct (ExecuteQuery (check_mlmd_env_table (query_config_ this)) []
              empty_RecordSet w) as [o1 w1] eqn:E1.
  apply ExecuteQuery_no_parameters_trace in E1.
  destruct E1 as [[[r1 ->] Ht1] | [[log ->] ->]]; [|discriminate].
  cbn [fst snd]. destruct (ok (fst r1)).
  - destruct (records_size (snd r1) =? 0)%Z;
      [intros E; inversion E; subst; discriminate|].
    destruct (1 <? records_size (snd r1))%Z;
      [intros E; inversion E; subst; discriminate|].
    destruct (records (snd r1)) as [|record records]; [discriminate|].
    destruct (values record) as [|cell cells]; [discriminate|].
    destruct (SimpleAtoi cell); [|discriminate].
    intros E; inversion E; subst; discriminate.
  - destruct (ExecuteQuery (check_tables_in_v0_13_2 (query_config_ this)) []
                (snd r1) w1) as [o2 w2] eqn:E2.
    apply ExecuteQuery_no_parameters_trace in E2.
    destruct E2 as [[[r2 ->] Ht2] | [[log ->] ->]]; [|discriminate].
    cbn [fst]. destruct (ok (fst r2)); intros E; inversion E; subst;
      [discriminate|].
    intros _. split; [reflexivity|]. now rewrite Ht2, Ht1, <- app_assoc.
Qed.

(** *** Running events in order *)

Lemma runs_ret (st : Status) : runs_in_order (ret st) [].
Proof.
  intros w o w' E. inversion E; subst. split; [discriminate|].
  exists []. rewrite app_nil_r. repeat split; auto.
Qed.

Lemma runs_seq (f : Status -> Status) (m k : Exec Status) (e1 e2 : list Event) :
  (forall st, ok (f st) = ok st) ->
  runs_in_order m e1 -> runs_in_order k e2 ->
  runs_in_order (bind m (fun st => if ok st then k else ret (f st))) (e1 ++ e2).
Proof.
  intros Hf Hm Hk w o w' E. unfold bind in E.
  destruct (m w) as [[st|log|] wm] eqn:Em;
    destruct (Hm _ _ _ Em) as (Hfuel & t1 & Ht1 & Hp1 & Hall1).
  - destruct (ok st) eqn:Hok.
    + destruct (Hk _ _ _ E) as (Hfuel2 & t2 & Ht2 & Hp2 & Hall2).
      split; [assumption|]. exists (t1 ++ t2)%list.
      rewrite (Hall1 st eq_refl Hok) in *.
      split; [now rewrite Ht2, Ht1, app_assoc|].
      split; [now apply prefix_app|].
      intros st' Ho Hok'. now rewrite (Hall2 st' Ho Hok').
    + inversion E; subst. split; [discriminate|]. exists t1.
      split; [assumption|]. split; [now apply prefix_app_r|].
      intros st' Ho Hok'. inversion Ho; subst. rewrite Hf in Hok'. congruence.
  - inversion E; subst. split; [discriminate|]. exists t1.
    split; [assumption|]. split; [now apply prefix_app_r|]. discriminate.
  - congruence.
Qed.

Lemma runs_map (g : Status -> Status) (m : Exec Status) (e : list Event) :
  (forall st, ok (g st) = ok st) ->
  runs_in_order m e ->
  runs_in_order (bind m (fun st => ret (g st))) e.
Proof.
  intros Hg Hm w o w' E. unfold bind, ret in E.
  destruct (m w) as [[st|log|] wm] eqn:Em;
    destruct (Hm _ _ _ Em) as (Hfuel & t1 & Ht1 & Hp1 & Hall1);
    try congruence;
    inversion E; subst; (split; [discriminate|]).
  - exists t1. split; [assumption|]. split; [assumption|].
    intros st' Ho Hok'. inversion Ho; subst.
    rewrite Hg in Hok'. eauto.
  - exists t1. split; [assumption|]. split; [assumption|]. discriminate.
Qed.

Lemma runs_header (call : HeaderCall) : runs_in_order (header call) [Header call].
Proof.
  intros w o w' E. apply header_trace in E. destruct E as [Hfuel Ht].
  split; [assumption|]. exists [Header call]. repeat split; auto.
Qed.

Lemma runs_ExecuteQueryString (sql : string) :
  runs_in_order (ExecuteQueryString sql) [SourceQuery sql].
Proof.
  intros w o w' E. apply ExecuteQueryString_trace in E.
  destruct E as [[st ->] Ht]. split; [discriminate|].
  exists [SourceQuery sql]. repeat split; auto.
Qed.

Lemma runs_ExecuteQueryTemplate (t : TemplateQuery) :
  runs_in_order (ExecuteQueryTemplate t []) [SourceQuery (query t)].
Proof.
  intros w o w' E. apply ExecuteQueryTemplate_trace in E.
  destruct E as [[[st ->] Ht] | [[log ->] ->]]; (split; [discriminate|]).
  - exists [SourceQuery (query t)]. repeat split; auto.
  - exists []. rewrite app_nil_r. repeat split; [apply prefix_nil|discriminate].
Qed.

Lemma runs_run_upgrade_queries (queries : list TemplateQuery) :
  runs_in_order (run_upgrade_queries queries)
    (map (fun q => SourceQuery (query q)) queries).
Proof.
  induction queries as [|q rest IH]; simpl; [apply runs_ret|].
  apply (runs_seq (with_context _) _ _ [_] _);
    [reflexivity|apply runs_ExecuteQueryString|exact IH].
Qed.

Lemma runs_run_downgrade_queries (queries : list TemplateQuery) :
  runs_in_order (run_downgrade_queries queries)
    (map (fun q => SourceQuery (query q)) queries).
Proof.
  induction queries as [|q rest IH]; simpl; [apply runs_ret|].
  apply (runs_seq (with_context _) _ _ [_] _);
    [reflexivity|apply runs_ExecuteQueryTemplate|exact IH].
Qed.

(** *** The version lists *)

Lemma upgrade_versions_nil (db_version lib_version : Z) :
  lib_version <= db_version -> upgrade_versions db_version lib_version = [].
Proof. intros Hle. unfold upgrade_versions. apply seqZ_nil. lia. Qed.

Lemma upgrade_versions_cons (db_version lib_version : Z) :
  db_version < lib_version ->
  upgrade_versions db_version lib_version
  = (db_version + 1) :: upgrade_versions (db_version + 1) lib_version.
Proof.
  intros Hlt. unfold upgrade_versions. rewrite seqZ_cons by lia.
  f_equal. f_equal; lia.
Qed.

Lemma upgrade_versions_split (db_version v lib_version : Z) :
  db_version < v <= lib_version ->
  upgrade_versions db_version lib_version
  = (upgrade_versions db_version (v - 1) ++ v :: upgrade_versions v lib_version)%list.
Proof.
  intros Hv. unfold upgrade_versions.
  replace (lib_version - db_version)
    with ((v - 1 - db_version) + (lib_version - (v - 1))) by lia.
  rewrite seqZ_app by lia. f_equal.
  rewrite seqZ_cons by lia. f_equal; [lia|]. f_equal; lia.
Qed.

Lemma downgrade_versions_nil (db_version to_schema_version : Z) :
  db_version <= to_schema_version ->
  downgrade_versions db_version to_schema_version = [].
Proof.
  intros Hle. unfold downgrade_versions. rewrite seqZ_nil by lia. reflexivity.
Qed.

Lemma downgrade_versions_cons (db_version to_schema_version : Z) :
  to_schema_version < db_version ->
  downgrade_versions db_version to_schema_version
  = (db_version - 1) :: downgrade_versions (db_version - 1) to_schema_version.
Proof.
  intros Hlt. unfold downgrade_versions.
  replace (db_version - to_schema_version)
    with ((db_version - 1 - to_schema_version) + 1) by lia.
  rewrite seqZ_app by lia. rewrite reverse_app.
  rewrite (seqZ_cons _ 1) by lia. rewrite seqZ_nil by lia.
  simpl. f_equal. lia.
Qed.

(** *** The loops are the spec's sequences *)

Lemma world_eta (w : World) : MkWorld (db w) (trace w ++ [])%list = w.
Proof. destruct w. simpl. now rewrite app_nil_r. Qed.

(** One call of the executor is one action performed on the database. *)
Lemma exec_action_perform (a : Action) (w : World) :
  exec_action a w =
  (match snd (fst (perform_action a (db w))) with
   | inl st => Returned st
   | inr log => Fatal log
   end,
   MkWorld (snd (perform_action a (db w)))
     (trace w ++ fst (fst (perform_action a (db w))))%list).
Proof.
  destruct a as [sql|t|call]; simpl.
  - unfold ExecuteQueryString, bind, metadata_source_ExecuteQuery.
    destruct (source_ExecuteQuery sql empty_RecordSet (db w)) as [[st rs] d].
    reflexivity.
  - unfold ExecuteQueryTemplate, bind, ExecuteQuery. simpl.
    change (Z.of_nat 0) with 0%Z.
    destruct (parameter_num t =? 0)%Z; simpl.
    + rewrite StrReplaceAll_nil. unfold metadata_source_ExecuteQuery.
      destruct (source_ExecuteQuery (query t) empty_RecordSet (db w))
        as [[st rs] d].
      reflexivity.
    + unfold fatal. now rewrite world_eta.
  - unfold header. destruct (header_effect call (db w)) as [[st|log] d];
      reflexivity.
Qed.

Lemma spec_perform_nil (f : Action -> Status -> Status) (accept : Status -> bool)
  (w : World) :
  spec_perform f accept [] w = (Returned OkStatus, w).
Proof. unfold spec_perform. simpl. now rewrite world_eta. Qed.

Lemma spec_perform_cons (f : Action -> Status -> Status) (accept : Status -> bool)
  (a : Action) (rest : list Action) (w : World) :
  spec_perform f accept (a :: rest) w
  = bind (exec_action a)
      (fun st => if accept st then spec_perform f accept rest else ret (f a st)) w.
Proof.
  unfold bind. rewrite exec_action_perform. unfold spec_perform. simpl.
  destruct (perform_action a (db w)) as [[events [st|log]] d]; simpl;
    [|reflexivity].
  destruct (accept st); simpl; [|reflexivity].
  now rewrite app_assoc.
Qed.

Lemma spec_perform_app (f : Action -> Status -> Status) (accept : Status -> bool)
  (l1 l2 : list Action) :
  (forall a st, accept st = false -> ok (f a st) = false) ->
  forall w,
    spec_perform f accept (l1 ++ l2) w
    = bind (spec_perform f accept l1)
        (fun st => if ok st then spec_perform f accept l2 else ret st) w.
Proof.
  intros Hf. induction l1 as [|a rest IH]; intros w.
  - simpl. unfold bind. now rewrite spec_perform_nil.
  - simpl. rewrite spec_perform_cons. unfold bind.
    rewrite spec_perform_cons. unfold bind.
    destruct (exec_action a w) as [[st|log|] w1]; try reflexivity.
    destruct (accept st) eqn:Hacc; [rewrite IH; reflexivity|].
    unfold ret. now rewrite (Hf a st Hacc).
Qed.

(** What [perform] leaves in the log is the events of the actions, up to
    where it stopped. *)
Lemma perform_action_events (a : Action) (d : DB) :
  fst (fst (perform_action a d)) = [event_of a]
  \/ (fst (fst (perform_action a d)) = []
      /\ exists log, snd (fst (perform_action a d)) = inr log).
Proof.
  destruct a as [sql|t|call]; simpl.
  - destruct (source_ExecuteQuery sql empty_RecordSet d) as [[st rs] d'].
    now left.
  - destruct (parameter_num t =? 0)%Z.
    + destruct (source_ExecuteQuery (query t) empty_RecordSet d) as [[st rs] d'].
      now left.
    + right. split; [reflexivity|]. eexists. reflexivity.
  - destruct (header_effect call d) as [r d']. now left.
Qed.

Lemma perform_prefix (accept : Status -> bool) (actions : list Action) :
  forall d, performed (perform accept actions d) `prefix_of` map event_of actions.
Proof.
  induction actions as [|a rest IH]; intros d; simpl; [reflexivity|].
  pose proof (perform_action_events a d) as Hev.
  destruct (perform_action a d) as [[events [st|log]] d']; simpl in *.
  - destruct Hev as [->|[_ [log Hlog]]]; [|discriminate].
    destruct (accept st); simpl.
    + apply (prefix_app [_]). apply IH.
    + apply (prefix_app_r [_] [_]). reflexivity.
  - destruct Hev as [->|[-> _]]; [|apply prefix_nil].
    apply (prefix_app_r [_] [_]). reflexivity.
Qed.

Lemma perform_AllDone (accept : Status -> bool) (actions : list Action) :
  forall d,
    ending (perform accept actions d) = AllDone ->
    performed (perform accept actions d) = map event_of actions
    /\ length (answers (perform accept actions d)) = length actions.
Proof.
  induction actions as [|a rest IH]; intros d; simpl; [auto|].
  pose proof (perform_action_events a d) as Hev.
  destruct (perform_action a d) as [[events [st|log]] d']; simpl in *;
    [|discriminate].
  destruct Hev as [->|[_ [log Hlog]]]; [|discriminate].
  destruct (accept st); simpl; [|discriminate].
  intros Hend. destruct (IH d' Hend) as [-> ->]. auto.
Qed.

Lemma perform_Refused (accept : Status -> bool) (actions : list Action) :
  forall d a st,
    ending (perform accept actions d) = Refused a st ->
    accept st = false
    /\ last (performed (perform accept actions d)) = Some (event_of a).
Proof.
  induction actions as [|b rest IH]; intros d a st; simpl; [discriminate|].
  pose proof (perform_action_events b d) as Hev.
  destruct (perform_action b d) as [[events [st'|log]] d']; simpl in *;
    [|discriminate].
  destruct Hev as [->|[_ [log Hlog]]]; [|discriminate].
  destruct (accept st') eqn:Hacc; simpl.
  - intros Hend. destruct (IH d' a st Hend) as [Hno Hlast].
    split; [assumption|].
    destruct (performed (perform accept rest d')) as [|e t]; [discriminate|].
    exact Hlast.
  - intros Hend. inversion Hend; subst. auto.
Qed.

(** *** The plans *)

Lemma upgrade_events_actions (v : Z) :
  map event_of (upgrade_actions this v) = upgrade_events this v.
Proof.
  unfold upgrade_actions, upgrade_events.
  destruct (migration_schemes (query_config_ this) !! v) as [scheme|];
    [|reflexivity].
  rewrite map_app, map_map. reflexivity.
Qed.

Lemma downgrade_events_actions (v : Z) :
  map event_of (downgrade_actions this v) = downgrade_events this v.
Proof.
  unfold downgrade_actions, downgrade_events.
  destruct (migration_schemes (query_config_ this) !! v) as [scheme|];
    [|reflexivity].
  rewrite map_app, map_map. destruct (0 <? v)%Z; reflexivity.
Qed.

Lemma map_event_of_concat (actions : Z -> list Action) (events : Z -> list Event)
  (versions : list Z) :
  (forall v, map event_of (actions v) = events v) ->
  map event_of (concat (map actions versions)) = concat (map events versions).
Proof.
  intros Hev. induction versions as [|v rest IH]; [reflexivity|].
  simpl. now rewrite map_app, Hev, IH.
Qed.

Lemma migration_plan_prefix (actions : Z -> list Action) (versions : list Z) :
  fst (migration_plan this actions versions)
  `prefix_of` concat (map actions versions).
Proof.
  induction versions as [|v rest IH]; simpl; [reflexivity|].
  destruct (migration_schemes (query_config_ this) !! v); simpl.
  - now apply prefix_app.
  - apply prefix_nil.
Qed.

Lemma migration_plan_complete (actions : Z -> list Action) (versions : list Z) :
  snd (migration_plan this actions versions) = None ->
  fst (migration_plan this actions versions) = concat (map actions versions).
Proof.
  induction versions as [|v rest IH]; simpl; [reflexivity|].
  destruct (migration_schemes (query_config_ this) !! v); simpl;
    [|discriminate].
  intros Hnone. now rewrite IH.
Qed.

Lemma migration_plan_all (actions : Z -> list Action) (versions : list Z) :
  Forall (fun v => migration_schemes (query_config_ this) !! v <> None) versions ->
  migration_plan this actions versions = (concat (map actions versions), None).
Proof.
  induction 1 as [|v rest Hv _ IH]; simpl; [reflexivity|].
  destruct (migration_schemes (query_config_ this) !! v); [|congruence].
  now rewrite IH.
Qed.

Lemma migration_plan_missing (actions : Z -> list Action) (before after : list Z)
  (v : Z) :
  Forall (fun u => migration_schemes (query_config_ this) !! u <> None) before ->
  migration_schemes (query_config_ this) !! v = None ->
  migration_plan this actions (before ++ v :: after)%list
  = (concat (map actions before), Some v).
Proof.
  intros Hbefore Hv. induction Hbefore as [|u rest Hu _ IH]; simpl.
  - now rewrite Hv.
  - destruct (migration_schemes (query_config_ this) !! u); [|congruence].
    now rewrite IH.
Qed.

Lemma prefix_map {A B : Type} (f : A -> B) (l1 l2 : list A) :
  l1 `prefix_of` l2 -> map f l1 `prefix_of` map f l2.
Proof. intros [k ->]. rewrite map_app. now apply prefix_app_r. Qed.

(** The migration as a step followed by the migration of the rest. *)
Lemma spec_migration_cons (context : Action -> string)
  (actions : Z -> list Action) (v : Z) (rest : list Z) (w : World) :
  spec_migration this context actions (v :: rest) w
  = match migration_schemes (query_config_ this) !! v with
    | None =>
        (Returned
           (InternalError
              (StrCat ["Cannot find migration_schemes to version "; to_string v])),
         w)
    | Some _ =>
        bind (spec_perform (fun a st => with_context (context a) st) ok (actions v))
          (fun st =>
             if ok st then spec_migration this context actions rest else ret st) w
    end.
Proof.
  unfold spec_migration. simpl.
  destruct (migration_schemes (query_config_ this) !! v); simpl.
  - unfold bind at 1. rewrite spec_perform_app.
    + unfold bind.
      destruct (spec_perform _ ok (actions v) w) as [[st|log|] w1];
        try reflexivity.
      destruct (ok st) eqn:Hok; [reflexivity|].
      unfold ret. now rewrite Hok.
    + intros a st Hno. now rewrite ok_with_context.
  - unfold bind. now rewrite spec_perform_nil.
Qed.

Lemma spec_migration_nil (context : Action -> string)
  (actions : Z -> list Action) (w : World) :
  spec_migration this context actions [] w = (Returned OkStatus, w).
Proof.
  unfold spec_migration, bind. cbn [migration_plan fst snd].
  now rewrite spec_perform_nil.
Qed.

Lemma run_upgrade_queries_perform (queries : list TemplateQuery) (w : World) :
  run_upgrade_queries queries w
  = spec_perform (fun a st => with_context (upgrade_context a) st) ok
      (map (fun q => Text (query q)) queries) w.
Proof.
  revert w. induction queries as [|q rest IH]; intros w.
  - simpl. now rewrite spec_perform_nil.
  - simpl. rewrite spec_perform_cons. unfold bind. simpl.
    destruct (ExecuteQueryString (query q) w) as [[st|log|] w1]; try reflexivity.
    destruct (ok st); [apply IH|reflexivity].
Qed.

Lemma run_downgrade_queries_perform (queries : list TemplateQuery) (w : World) :
  run_downgrade_queries queries w
  = spec_perform (fun a st => with_context (downgrade_context a) st) ok
      (map Template queries) w.
Proof.
  revert w. induction queries as [|q rest IH]; intros w.
  - simpl. now rewrite spec_perform_nil.
  - simpl. rewrite spec_perform_cons. unfold bind. simpl.
    destruct (ExecuteQueryTemplate q [] w) as [[st|log|] w1]; try reflexivity.
    destruct (ok st); [apply IH|reflexivity].
Qed.

Lemma upgrade_loop_migrate (fuel : nat) :
  forall (db_version lib_version : Z) (w : World),
    (Z.to_nat (lib_version - db_version) <= fuel)%nat ->
    upgrade_loop this fuel db_version lib_version w
    = spec_migration this upgrade_context (upgrade_actions this)
        (upgrade_versions db_version lib_version) w.
Proof.
  induction fuel as [|fuel IH]; intros db_version lib_version w Hfuel.
  - assert (Hle : lib_version <= db_version) by lia.
    rewrite upgrade_versions_nil by assumption. simpl.
    assert (E : (db_version <? lib_version)%Z = false) by (apply Z.ltb_ge; lia).
    rewrite E. now rewrite spec_migration_nil.
  - simpl. destruct (db_version <? lib_version)%Z eqn:E.
    + apply Z.ltb_lt in E. rewrite upgrade_versions_cons by assumption.
      rewrite spec_migration_cons. unfold upgrade_actions.
      destruct (migration_schemes (query_config_ this) !! (db_version + 1))
        as [scheme|]; [|reflexivity].
      unfold bind. rewrite spec_perform_app
        by (intros a st Hno; now rewrite ok_with_context).
      unfold bind. rewrite run_upgrade_queries_perform.
      destruct (spec_perform _ ok
                  (map (fun q => Text (query q)) (upgrade_queries scheme)) w)
        as [[st|log|] w1]; try reflexivity.
      destruct (ok st) eqn:Hok; [|unfold ret; now rewrite Hok].
      rewrite spec_perform_cons. unfold bind. simpl.
      destruct (header (UpdateSchemaVersion (db_version + 1)) w1)
        as [[st2|log|] w2]; try reflexivity.
      destruct (ok st2) eqn:Hok2.
      * rewrite spec_perform_nil. simpl. apply IH. lia.
      * unfold ret. rewrite ok_with_context, Hok2. reflexivity.
    + apply Z.ltb_ge in E. rewrite upgrade_versions_nil by assumption.
      now rewrite spec_migration_nil.
Qed.

Lemma downgrade_loop_migrate (fuel : nat) :
  forall (db_version to_schema_version : Z) (w : World),
    (Z.to_nat (db_version - to_schema_version) <= fuel)%nat ->
    downgrade_loop this fuel db_version to_schema_version w
    = spec_migration this downgrade_context (downgrade_actions this)
        (downgrade_versions db_version to_schema_version) w.
Proof.
  induction fuel as [|fuel IH]; intros db_version to_schema_version w Hfuel.
  - assert (Hle : db_version <= to_schema_version) by lia.
    rewrite downgrade_versions_nil by assumption. simpl.
    assert (E : (to_schema_version <? db_version)%Z = false)
      by (apply Z.ltb_ge; lia).
    rewrite E. now rewrite spec_migration_nil.
  - simpl. destruct (to_schema_version <? db_version)%Z eqn:E.
    + apply Z.ltb_lt in E. rewrite downgrade_versions_cons by assumption.
      rewrite spec_migration_cons. unfold downgrade_actions.
      destruct (migration_schemes (query_config_ this) !! (db_version - 1))
        as [scheme|]; [|reflexivity].
      unfold bind. rewrite spec_perform_app
        by (intros a st Hno; now rewrite ok_with_context).
      unfold bind. rewrite run_downgrade_queries_perform.
      destruct (spec_perform _ ok (map Template (downgrade_queries scheme)) w)
        as [[st|log|] w1]; try reflexivity.
      destruct (ok st) eqn:Hok; [|unfold ret; now rewrite Hok].
      destruct (0 <? db_version - 1)%Z.
      * rewrite spec_perform_cons. unfold bind. simpl.
        destruct (header (UpdateSchemaVersion (db_version - 1)) w1)
          as [[st2|log|] w2]; try reflexivity.
        destruct (ok st2) eqn:Hok2.
        -- rewrite spec_perform_nil. simpl. apply IH. lia.
        -- unfold ret. rewrite ok_with_context, Hok2. reflexivity.
      * rewrite spec_perform_nil. simpl. apply IH. lia.
    + apply Z.ltb_ge in E. rewrite downgrade_versions_nil by assumption.
      now rewrite spec_migration_nil.
Qed.

(** What a migration returns and leaves, read off the plan performed on
    the database. *)
Lemma spec_migration_performed (context : Action -> string)
  (actions : Z -> list Action) (versions : list Z) (w : World) :
  let plan := migration_plan this actions versions in
  let p := perform ok (fst plan) (db w) in
  spec_migration this context actions versions w
  = (match ending p with
     | AllDone =>
         Returned
           (match snd plan with
            | None => OkStatus
            | Some v =>
                InternalError
                  (StrCat ["Cannot find migration_schemes to version ";
                           to_string v])
            end)
     | Refused a st => Returned (with_context (context a) st)
     | Ended log => Fatal log
     end,
     MkWorld (final p) (trace w ++ performed p)%list).
Proof.
  intros plan p. unfold spec_migration, bind, spec_perform.
  fold plan. fold p.
  destruct (ending p) as [|a st|log] eqn:Hend; try reflexivity.
  destruct (perform_Refused _ _ _ _ _ Hend) as [Hno _].
  rewrite ok_with_context, Hno. reflexivity.
Qed.

(** The log of a migration: a prefix of the events of the steps, all of
    them when it returns OK. *)
Lemma spec_migration_trace (context : Action -> string)
  (actions : Z -> list Action) (events : Z -> list Event) (versions : list Z) :
  (forall v, map event_of (actions v) = events v) ->
  runs_in_order (spec_migration this context actions versions)
    (concat (map events versions)).
Proof.
  intros Hev w o w' E. rewrite spec_migration_performed in E. cbv zeta in E.
  injection E as Ho Hw. subst o w'. cbn [trace].
  split; [destruct (ending _); discriminate|].
  exists (performed
            (perform ok (fst (migration_plan this actions versions)) (db w))).
  split; [reflexivity|]. split.
  - rewrite <- (map_event_of_concat actions events versions Hev).
    etransitivity; [apply perform_prefix|].
    apply prefix_map, migration_plan_prefix.
  - intros st Hst Hok.
    destruct (ending (perform ok (fst (migration_plan this actions versions))
                        (db w))) as [|a s|log] eqn:Hend.
    + destruct (snd (migration_plan this actions versions)) as [v|] eqn:Hmissing;
        [inversion Hst; subst; discriminate|].
      rewrite (proj1 (perform_AllDone _ _ _ Hend)).
      rewrite migration_plan_complete by assumption.
      now apply map_event_of_concat.
    + destruct (perform_Refused _ _ _ _ _ Hend) as [Hno _].
      inversion Hst; subst. rewrite ok_with_context in Hok. congruence.
    + discriminate.
Qed.

Lemma no_update_at_or_below_zero (versions : list Z) (v : Z) :
  v <= 0 ->
  Header (UpdateSchemaVersion v)
  ∉ concat (map (downgrade_events this) versions).
Proof.
  intros Hv Hin. apply list_elem_of_In, in_concat in Hin.
  destruct Hin as (events & Hev & Hin). apply in_map_iff in Hev.
  destruct Hev as (u & <- & _). unfold downgrade_events in Hin.
  destruct (migration_schemes (query_config_ this) !! u) as [scheme|];
    [|contradiction].
  apply in_app_or in Hin. destruct Hin as [Hin|Hin].
  - apply in_map_iff in Hin. destruct Hin as (q & Hq & _). discriminate.
  - destruct (0 <? u)%Z eqn:E; [|contradiction].
    apply Z.ltb_lt in E. destruct Hin as [Heq|[]]. inversion Heq. lia.
Qed.

Lemma upgrade_versions_present (db_version lib_version : Z) :
  (forall v, db_version < v <= lib_version ->
             migration_schemes (query_config_ this) !! v <> None) ->
  Forall (fun v => migration_schemes (query_config_ this) !! v <> None)
    (upgrade_versions db_version lib_version).
Proof.
  intros Hall. apply Forall_forall. intros v Hin.
  unfold upgrade_versions in Hin. apply elem_of_seqZ in Hin. apply Hall. lia.
Qed.

Lemma downgrade_versions_present (db_version to_schema_version : Z) :
  (forall v, to_schema_version <= v < db_version ->
             migration_schemes (query_config_ this) !! v <> None) ->
  Forall (fun v => migration_schemes (query_config_ this) !! v <> None)
    (downgrade_versions db_version to_schema_version).
Proof.
  intros Hall. apply Forall_forall. intros v Hin.
  unfold downgrade_versions in Hin. apply elem_of_reverse, elem_of_seqZ in Hin.
  apply Hall. lia.
Qed.

Lemma ok_not_IsNotFound (s : Status) : ok s = true -> IsNotFound s = false.
Proof. unfold IsNotFound, ok. destruct (code s); simpl; congruence. Qed.

(** *** Upgrade *)

(** C1. Let [GetSchemaVersion] report the database version [db_version]
    and let [lib_version] be the library version.  If
    [db_version > lib_version] the upgrade returns [FailedPrecondition]; if
    [db_version < lib_version] and migration is disabled it returns
    [FailedPrecondition]; in both cases nothing further is done.  If
    [db_version < lib_version] and migration is enabled, the upgrade
    advances one version at a time: it is the sequence of the spec over
    the versions [db_version + 1, ..., lib_version], for each [v] every
    upgrade query of [migration_schemes[v]] in catalogue order and then
    [UpdateSchemaVersion(v)], performed on the database the probe left.
    When every version has a scheme and the database accepts every step,
    the upgrade returns OK, the log has grown by exactly these statements
    and calls, and the database is the one they leave; when a step is
    refused, the upgrade returns the refused status under the context of
    that step, the refused step is the last thing in the log and nothing
    after it was tried.  Whatever happens the log grows by a prefix of the
    sequence, by all of it when the result is OK, and the loop always
    ends.  When [migration_schemes[v]] is missing and the steps to the
    versions before [v] are accepted, the result is [Internal] after
    exactly those steps. *)
Theorem UpgradeMetadataSourceIfOutOfDate_one_version_at_a_time :
  forall (enable_migration : bool) (w w1 : World) (st : Status) (db_version : Z),
    GetSchemaVersion this 0 w = (Returned (st, db_version), w1) ->
    ok st = true ->
    let lib_version := GetLibraryVersion this in
    let upgrade := UpgradeMetadataSourceIfOutOfDate this enable_migration w in
    let versions := upgrade_versions db_version lib_version in
    let expected := concat (map (upgrade_events this) versions) in
    (lib_version < db_version ->
     exists msg, upgrade = (Returned (FailedPreconditionError msg), w1)) /\
    (db_version < lib_version -> enable_migration = false ->
     exists msg, upgrade = (Returned (FailedPreconditionError msg), w1)) /\
    (db_version < lib_version -> enable_migration = true ->
     upgrade
     = spec_migration this upgrade_context (upgrade_actions this) versions w1 /\
     ((forall v, db_version < v <= lib_version ->
                 migration_schemes (query_config_ this) !! v <> None) ->
      let p :=
        perform ok (concat (map (upgrade_actions this) versions)) (db w1) in
      (ending p = AllDone ->
       upgrade
       = (Returned OkStatus, MkWorld (final p) (trace w1 ++ expected)%list)) /\
      (forall a s,
         ending p = Refused a s ->
         upgrade
         = (Returned (with_context (upgrade_context a) s),
            MkWorld (final p) (trace w1 ++ performed p)%list)
         /\ ok s = false
         /\ last (performed p) = Some (event_of a)
         /\ performed p `prefix_of` expected) /\
      (forall log,
         ending p = Ended log ->
         upgrade = (Fatal log, MkWorld (final p) (trace w1 ++ performed p)%list))) /\
     (forall o w2,
        upgrade = (o, w2) ->
        o <> OutOfFuel /\
        exists t,
          trace w2 = (trace w1 ++ t)%list /\
          t `prefix_of` expected /\
          (forall st', o = Returned st' -> ok st' = true -> t = expected)) /\
     (forall v,
        db_version < v <= lib_version ->
        migration_schemes (query_config_ this) !! v = None ->
        (forall u, db_version < u < v ->
                   migration_schemes (query_config_ this) !! u <> None) ->
        let before := upgrade_versions db_version (v - 1) in
        let p :=
          perform ok (concat (map (upgrade_actions this) before)) (db w1) in
        ending p = AllDone ->
        upgrade
        = (Returned
             (InternalError
                (StrCat ["Cannot find migration_schemes to version ";
                         to_string v])),
           MkWorld (final p)
             (trace w1 ++ concat (map (upgrade_events this) before))%list))).
Proof.
  intros enable_migration w w1 st db_version HGet Hok lib_version upgrade versions
    expected.
  assert (Hbody :
            upgrade =
            if (db_version =? lib_version)%Z then (Returned OkStatus, w1)
            else if (lib_version <? db_version)%Z then
              (Returned
                 (FailedPreconditionError
                    (StrCat ["MLMD database version "; to_string db_version;
                             " is greater than library version "; to_string lib_version;
                             ". Please upgrade the library to use the given database in order to ";
                             "prevent potential data loss. If data loss is acceptable, please";
                             " downgrade the database using a newer version of library."])),
               w1)
            else if ((db_version <? lib_version)%Z && negb enable_migration)%bool then
              (Returned
                 (FailedPreconditionError
                    (StrCat ["MLMD database version "; to_string db_version;
                             " is older than library version "; to_string lib_version;
                             ". Schema migration is disabled. Please upgrade the database then use";
                             " the library version; or switch to a older library version to use the";
                             " current database. For more details, please refer to ml-metadata";
                             " https://github.com/google/ml-metadata/blob/master/g3doc/get_started.md#upgrade-the-database-schema"])),
               w1)
            else
              upgrade_loop this (Z.to_nat (lib_version - db_version))
                db_version lib_version w1).
  { unfold upgrade, UpgradeMetadataSourceIfOutOfDate, bind.
    rewrite HGet. cbn [fst snd].
    rewrite (ok_not_IsNotFound _ Hok), Hok. cbn [negb andb].
    unfold IsCompatible. cbn [fst snd]. cbn [ok OkStatus code StatusCode_eqb negb].
    fold lib_version.
    destruct (db_version =? lib_version)%Z; [reflexivity|].
    destruct (lib_version <? db_version)%Z; [reflexivity|].
    destruct ((db_version <? lib_version)%Z && negb enable_migration)%bool;
      reflexivity. }
  split; [|split].
  - intros Hgt. rewrite Hbody.
    assert (E1 : (db_version =? lib_version)%Z = false) by (apply Z.eqb_neq; lia).
    assert (E2 : (lib_version <? db_version)%Z = true) by (apply Z.ltb_lt; lia).
    rewrite E1, E2. eexists. reflexivity.
  - intros Hlt ->. rewrite Hbody.
    assert (E1 : (db_version =? lib_version)%Z = false) by (apply Z.eqb_neq; lia).
    assert (E2 : (lib_version <? db_version)%Z = false) by (apply Z.ltb_ge; lia).
    assert (E3 : (db_version <? lib_version)%Z = true) by (apply Z.ltb_lt; lia).
    rewrite E1, E2, E3. eexists. reflexivity.
  - intros Hlt ->.
    assert (Heq : upgrade
                  = spec_migration this upgrade_context (upgrade_actions this)
                      versions w1).
    { rewrite Hbody.
      assert (E1 : (db_version =? lib_version)%Z = false) by (apply Z.eqb_neq; lia).
      assert (E2 : (lib_version <? db_version)%Z = false) by (apply Z.ltb_ge; lia).
      rewrite E1, E2, andb_false_r.
      apply upgrade_loop_migrate. lia. }
    split; [exact Heq|]. split; [|split].
    + intros Hall p.
      assert (Hexpected :
                map event_of (concat (map (upgrade_actions this) versions))
                = expected)
        by (apply map_event_of_concat, upgrade_events_actions).
      rewrite Heq, spec_migration_performed. cbv zeta.
      rewrite (migration_plan_all (upgrade_actions this) versions)
        by (apply upgrade_versions_present; exact Hall).
      cbn [fst snd]. fold p. split; [|split].
      * intros Hend. rewrite Hend.
        unfold p. rewrite (proj1 (perform_AllDone _ _ _ Hend)), Hexpected.
        reflexivity.
      * intros a s Hend. rewrite Hend.
        destruct (perform_Refused _ _ _ _ _ Hend) as [Hno Hlast].
        split; [reflexivity|]. split; [exact Hno|]. split; [exact Hlast|].
        rewrite <- Hexpected. apply perform_prefix.
      * intros log Hend. rewrite Hend. reflexivity.
    + intros o w2 E. rewrite Heq in E.
      exact (spec_migration_trace upgrade_context (upgrade_actions this)
               (upgrade_events this) versions upgrade_events_actions _ _ _ E).
    + intros v Hv Hmissing Hbefore before p Hend.
      rewrite Heq, spec_migration_performed. cbv zeta. unfold versions.
      rewrite (upgrade_versions_split db_version v lib_version Hv).
      rewrite (migration_plan_missing (upgrade_actions this)
                 (upgrade_versions db_version (v - 1))
                 (upgrade_versions v lib_version) v)
        by (try assumption; apply upgrade_versions_present;
            intros u Hu; apply Hbefore; lia).
      cbn [fst snd]. fold before. fold p. rewrite Hend.
      unfold p. rewrite (proj1 (perform_AllDone _ _ _ Hend)).
      rewrite (map_event_of_concat (upgrade_actions this) (upgrade_events this))
        by apply upgrade_events_actions.
      reflexivity.
Qed.

(** *** Downgrade *)

(** C3. A target below 0 or above the library version gives
    [InvalidArgument] and nothing is done.  Otherwise, when
    [GetSchemaVersion] reports the version [db_version]: if the database is
    newer than the library the result is [FailedPrecondition]; if not, the
    downgrade is the sequence of the spec over the destination versions
    [db_version - 1, ..., to_schema_version], for each step from [v] to
    [v - 1] every downgrade query of [migration_schemes[v - 1]] in
    catalogue order and then [UpdateSchemaVersion(v - 1)] only when
    [v - 1 > 0], performed on the database the probe left.  When every
    destination has a scheme and the database accepts every step, the
    downgrade returns OK, the log has grown by exactly these statements and
    calls, and the database is the one they leave; when a step is refused,
    the downgrade returns the refused status under the context of the
    migration, the refused step is the last thing in the log and nothing
    after it was tried.  Whatever happens the log grows by a prefix of the
    sequence, by all of it when the result is OK, the loop always ends, and
    [UpdateSchemaVersion] is never called with a version that is not
    positive. *)
Theorem DowngradeMetadataSource_steps :
  forall (to_schema_version : Z) (w : World),
    let lib_version := schema_version (query_config_ this) in
    let downgrade := DowngradeMetadataSource this to_schema_version w in
    (to_schema_version < 0 \/ lib_version < to_schema_version ->
     exists msg, downgrade = (Returned (InvalidArgumentError msg), w)) /\
    (0 <= to_schema_version <= lib_version ->
     forall (st : Status) (db_version : Z) (w1 : World),
       GetSchemaVersion this 0 w = (Returned (st, db_version), w1) ->
       ok st = true ->
       (lib_version < db_version ->
        exists msg, downgrade = (Returned (FailedPreconditionError msg), w1)) /\
       (db_version <= lib_version ->
        let versions := downgrade_versions db_version to_schema_version in
        let expected := concat (map (downgrade_events this) versions) in
        downgrade
        = spec_migration this downgrade_context (downgrade_actions this)
            versions w1 /\
        ((forall v, to_schema_version <= v < db_version ->
                    migration_schemes (query_config_ this) !! v <> None) ->
         let p :=
           perform ok (concat (map (downgrade_actions this) versions)) (db w1) in
         (ending p = AllDone ->
          downgrade
          = (Returned OkStatus, MkWorld (final p) (trace w1 ++ expected)%list)) /\
         (forall a s,
            ending p = Refused a s ->
            downgrade
            = (Returned (with_context (downgrade_context a) s),
               MkWorld (final p) (trace w1 ++ performed p)%list)
            /\ ok s = false
            /\ last (performed p) = Some (event_of a)
            /\ performed p `prefix_of` expected) /\
         (forall log,
            ending p = Ended log ->
            downgrade
            = (Fatal log, MkWorld (final p) (trace w1 ++ performed p)%list))) /\
        (forall o w2,
           downgrade = (o, w2) ->
           o <> OutOfFuel /\
           exists t,
             trace w2 = (trace w1 ++ t)%list /\
             t `prefix_of` expected /\
             (forall st', o = Returned st' -> ok st' = true -> t = expected) /\
             (forall v, v <= 0 -> Header (UpdateSchemaVersion v) ∉ t)))).
Proof.
  intros to_schema_version w lib_version downgrade. split.
  - intros Hout. unfold downgrade, DowngradeMetadataSource. fold lib_version.
    assert (E : ((to_schema_version <? 0)%Z
                 || (lib_version <? to_schema_version)%Z)%bool = true).
    { apply orb_true_iff. destruct Hout; [left|right]; apply Z.ltb_lt; lia. }
    rewrite E. eexists. reflexivity.
  - intros Hin st db_version w1 HGet Hok.
    assert (Hbody :
              downgrade =
              if (lib_version <? db_version)%Z then
                (Returned
                   (FailedPreconditionError
                      (StrCat ["MLMD database version "; to_string db_version;
                               " is greater than library version ";
                               to_string lib_version;
                               ". The current library does not know how to downgrade it. ";
                               "Please upgrade the library to downgrade the schema."])),
                 w1)
              else
                downgrade_loop this (Z.to_nat (db_version - to_schema_version))
                  db_version to_schema_version w1).
    { unfold downgrade, DowngradeMetadataSource. fold lib_version.
      assert (E : ((to_schema_version <? 0)%Z
                   || (lib_version <? to_schema_version)%Z)%bool = false).
      { apply orb_false_iff. split; apply Z.ltb_ge; lia. }
      rewrite E. unfold bind. rewrite HGet. cbn [fst snd].
      rewrite (ok_not_IsNotFound _ Hok), Hok. cbn [negb].
      destruct (lib_version <? db_version)%Z; reflexivity. }
    split.
    + intros Hnewer. rewrite Hbody.
      assert (E : (lib_version <? db_version)%Z = true) by (apply Z.ltb_lt; lia).
      rewrite E. eexists. reflexivity.
    + intros Hknown versions expected.
      assert (Heq : downgrade
                    = spec_migration this downgrade_context
                        (downgrade_actions this) versions w1).
      { rewrite Hbody.
        assert (E : (lib_version <? db_version)%Z = false)
          by (apply Z.ltb_ge; lia).
        rewrite E. apply downgrade_loop_migrate. lia. }
      split; [exact Heq|]. split.
      * intros Hall p.
        assert (Hexpected :
                  map event_of (concat (map (downgrade_actions this) versions))
                  = expected)
          by (apply map_event_of_concat, downgrade_events_actions).
        rewrite Heq, spec_migration_performed. cbv zeta.
        rewrite (migration_plan_all (downgrade_actions this) versions)
          by (apply downgrade_versions_present; exact Hall).
        cbn [fst snd]. fold p. split; [|split].
        -- intros Hend. rewrite Hend.
           unfold p. rewrite (proj1 (perform_AllDone _ _ _ Hend)), Hexpected.
           reflexivity.
        -- intros a s Hend. rewrite Hend.
           destruct (perform_Refused _ _ _ _ _ Hend) as [Hno Hlast].
           split; [reflexivity|]. split; [exact Hno|]. split; [exact Hlast|].
           rewrite <- Hexpected. apply perform_prefix.
        -- intros log Hend. rewrite Hend. reflexivity.
      * intros o w2 E. rewrite Heq in E.
        destruct (spec_migration_trace downgrade_context (downgrade_actions this)
                    (downgrade_events this) versions downgrade_events_actions
                    _ _ _ E)
          as (Hfuel & t & Ht & Hp & Hall).
        split; [assumption|]. exists t. repeat split; try assumption.
        intros v Hv Hel. apply (no_update_at_or_below_zero versions v Hv).
        destruct Hp as [k Hk]. unfold expected in Hk. rewrite Hk.
        apply elem_of_app. now left.
Qed.

(** C10. For a target [to_schema_version] between 0 and the library
    version, on a database where [GetSchemaVersion] reports [NotFound],
    [DowngradeMetadataSource] returns [InvalidArgument] (not OK, not
    [NotFound]) in the world [GetSchemaVersion] left: the only statements
    that reached the source are the two probes, and no downgrade query or
    version update is run. *)
Theorem DowngradeMetadataSource_empty_database :
  forall (to_schema_version : Z) (w w1 : World) (st : Status) (v : Z),
    0 <= to_schema_version <= schema_version (query_config_ this) ->
    GetSchemaVersion this 0 w = (Returned (st, v), w1) ->
    IsNotFound st = true ->
    DowngradeMetadataSource this to_schema_version w
    = (Returned
         (InvalidArgumentError
            "Empty database is given. Downgrade operation is not needed."),
       w1) /\
    trace w1 =
    (trace w
     ++ [SourceQuery (query (check_mlmd_env_table (query_config_ this)));
         SourceQuery (query (check_tables_in_v0_13_2 (query_config_ this)))])%list.
Proof.
  intros to_schema_version w w1 st v Hin HGet Hnf. split.
  - unfold DowngradeMetadataSource.
    assert (E : ((to_schema_version <? 0)%Z
                 || (schema_version (query_config_ this) <? to_schema_version)%Z)%bool
                = false).
    { apply orb_false_iff. split; apply Z.ltb_ge; lia. }
    rewrite E. unfold bind. rewrite HGet. cbn [fst snd]. rewrite Hnf. reflexivity.
  - exact (proj2 (GetSchemaVersion_NotFound _ _ _ _ _ HGet Hnf)).
Qed.

(** *** Initialisation *)

Lemma runs_run_create_queries (queries : list TemplateQuery) :
  runs_in_order (run_create_queries queries)
    (map (fun q => SourceQuery (query q)) queries).
Proof.
  induction queries as [|q rest IH]; simpl; [apply runs_ret|].
  apply (runs_seq (fun st => st) _ _ [_] _);
    [reflexivity|apply runs_ExecuteQueryTemplate|exact IH].
Qed.

(** One turn of the loop over the secondary indices. *)
Lemma run_secondary_indices_step (q : TemplateQuery) (rest : list TemplateQuery)
  (w w1 : World) (st : Status) :
  ExecuteQueryTemplate q [] w = (Returned st, w1) ->
  run_secondary_indices (q :: rest) w =
  if ok st then run_secondary_indices rest w1
  else if StrContains (message st) "Duplicate key name"
       then run_secondary_indices rest w1
       else (Returned st, w1).
Proof.
  intros E. simpl. unfold bind at 1. rewrite E.
  destruct (ok st) eqn:Hok; simpl.
  - unfold bind, ret. now rewrite Hok.
  - destruct (StrContains (message st) "Duplicate key name"); [reflexivity|].
    unfold bind, ret. now rewrite Hok.
Qed.

Lemma runs_run_secondary_indices (queries : list TemplateQuery) :
  runs_in_order (run_secondary_indices queries)
    (map (fun q => SourceQuery (query q)) queries).
Proof.
  induction queries as [|q rest IH]; [apply runs_ret|].
  intros w o w' E.
  destruct (ExecuteQueryTemplate q [] w) as [o1 w1] eqn:E1.
  pose proof (ExecuteQueryTemplate_trace _ _ _ _ E1) as Hq.
  destruct Hq as [[[st ->] Ht] | [[log ->] ->]].
  - rewrite (run_secondary_indices_step _ _ _ _ _ E1) in E.
    assert (Hrest : run_secondary_indices rest w1 = (o, w') ->
            o <> OutOfFuel /\
            exists t,
              trace w' = (trace w ++ t)%list /\
              t `prefix_of` map (fun q => SourceQuery (query q)) (q :: rest) /\
              (forall st', o = Returned st' -> ok st' = true ->
                           t = map (fun q => SourceQuery (query q)) (q :: rest))).
    { intros E'. destruct (IH _ _ _ E') as (Hfuel & t & Ht' & Hp & Hall).
      split; [assumption|]. exists (SourceQuery (query q) :: t).
      split; [rewrite Ht', Ht, <- app_assoc; reflexivity|].
      split; [apply (prefix_app [_]); assumption|].
      intros st' Ho Hok'. simpl. f_equal. eauto. }
    destruct (ok st) eqn:Hok; [auto|].
    destruct (StrContains (message st) "Duplicate key name"); [auto|].
    inversion E; subst. split; [discriminate|].
    exists [SourceQuery (query q)]. split; [assumption|].
    split; [apply (prefix_app_r [_] [_]); reflexivity|].
    intros st' Ho Hok'. inversion Ho; subst. congruence.
  - simpl in E. unfold bind in E. rewrite E1 in E. inversion E; subst.
    split; [discriminate|]. exists []. rewrite app_nil_r.
    split; [reflexivity|]. split; [apply prefix_nil|discriminate].
Qed.

Lemma insert_or_confirm_schema_version_trace (w w' : World) (o : Outcome Status) :
  insert_or_confirm_schema_version this w = (o, w') ->
  exists tail,
    trace w' =
    (trace w ++ Header (InsertSchemaVersion (GetLibraryVersion this)) :: tail)%list.
Proof.
  unfold insert_or_confirm_schema_version, bind.
  destruct (header (InsertSchemaVersion (GetLibraryVersion this)) w)
    as [o1 w1] eqn:E1.
  destruct (header_trace _ _ _ _ E1) as [_ Ht1].
  destruct o1 as [st|log|];
    try (intros E; inversion E; subst; exists []; assumption).
  destruct (ok st); simpl;
    [intros E; inversion E; subst; exists []; assumption|].
  destruct (GetSchemaVersion this (-1) w1) as [o2 w2] eqn:E2.
  destruct (GetSchemaVersion_trace _ _ _ _ E2) as [_ [t Ht2]].
  assert (Hdone : forall (o0 : Outcome Status),
             (o0, w2) = (o, w') ->
             exists tail,
               trace w' =
               (trace w ++ Header (InsertSchemaVersion (GetLibraryVersion this))
                  :: tail)%list).
  { intros o0 E; inversion E; subst. exists t.
    rewrite Ht2, Ht1, <- app_assoc. reflexivity. }
  destruct o2 as [r|log|]; try apply Hdone.
  destruct (negb (ok (fst r))); [apply Hdone|].
  destruct (negb (snd r =? GetLibraryVersion this)%Z); apply Hdone.
Qed.

(** A successful [InitMetadataSource] has sent every [create] statement and
    every index statement to the source, in order, and then called
    [InsertSchemaVersion] with the library version. *)
Lemma InitMetadataSource_trace (w w' : World) (st : Status) :
  InitMetadataSource this w = (Returned st, w') ->
  ok st = true ->
  exists tail,
    trace w' =
    (trace w
     ++ map (fun q => SourceQuery (query q))
          (create_table_queries this ++ secondary_indices (query_config_ this))
     ++ Header (InsertSchemaVersion (GetLibraryVersion this)) :: tail)%list.
Proof.
  unfold InitMetadataSource, bind. intros E Hok.
  destruct (run_create_queries (create_table_queries this) w)
    as [[st1|log|] w1] eqn:E1; try discriminate.
  destruct (runs_run_create_queries _ _ _ _ E1) as (_ & t1 & Ht1 & _ & Hall1).
  destruct (ok st1) eqn:Hok1;
    [|unfold ret in E; inversion E; subst; congruence].
  rewrite (Hall1 st1 eq_refl Hok1) in Ht1.
  destruct (run_secondary_indices (secondary_indices (query_config_ this)) w1)
    as [[st2|log|] w2] eqn:E2; try discriminate.
  destruct (runs_run_secondary_indices _ _ _ _ E2) as (_ & t2 & Ht2 & _ & Hall2).
  destruct (ok st2) eqn:Hok2;
    [|unfold ret in E; inversion E; subst; congruence].
  rewrite (Hall2 st2 eq_refl Hok2) in Ht2.
  destruct (insert_or_confirm_schema_version_trace _ _ _ E) as [tail Ht3].
  exists tail. rewrite Ht3, Ht2, Ht1, map_app, <- !app_assoc. reflexivity.
Qed.

Lemma run_checks_names (pending : list (Exec Status * string)) :
  forall (w w' : World) (checks : list (Status * string)),
    run_checks pending w = (Returned checks, w') ->
    map snd checks = map snd pending.
Proof.
  induction pending as [|[check name] rest IH]; intros w w' checks E.
  - inversion E; subst. reflexivity.
  - simpl in E. unfold bind in E.
    destruct (check w) as [[st|log|] w1]; try discriminate.
    destruct (run_checks rest w1) as [[checks'|log|] w2] eqn:E2; try discriminate.
    inversion E; subst. simpl. f_equal. eauto.
Qed.

Lemma missing_all_ok (checks : list (Status * string)) :
  Forall (fun c => ok (fst c) = true) checks ->
  missing_schema_error_messages checks = [].
Proof.
  unfold missing_schema_error_messages.
  induction 1 as [|c rest Hc _ IH]; [reflexivity|].
  rewrite filter_cons. case_decide; [congruence|exact IH].
Qed.

Lemma missing_all_fail (checks : list (Status * string)) :
  Forall (fun c => ok (fst c) = false) checks ->
  length (missing_schema_error_messages checks) = length checks.
Proof.
  unfold missing_schema_error_messages.
  induction 1 as [|c rest Hc _ IH]; [reflexivity|].
  rewrite filter_cons. case_decide; [|contradiction].
  simpl. now rewrite IH.
Qed.

Lemma missing_le (checks : list (Status * string)) :
  (length (missing_schema_error_messages checks) <= length checks)%nat.
Proof.
  unfold missing_schema_error_messages. rewrite length_map. apply length_filter.
Qed.

Lemma missing_some_ok (checks : list (Status * string)) :
  Exists (fun c => ok (fst c) = true) checks ->
  (length (missing_schema_error_messages checks) < length checks)%nat.
Proof.
  induction 1 as [c rest Hc|c rest _ IH].
  - pose proof (missing_le rest) as Hle.
    unfold missing_schema_error_messages in *.
    rewrite filter_cons. case_decide; [congruence|]. simpl. lia.
  - unfold missing_schema_error_messages in *.
    rewrite filter_cons. case_decide; simpl; lia.
Qed.

Lemma missing_some_fail (checks : list (Status * string)) :
  Exists (fun c => ok (fst c) = false) checks ->
  (0 < length (missing_schema_error_messages checks))%nat.
Proof.
  induction 1 as [c rest Hc|c rest _ IH];
    unfold missing_schema_error_messages in *;
    rewrite filter_cons; case_decide; simpl; try lia; contradiction.
Qed.

(** The checks, the creations and the index loop are the sequences of the
    spec. *)
Lemma run_checks_perform (checks : list (Action * string)) :
  forall w : World,
    run_checks (map (fun c => (exec_action (fst c), snd c)) checks) w
    = (match ending (perform any_status (map fst checks) (db w)) with
       | Ended log => Fatal log
       | _ =>
           Returned
             (combine (answers (perform any_status (map fst checks) (db w)))
                (map snd checks))
       end,
       MkWorld (final (perform any_status (map fst checks) (db w)))
         (trace w ++ performed (perform any_status (map fst checks) (db w)))%list).
Proof.
  induction checks as [|[a name] rest IH]; intros w.
  - simpl. unfold ret. now rewrite world_eta.
  - simpl. unfold bind at 1. rewrite exec_action_perform.
    destruct (perform_action a (db w)) as [[events [st|log]] d]; simpl;
      [|reflexivity].
    unfold bind. rewrite IH. simpl.
    destruct (ending (perform any_status (map fst rest) d));
      unfold ret; now rewrite app_assoc.
Qed.

Lemma run_create_queries_perform (queries : list TemplateQuery) (w : World) :
  run_create_queries queries w
  = spec_perform (fun _ st => st) ok (map Template queries) w.
Proof.
  revert w. induction queries as [|q rest IH]; intros w.
  - simpl. now rewrite spec_perform_nil.
  - simpl. rewrite spec_perform_cons. unfold bind. simpl.
    destruct (ExecuteQueryTemplate q [] w) as [[st|log|] w1]; try reflexivity.
    destruct (ok st); [apply IH|reflexivity].
Qed.

Lemma run_secondary_indices_perform (queries : list TemplateQuery) (w : World) :
  run_secondary_indices queries w
  = spec_perform (fun _ st => st) ok_or_duplicate_index (map Template queries) w.
Proof.
  revert w. induction queries as [|q rest IH]; intros w.
  - simpl. now rewrite spec_perform_nil.
  - simpl. rewrite spec_perform_cons. unfold bind. simpl.
    destruct (ExecuteQueryTemplate q [] w) as [[st|log|] w1]; try reflexivity.
    unfold ok_or_duplicate_index, ret.
    destruct (ok st) eqn:Hok; simpl; [apply IH|].
    destruct (StrContains (message st) "Duplicate key name"); [apply IH|].
    reflexivity.
Qed.

Lemma Forall_combine_fst {A B : Type} (P : A -> Prop) (l : list A) (names : list B) :
  Forall P l -> Forall (fun c => P (fst c)) (combine l names).
Proof.
  intros Hl. revert names. induction Hl as [|x l Hx _ IH]; intros names;
    [constructor|].
  destruct names as [|n names]; simpl; [constructor|].
  constructor; [exact Hx|apply IH].
Qed.

Lemma Exists_combine_fst {A B : Type} (P : A -> Prop) (l : list A) (names : list B) :
  (length l <= length names)%nat ->
  Exists P l -> Exists (fun c => P (fst c)) (combine l names).
Proof.
  intros Hlen Hl. revert names Hlen.
  induction Hl as [x l Hx|x l _ IH]; intros names Hlen;
    (destruct names as [|n names]; simpl in *; [lia|]).
  - now apply Exists_cons_hd.
  - apply Exists_cons_tl, IH. lia.
Qed.

Lemma table_checks_expected :
  table_checks this
  = map (fun c => (exec_action (fst c), snd c))
      (combine (expected_table_checks this) expected_table_names).
Proof. reflexivity. Qed.

Lemma expected_table_checks_fst :
  map fst (combine (expected_table_checks this) expected_table_names)
  = expected_table_checks this.
Proof. reflexivity. Qed.

Lemma expected_table_checks_snd :
  map snd (combine (expected_table_checks this) expected_table_names)
  = expected_table_names.
Proof. reflexivity. Qed.

Lemma create_table_queries_expected :
  map Template (create_table_queries this) = expected_table_creations this.
Proof. reflexivity. Qed.

(** The same on a world given by its database and its log. *)
Lemma run_checks_at (d : DB) (t : list Event) :
  run_checks (table_checks this) (MkWorld d t)
  = (match ending (perform any_status (expected_table_checks this) d) with
     | Ended log => Fatal log
     | _ =>
         Returned
           (combine (answers (perform any_status (expected_table_checks this) d))
              expected_table_names)
     end,
     MkWorld (final (perform any_status (expected_table_checks this) d))
       (t ++ performed (perform any_status (expected_table_checks this) d))%list).
Proof.
  rewrite table_checks_expected, run_checks_perform.
  rewrite expected_table_checks_fst, expected_table_checks_snd. reflexivity.
Qed.

Lemma spec_perform_at (f : Action -> Status -> Status) (accept : Status -> bool)
  (actions : list Action) (d : DB) (t : list Event) :
  spec_perform f accept actions (MkWorld d t)
  = (match ending (perform accept actions d) with
     | AllDone => Returned OkStatus
     | Refused a st => Returned (f a st)
     | Ended log => Fatal log
     end,
     MkWorld (final (perform accept actions d))
       (t ++ performed (perform accept actions d))%list).
Proof. reflexivity. Qed.

Lemma insert_or_confirm_schema_version_at (d d' : DB) (t : list Event)
  (inserted : Status) :
  header_effect (InsertSchemaVersion (GetLibraryVersion this)) d = (inl inserted, d') ->
  ok inserted = true ->
  insert_or_confirm_schema_version this (MkWorld d t)
  = (Returned OkStatus,
     MkWorld d' (t ++ [Header (InsertSchemaVersion (GetLibraryVersion this))])%list).
Proof.
  intros Hinsert Hinserted.
  unfold insert_or_confirm_schema_version, bind, header. cbn [db trace].
  rewrite Hinsert, Hinserted. reflexivity.
Qed.

(** [InitMetadataSource] on the database [d]: the creations, then the
    indices, then the insert of the version. *)
Lemma InitMetadataSource_at (d : DB) (t : list Event) :
  InitMetadataSource this (MkWorld d t)
  = match ending (perform ok (expected_table_creations this) d) with
    | AllDone =>
        match
          ending (perform ok_or_duplicate_index (expected_index_creations this)
                    (final (perform ok (expected_table_creations this) d)))
        with
        | AllDone =>
            insert_or_confirm_schema_version this
              (MkWorld
                 (final (perform ok_or_duplicate_index
                           (expected_index_creations this)
                           (final (perform ok (expected_table_creations this) d))))
                 ((t ++ performed (perform ok (expected_table_creations this) d))
                  ++ performed
                       (perform ok_or_duplicate_index
                          (expected_index_creations this)
                          (final (perform ok (expected_table_creations this) d))))%list)
        | Refused _ s =>
            (Returned s,
             MkWorld
               (final (perform ok_or_duplicate_index
                         (expected_index_creations this)
                         (final (perform ok (expected_table_creations this) d))))
               ((t ++ performed (perform ok (expected_table_creations this) d))
                ++ performed
                     (perform ok_or_duplicate_index
                        (expected_index_creations this)
                        (final (perform ok (expected_table_creations this) d))))%list)
        | Ended log =>
            (Fatal log,
             MkWorld
               (final (perform ok_or_duplicate_index
                         (expected_index_creations this)
                         (final (perform ok (expected_table_creations this) d))))
               ((t ++ performed (perform ok (expected_table_creations this) d))
                ++ performed
                     (perform ok_or_duplicate_index
                        (expected_index_creations this)
                        (final (perform ok (expected_table_creations this) d))))%list)
        end
    | Refused _ s =>
        (Returned s,
         MkWorld (final (perform ok (expected_table_creations this) d))
           (t ++ performed (perform ok (expected_table_creations this) d))%list)
    | Ended log =>
        (Fatal log,
         MkWorld (final (perform ok (expected_table_creations this) d))
           (t ++ performed (perform ok (expected_table_creations this) d))%list)
    end.
Proof.
  unfold InitMetadataSource, bind.
  rewrite run_create_queries_perform, create_table_queries_expected.
  rewrite spec_perform_at.
  destruct (ending (perform ok (expected_table_creations this) d))
    as [|a s|log] eqn:Hcreated; [| |reflexivity].
  - cbn [ok OkStatus code StatusCode_eqb].
    rewrite run_secondary_indices_perform.
    fold (expected_index_creations this). rewrite spec_perform_at.
    destruct (ending (perform ok_or_duplicate_index
                        (expected_index_creations this)
                        (final (perform ok (expected_table_creations this) d))))
      as [|a s|log] eqn:Hindexed; [reflexivity| |reflexivity].
    destruct (perform_Refused _ _ _ _ _ Hindexed) as [Hno _].
    unfold ok_or_duplicate_index in Hno. apply orb_false_iff in Hno.
    destruct Hno as [Hno _]. now rewrite Hno.
  - destruct (perform_Refused _ _ _ _ _ Hcreated) as [Hno _]. now rewrite Hno.
Qed.

(** C4. Without a pinned query version, [InitMetadataSourceIfNotExists]
    first upgrades; a status of the upgrade that is not OK is returned as
    it is.  Once the upgrade has returned OK it checks the fifteen expected
    tables: the fifteen checks are performed on the database in the order
    of the code, whatever the earlier ones answer, and the log grows by
    exactly these fifteen.  It then ends in one of exactly three ways.
    When every check passes it returns OK and nothing else has reached the
    database.  When some pass and some fail it returns [Aborted], again
    with nothing else done.  When every check fails it initialises the
    database: the fifteen creation statements are performed in order up to
    the first that is refused, whose status is returned; when all are
    accepted the statements of the secondary indices follow, a refusal
    that reports "Duplicate key name" being passed over and any other
    being returned; and when these are through and [InsertSchemaVersion]
    with the library version succeeds, the result is OK and the log holds
    the fifteen checks, the fifteen creations, every index statement and
    the insert, in this order and nothing else. *)
Theorem InitMetadataSourceIfNotExists_three_outcomes :
  query_schema_version this = None ->
  forall (enable : bool) (w w1 : World) (st : Status),
    UpgradeMetadataSourceIfOutOfDate this enable w = (Returned st, w1) ->
    let init := InitMetadataSourceIfNotExists this enable w in
    let passes (s : Status) := ok s = true in
    let fails (s : Status) := ok s = false in
    let checked := perform any_status (expected_table_checks this) (db w1) in
    let w2 : World :=
      MkWorld (final checked) (trace w1 ++ performed checked)%list in
    (ok st = false -> init = (Returned st, w1)) /\
    (ok st = true ->
     (forall log, ending checked = Ended log -> init = (Fatal log, w2)) /\
     (ending checked = AllDone ->
      performed checked = map event_of (expected_table_checks this) /\
      length (answers checked) = 15%nat /\
      (Forall passes (answers checked) \/ Forall fails (answers checked)
       \/ (Exists passes (answers checked) /\ Exists fails (answers checked))) /\
      (Forall passes (answers checked) -> init = (Returned OkStatus, w2)) /\
      (Exists passes (answers checked) -> Exists fails (answers checked) ->
       exists msg, init = (Returned (AbortedError msg), w2)) /\
      (Forall fails (answers checked) ->
       let created :=
         perform ok (expected_table_creations this) (final checked) in
       let w3 : World :=
         MkWorld (final created) (trace w2 ++ performed created)%list in
       (forall a s, ending created = Refused a s -> init = (Returned s, w3)) /\
       (forall log, ending created = Ended log -> init = (Fatal log, w3)) /\
       (ending created = AllDone ->
        performed created = map event_of (expected_table_creations this) /\
        let indexed :=
          perform ok_or_duplicate_index (expected_index_creations this)
            (final created) in
        let w4 : World :=
          MkWorld (final indexed) (trace w3 ++ performed indexed)%list in
        (forall a s,
           ending indexed = Refused a s ->
           init = (Returned s, w4)
           /\ ok s = false
           /\ StrContains (message s) "Duplicate key name" = false) /\
        (forall log, ending indexed = Ended log -> init = (Fatal log, w4)) /\
        (ending indexed = AllDone ->
         performed indexed = map event_of (expected_index_creations this) /\
         forall (inserted : Status) (d5 : DB),
           header_effect (InsertSchemaVersion (GetLibraryVersion this))
             (final indexed)
           = (inl inserted, d5) ->
           ok inserted = true ->
           init
           = (Returned OkStatus,
              MkWorld d5
                (trace w4
                 ++ [Header (InsertSchemaVersion (GetLibraryVersion this))])%list)))))).
Proof.
  intros Hpin enable w w1 st HUp init passes fails checked w2.
  assert (Hstart :
            init =
            if ok st then
              bind (run_checks (table_checks this))
                (fun checks =>
                   let missing := missing_schema_error_messages checks in
                   if (length missing =? 0)%nat then ret OkStatus
                   else if negb (length checks =? length missing)%nat then
                     ret (AbortedError
                            (StrCat ["There are a subset of tables in MLMD instance. This may be due to ";
                                     "concurrent connection to the empty database. ";
                                     "Please retry the connection. checks: ";
                                     to_string (Z.of_nat (length checks));
                                     " errors: "; to_string (Z.of_nat (length missing));
                                     ", present tables: ";
                                     StrJoinS (successful_checks checks) ", ";
                                     ", missing tables: ";
                                     StrJoinS (failing_checks checks) ", ";
                                     " Errors: "; StrJoinS missing newline]))
                   else InitMetadataSource this) w1
            else (Returned st, w1)).
  { unfold init, InitMetadataSourceIfNotExists. rewrite Hpin.
    unfold bind at 1. rewrite HUp. cbv beta. destruct (ok st); reflexivity. }
  split; [intros Hno; rewrite Hno in Hstart; exact Hstart|].
  intros Hok. rewrite Hok in Hstart.
  assert (Hrun :
            run_checks (table_checks this) w1
            = (match ending checked with
               | Ended log => Fatal log
               | _ => Returned (combine (answers checked) expected_table_names)
               end, w2)).
  { destruct w1 as [d1 t1]. exact (run_checks_at d1 t1). }
  unfold bind in Hstart. rewrite Hrun in Hstart. clear Hrun.
  split; [intros log Hend; rewrite Hstart, Hend; reflexivity|].
  intros Hend. rewrite Hend in Hstart.
  destruct (perform_AllDone _ _ _ Hend) as [Hperformed Hlength].
  fold checked in Hperformed, Hlength.
  change (length (expected_table_checks this)) with 15%nat in Hlength.
  set (checks := combine (answers checked) expected_table_names) in *.
  assert (Hlen : length checks = 15%nat).
  { unfold checks. rewrite length_combine, Hlength. reflexivity. }
  split; [exact Hperformed|]. split; [exact Hlength|].
  split; [|split; [|split]].
  - destruct (decide (Forall passes (answers checked))) as [Hall|Hnotall];
      [now left|].
    destruct (decide (Forall fails (answers checked))) as [Hnone|Hnotnone];
      [right; now left|].
    right. right. split.
    + apply not_Forall_Exists in Hnotnone; [|intros c; unfold fails; apply _].
      eapply Exists_impl; [exact Hnotnone|].
      intros c Hc. unfold passes, fails, compose in *.
      destruct (ok c); congruence.
    + apply not_Forall_Exists in Hnotall; [|intros c; unfold passes; apply _].
      eapply Exists_impl; [exact Hnotall|].
      intros c Hc. unfold passes, fails, compose in *.
      destruct (ok c); congruence.
  - intros Hall. rewrite Hstart. cbv zeta.
    rewrite (missing_all_ok checks)
      by (apply (Forall_combine_fst passes); exact Hall).
    reflexivity.
  - intros Hsome Hmiss. rewrite Hstart. cbv zeta.
    assert (Hfit : (length (answers checked) <= length expected_table_names)%nat)
      by (rewrite Hlength; reflexivity).
    pose proof (missing_some_ok checks
                  (Exists_combine_fst passes _ _ Hfit Hsome)) as Hlt.
    pose proof (missing_some_fail checks
                  (Exists_combine_fst fails _ _ Hfit Hmiss)) as Hpos.
    assert (E1 : (length (missing_schema_error_messages checks) =? 0)%nat = false)
      by (apply Nat.eqb_neq; lia).
    assert (E2 : (length checks
                  =? length (missing_schema_error_messages checks))%nat = false)
      by (apply Nat.eqb_neq; lia).
    rewrite E1, E2. eexists. reflexivity.
  - intros Hnone created w3.
    assert (Hinit : init = InitMetadataSource this w2).
    { rewrite Hstart. cbv zeta.
      pose proof (missing_all_fail checks
                    (Forall_combine_fst fails _ _ Hnone)) as Hm.
      rewrite Hm, Hlen. reflexivity. }
    unfold w2 in Hinit. rewrite InitMetadataSource_at in Hinit.
    fold created in Hinit. split; [|split].
    + intros a s Hended. rewrite Hended in Hinit. exact Hinit.
    + intros log Hended. rewrite Hended in Hinit. exact Hinit.
    + intros Hended. rewrite Hended in Hinit.
      split; [exact (proj1 (perform_AllDone _ _ _ Hended))|].
      intros indexed w4. fold indexed in Hinit. split; [|split].
      * intros a s Hrefused. rewrite Hrefused in Hinit.
        destruct (perform_Refused _ _ _ _ _ Hrefused) as [Hno _].
        unfold ok_or_duplicate_index in Hno. apply orb_false_iff in Hno.
        destruct Hno as [Hno Hdup]. split; [exact Hinit|]. auto.
      * intros log Hrefused. rewrite Hrefused in Hinit. exact Hinit.
      * intros Hthrough. rewrite Hthrough in Hinit.
        split; [exact (proj1 (perform_AllDone _ _ _ Hthrough))|].
        intros inserted d5 Hinsert Hinserted.
        rewrite (insert_or_confirm_schema_version_at _ _ _ _ Hinsert Hinserted)
          in Hinit.
        exact Hinit.
Qed.

(** C5. In [InitMetadataSource], once the tables and the indices are
    created, if the insert of the schema version does not return OK the
    stored version is read again with [GetSchemaVersion]; when that read
    returns OK, the function returns OK if the version on record equals the
    library version and [DataLoss] if it differs. *)
Theorem InitMetadataSource_insert_race :
  forall (w w1 w2 w3 w4 : World) (st_tables st_indices st_insert st_read : Status)
         (db_version : Z),
    run_create_queries (create_table_queries this) w = (Returned st_tables, w1) ->
    ok st_tables = true ->
    run_secondary_indices (secondary_indices (query_config_ this)) w1
    = (Returned st_indices, w2) ->
    ok st_indices = true ->
    header (InsertSchemaVersion (GetLibraryVersion this)) w2
    = (Returned st_insert, w3) ->
    ok st_insert = false ->
    GetSchemaVersion this (-1) w3 = (Returned (st_read, db_version), w4) ->
    ok st_read = true ->
    (db_version = GetLibraryVersion this ->
     InitMetadataSource this w = (Returned OkStatus, w4)) /\
    (db_version <> GetLibraryVersion this ->
     exists msg, InitMetadataSource this w = (Returned (DataLossError msg), w4)).
Proof.
  intros w w1 w2 w3 w4 st_tables st_indices st_insert st_read db_version
    Htables Hok1 Hindices Hok2 Hinsert Hfail Hread Hok3.
  split; intros Hversion;
    unfold InitMetadataSource, insert_or_confirm_schema_version, bind;
    rewrite Htables, Hok1, Hindices, Hok2, Hinsert, Hfail; cbn [negb];
    rewrite Hread; cbn [fst snd]; rewrite Hok3; cbn [negb].
  - rewrite Hversion, Z.eqb_refl. reflexivity.
  - apply Z.eqb_neq in Hversion. rewrite Hversion. eexists. reflexivity.
Qed.

End ExecutorProperties.

(** ** The theorems on the toy source *)

#[local] Existing Instance Toy.toy.

Lemma UpgradeMetadataSourceIfOutOfDate_witness :
  (exists msg,
     UpgradeMetadataSourceIfOutOfDate Toy.toy_executor true (Toy.start (Toy.db_at 5))
     = (Returned (FailedPreconditionError msg), Toy.probed (Toy.db_at 5))) /\
  (exists msg,
     UpgradeMetadataSourceIfOutOfDate Toy.toy_executor false (Toy.start (Toy.db_at 1))
     = (Returned (FailedPreconditionError msg), Toy.probed (Toy.db_at 1))) /\
  (exists d,
     UpgradeMetadataSourceIfOutOfDate Toy.toy_executor true (Toy.start (Toy.db_at 1))
     = (Returned OkStatus,
        MkWorld d
          [SourceQuery Toy.check_env_sql;
           SourceQuery "up to 2 a"; SourceQuery "up to 2 b";
           Header (UpdateSchemaVersion 2);
           SourceQuery "up to 3"; Header (UpdateSchemaVersion 3)])
     /\ Toy.toy_env d = Some ["3"]
     /\ Toy.toy_executed d = ["up to 2 a"; "up to 2 b"; "up to 3"]) /\
  (exists d,
     UpgradeMetadataSourceIfOutOfDate Toy.broken_executor true
       (Toy.start (Toy.db_at 1))
     = (Returned
          (MkStatus kInternal "Upgrade query failed: SELECT broken;syntax error"),
        MkWorld d
          [SourceQuery Toy.check_env_sql;
           SourceQuery "up to 2 a"; SourceQuery Toy.failing_sql])
     /\ Toy.toy_env d = Some ["1"]) /\
  (exists d,
     UpgradeMetadataSourceIfOutOfDate Toy.gap_executor true (Toy.start (Toy.db_at 0))
     = (Returned (InternalError "Cannot find migration_schemes to version 2"),
        MkWorld d
          [SourceQuery Toy.check_env_sql;
           SourceQuery "up to 1"; Header (UpdateSchemaVersion 1)])
     /\ Toy.toy_env d = Some ["1"]).
Proof.
  split; [|split; [|split; [|split]]].
  - destruct (UpgradeMetadataSourceIfOutOfDate_one_version_at_a_time
                Toy.toy_executor true (Toy.start (Toy.db_at 5))
                (Toy.probed (Toy.db_at 5)) OkStatus 5)
      as (Hnewer & _ & _); [reflexivity..|].
    apply Hnewer. reflexivity.
  - destruct (UpgradeMetadataSourceIfOutOfDate_one_version_at_a_time
                Toy.toy_executor false (Toy.start (Toy.db_at 1))
                (Toy.probed (Toy.db_at 1)) OkStatus 1)
      as (_ & Hdisabled & _); [reflexivity..|].
    apply Hdisabled; reflexivity.
  - destruct (UpgradeMetadataSourceIfOutOfDate_one_version_at_a_time
                Toy.toy_executor true (Toy.start (Toy.db_at 1))
                (Toy.probed (Toy.db_at 1)) OkStatus 1)
      as (_ & _ & Hsteps); [reflexivity..|].
    destruct Hsteps as (_ & Hexact & _ & _); [reflexivity..|].
    destruct Hexact as (Hall & _ & _).
    { intros v Hv.
      change (GetLibraryVersion _) with 3 in Hv.
      assert (Hcases : v = 2 \/ v = 3) by lia.
      destruct Hcases as [->| ->]; discriminate. }
    eexists. split; [|split].
    + etransitivity; [apply Hall; vm_compute; reflexivity|].
      vm_compute. reflexivity.
    + vm_compute. reflexivity.
    + vm_compute. reflexivity.
  - destruct (UpgradeMetadataSourceIfOutOfDate_one_version_at_a_time
                Toy.broken_executor true (Toy.start (Toy.db_at 1))
                (Toy.probed (Toy.db_at 1)) OkStatus 1)
      as (_ & _ & Hsteps); [reflexivity..|].
    destruct Hsteps as (_ & Hexact & _ & _); [reflexivity..|].
    destruct Hexact as (_ & Hrefused & _).
    { intros v Hv.
      change (GetLibraryVersion _) with 3 in Hv.
      assert (Hcases : v = 2 \/ v = 3) by lia.
      destruct Hcases as [->| ->]; discriminate. }
    edestruct Hrefused as (Hresult & _); [vm_compute; reflexivity|].
    eexists. split.
    + etransitivity; [exact Hresult|]. vm_compute. reflexivity.
    + vm_compute. reflexivity.
  - destruct (UpgradeMetadataSourceIfOutOfDate_one_version_at_a_time
                Toy.gap_executor true (Toy.start (Toy.db_at 0))
                (Toy.probed (Toy.db_at 0)) OkStatus 0)
      as (_ & _ & Hsteps); [reflexivity..|].
    destruct Hsteps as (_ & _ & _ & Hmissing); [reflexivity..|].
    eexists. split.
    + etransitivity.
      * apply (Hmissing 2);
          [split; [reflexivity|discriminate]|reflexivity| |vm_compute; reflexivity].
        intros u Hu. assert (Hone : u = 1) by lia. subst u. discriminate.
      * vm_compute. reflexivity.
    + vm_compute. reflexivity.
Defined.

Lemma GetSchemaVersion_cases_witness :
  (exists msg,
     GetSchemaVersion Toy.toy_executor 7 (Toy.start (Toy.db_rows []))
     = (Returned (AbortedError msg, 7), Toy.probed (Toy.db_rows []))) /\
  (exists msg,
     GetSchemaVersion Toy.toy_executor 7 (Toy.start (Toy.db_rows ["2"; "3"]))
     = (Returned (DataLossError msg, 7), Toy.probed (Toy.db_rows ["2"; "3"]))) /\
  GetSchemaVersion Toy.toy_executor 7 (Toy.start (Toy.db_at 2))
  = (Returned (OkStatus, 2), Toy.probed (Toy.db_at 2)) /\
  GetSchemaVersion Toy.toy_executor 7 (Toy.start Toy.db_legacy)
  = (Returned (OkStatus, 0), Toy.probed_twice Toy.db_legacy) /\
  (exists msg,
     GetSchemaVersion Toy.toy_executor 7 (Toy.start Toy.db_empty)
     = (Returned (NotFoundError msg, 7), Toy.probed_twice Toy.db_empty)).
Proof.
  split; [|split; [|split; [|split]]].
  - destruct (GetSchemaVersion_cases Toy.toy_executor 7
                (Toy.start (Toy.db_rows [])) (Toy.probed (Toy.db_rows []))
                OkStatus (MkRecordSet ["schema_version"] []) eq_refl)
      as (Hnone & _).
    apply Hnone; reflexivity.
  - destruct (GetSchemaVersion_cases Toy.toy_executor 7
                (Toy.start (Toy.db_rows ["2"; "3"]))
                (Toy.probed (Toy.db_rows ["2"; "3"])) OkStatus
                (MkRecordSet ["schema_version"] [MkRecord ["2"]; MkRecord ["3"]])
                eq_refl)
      as (_ & Hmany & _).
    apply Hmany; [reflexivity|simpl; lia].
  - destruct (GetSchemaVersion_cases Toy.toy_executor 7
                (Toy.start (Toy.db_at 2)) (Toy.probed (Toy.db_at 2)) OkStatus
                (MkRecordSet ["schema_version"] [MkRecord ["2"]]) eq_refl)
      as (_ & _ & Hone & _).
    apply (Hone eq_refl (MkRecord ["2"]) "2" []); reflexivity.
  - destruct (GetSchemaVersion_cases Toy.toy_executor 7
                (Toy.start Toy.db_legacy) (Toy.probed Toy.db_legacy)
                (InternalError "no such table: MLMDEnv") empty_RecordSet eq_refl)
      as (_ & _ & _ & Hfallback).
    destruct (Hfallback eq_refl OkStatus (MkRecordSet ["type_id"] [])
                (Toy.probed_twice Toy.db_legacy) eq_refl) as [Hlegacy _].
    apply Hlegacy. reflexivity.
  - destruct (GetSchemaVersion_cases Toy.toy_executor 7
                (Toy.start Toy.db_empty) (Toy.probed Toy.db_empty)
                (InternalError "no such table: MLMDEnv") empty_RecordSet eq_refl)
      as (_ & _ & _ & Hfallback).
    destruct (Hfallback eq_refl (InternalError "no such table: Artifact")
                empty_RecordSet (Toy.probed_twice Toy.db_empty) eq_refl)
      as [_ Hempty].
    apply Hempty. reflexivity.
Defined.

Lemma DowngradeMetadataSource_steps_witness :
  (exists msg,
     DowngradeMetadataSource Toy.toy_executor 4 (Toy.start (Toy.db_at 3))
     = (Returned (InvalidArgumentError msg), Toy.start (Toy.db_at 3))) /\
  (exists msg,
     DowngradeMetadataSource Toy.toy_executor 2 (Toy.start (Toy.db_at 5))
     = (Returned (FailedPreconditionError msg), Toy.probed (Toy.db_at 5))) /\
  (exists d,
     DowngradeMetadataSource Toy.toy_executor 0 (Toy.start (Toy.db_at 3))
     = (Returned OkStatus,
        MkWorld d
          [SourceQuery Toy.check_env_sql;
           SourceQuery "down to 2"; Header (UpdateSchemaVersion 2);
           SourceQuery "down to 1"; Header (UpdateSchemaVersion 1);
           SourceQuery "down to 0 a"; SourceQuery "down to 0 b"])
     /\ Toy.toy_env d = Some ["1"]
     /\ Toy.toy_executed d
        = ["down to 2"; "down to 1"; "down to 0 a"; "down to 0 b"]) /\
  (exists d,
     DowngradeMetadataSource Toy.broken_executor 1 (Toy.start (Toy.db_at 3))
     = (Returned
          (MkStatus kInternal
             "Failed to migrate existing db; the migration transaction rolls back.syntax error"),
        MkWorld d
          [SourceQuery Toy.check_env_sql;
           SourceQuery "down to 2 a"; SourceQuery Toy.failing_sql])
     /\ Toy.toy_env d = Some ["3"]).
Proof.
  split; [|split; [|split]].
  - destruct (DowngradeMetadataSource_steps Toy.toy_executor 4
                (Toy.start (Toy.db_at 3))) as [Hrange _].
    apply Hrange. right. reflexivity.
  - destruct (DowngradeMetadataSource_steps Toy.toy_executor 2
                (Toy.start (Toy.db_at 5))) as [_ Hsteps].
    destruct (Hsteps ltac:(simpl; lia) OkStatus 5 (Toy.probed (Toy.db_at 5))
                eq_refl eq_refl) as [Hnewer _].
    apply Hnewer. reflexivity.
  - destruct (DowngradeMetadataSource_steps Toy.toy_executor 0
                (Toy.start (Toy.db_at 3))) as [_ Hsteps].
    destruct (Hsteps ltac:(simpl; lia) OkStatus 3 (Toy.probed (Toy.db_at 3))
                eq_refl eq_refl) as [_ Hknown].
    destruct (Hknown ltac:(simpl; lia)) as (_ & Hexact & _).
    destruct Hexact as (Hall & _ & _).
    { intros v Hv. assert (Hcases : v = 0 \/ v = 1 \/ v = 2) by lia.
      destruct Hcases as [->|[->| ->]]; discriminate. }
    eexists. split; [|split].
    + etransitivity; [apply Hall; vm_compute; reflexivity|].
      vm_compute. reflexivity.
    + vm_compute. reflexivity.
    + vm_compute. reflexivity.
  - destruct (DowngradeMetadataSource_steps Toy.broken_executor 1
                (Toy.start (Toy.db_at 3))) as [_ Hsteps].
    destruct (Hsteps ltac:(simpl; lia) OkStatus 3 (Toy.probed (Toy.db_at 3))
                eq_refl eq_refl) as [_ Hknown].
    destruct (Hknown ltac:(simpl; lia)) as (_ & Hexact & _).
    destruct Hexact as (_ & Hrefused & _).
    { intros v Hv. assert (Hcases : v = 1 \/ v = 2) by lia.
      destruct Hcases as [->| ->]; discriminate. }
    edestruct Hrefused as (Hresult & _); [vm_compute; reflexivity|].
    eexists. split.
    + etransitivity; [exact Hresult|]. vm_compute. reflexivity.
    + vm_compute. reflexivity.
Defined.

Lemma DowngradeMetadataSource_empty_database_witness :
  DowngradeMetadataSource Toy.toy_executor 2 (Toy.start Toy.db_empty)
  = (Returned
       (InvalidArgumentError
          "Empty database is given. Downgrade operation is not needed."),
     Toy.probed_twice Toy.db_empty).
Proof.
  exact (proj1 (DowngradeMetadataSource_empty_database Toy.toy_executor 2
                  (Toy.start Toy.db_empty) (Toy.probed_twice Toy.db_empty)
                  (NotFoundError "it looks an empty db is given.") 0
                  ltac:(simpl; lia) eq_refl eq_refl)).
Defined.

Lemma ExecuteQuery_arity_check_witness :
  (exists msg,
     ExecuteQuery Toy.select_type_by_id Toy.eleven_parameters empty_RecordSet
       (Toy.start Toy.db_empty)
     = (Returned (InvalidArgumentError msg, empty_RecordSet),
        Toy.start Toy.db_empty)) /\
  (exists log,
     ExecuteQuery Toy.select_type_by_id [] empty_RecordSet (Toy.start Toy.db_empty)
     = (Fatal log, Toy.start Toy.db_empty)) /\
  ExecuteQuery Toy.select_type_by_id ["7"] empty_RecordSet (Toy.start Toy.db_empty)
  = metadata_source_ExecuteQuery "SELECT * FROM `Type` WHERE id = 7;"
      empty_RecordSet (Toy.start Toy.db_empty).
Proof.
  split; [|split].
  - destruct (ExecuteQuery_arity_check Toy.select_type_by_id
                Toy.eleven_parameters empty_RecordSet (Toy.start Toy.db_empty))
      as (Hmany & _).
    apply Hmany. simpl. lia.
  - destruct (ExecuteQuery_arity_check Toy.select_type_by_id []
                empty_RecordSet (Toy.start Toy.db_empty))
      as (_ & Hmismatch & _).
    apply Hmismatch; simpl; lia.
  - destruct (ExecuteQuery_arity_check Toy.select_type_by_id ["7"]
                empty_RecordSet (Toy.start Toy.db_empty))
      as (_ & _ & Hrun).
    apply Hrun; simpl; [lia|reflexivity].
Defined.

(** C8, as stated, fails: a call without parameters of a template that
    declares one does not return [InvalidArgument]; it returns no status at
    all, the process ends in [LOG(FATAL)]. *)
Lemma ExecuteQuery_mismatch_is_not_InvalidArgument :
  ~ exists (st : Status) (rs : RecordSet) (w' : World),
      ExecuteQuery Toy.select_type_by_id [] empty_RecordSet (Toy.start Toy.db_empty)
      = (Returned (st, rs), w')
      /\ code st = kInvalidArgument.
Proof. intros (st & rs & w' & E & _). discriminate E. Qed.

Lemma InitMetadataSourceIfNotExists_three_outcomes_witness :
  (exists msg,
     InitMetadataSourceIfNotExists Toy.toy_executor true (Toy.start (Toy.db_at 5))
     = (Returned (FailedPreconditionError msg), Toy.probed (Toy.db_at 5))) /\
  InitMetadataSourceIfNotExists Toy.toy_executor true (Toy.start (Toy.db_at 3))
  = (Returned OkStatus,
     MkWorld (Toy.db_at 3)
       [SourceQuery Toy.check_env_sql;
        Header CheckTypeTable; SourceQuery Toy.check_parent_type_sql;
        Header CheckTypePropertyTable; Header CheckArtifactTable;
        Header CheckArtifactPropertyTable; Header CheckExecutionTable;
        Header CheckExecutionPropertyTable; Header CheckEventTable;
        Header CheckEventPathTable; Header CheckMLMDEnvTable;
        Header CheckContextTable; SourceQuery Toy.check_parent_context_sql;
        Header CheckContextPropertyTable; Header CheckAssociationTable;
        Header CheckAttributionTable]) /\
  (exists msg,
     InitMetadataSourceIfNotExists Toy.toy_executor true (Toy.start Toy.db_partial)
     = (Returned (AbortedError msg),
        MkWorld Toy.db_partial
          [SourceQuery Toy.check_env_sql;
           Header CheckTypeTable; SourceQuery Toy.check_parent_type_sql;
           Header CheckTypePropertyTable; Header CheckArtifactTable;
           Header CheckArtifactPropertyTable; Header CheckExecutionTable;
           Header CheckExecutionPropertyTable; Header CheckEventTable;
           Header CheckEventPathTable; Header CheckMLMDEnvTable;
           Header CheckContextTable; SourceQuery Toy.check_parent_context_sql;
           Header CheckContextPropertyTable; Header CheckAssociationTable;
           Header CheckAttributionTable])) /\
  (exists d,
     InitMetadataSourceIfNotExists Toy.toy_executor true (Toy.start Toy.db_empty)
     = (Returned OkStatus,
        MkWorld d
          [SourceQuery Toy.check_env_sql; SourceQuery Toy.check_legacy_sql;
           Header CheckTypeTable; SourceQuery Toy.check_parent_type_sql;
           Header CheckTypePropertyTable; Header CheckArtifactTable;
           Header CheckArtifactPropertyTable; Header CheckExecutionTable;
           Header CheckExecutionPropertyTable; Header CheckEventTable;
           Header CheckEventPathTable; Header CheckMLMDEnvTable;
           Header CheckContextTable; SourceQuery Toy.check_parent_context_sql;
           Header CheckContextPropertyTable; Header CheckAssociationTable;
           Header CheckAttributionTable;
           SourceQuery "CREATE TABLE `Type`;";
           SourceQuery "CREATE TABLE `TypeProperty`;";
           SourceQuery "CREATE TABLE `ParentType`;";
           SourceQuery "CREATE TABLE `Artifact`;";
           SourceQuery "CREATE TABLE `ArtifactProperty`;";
           SourceQuery "CREATE TABLE `Execution`;";
           SourceQuery "CREATE TABLE `ExecutionProperty`;";
           SourceQuery "CREATE TABLE `Event`;";
           SourceQuery "CREATE TABLE `EventPath`;";
           SourceQuery "CREATE TABLE `MLMDEnv`;";
           SourceQuery "CREATE TABLE `Context`;";
           SourceQuery "CREATE TABLE `ContextProperty`;";
           SourceQuery "CREATE TABLE `ParentContext`;";
           SourceQuery "CREATE TABLE `Association`;";
           SourceQuery "CREATE TABLE `Attribution`;";
           SourceQuery "CREATE INDEX `idx_artifact_uri` ON `Artifact`(`uri`);";
           SourceQuery Toy.duplicate_index_sql;
           Header (InsertSchemaVersion 3)])
     /\ Toy.toy_env d = Some ["3"]).
Proof.
  split; [|split; [|split]].
  - edestruct (InitMetadataSourceIfNotExists_three_outcomes Toy.toy_executor
                 eq_refl true (Toy.start (Toy.db_at 5)))
      as [Hfailed _]; [vm_compute; reflexivity|].
    eexists. etransitivity; [apply Hfailed; reflexivity|].
    vm_compute. reflexivity.
  - edestruct (InitMetadataSourceIfNotExists_three_outcomes Toy.toy_executor
                 eq_refl true (Toy.start (Toy.db_at 3)))
      as [_ Hupgraded]; [vm_compute; reflexivity|].
    destruct (Hupgraded eq_refl) as [_ Hchecked].
    destruct Hchecked as (_ & _ & _ & Hall & _); [vm_compute; reflexivity|].
    etransitivity; [apply Hall; vm_compute; repeat constructor|].
    vm_compute. reflexivity.
  - edestruct (InitMetadataSourceIfNotExists_three_outcomes Toy.toy_executor
                 eq_refl true (Toy.start Toy.db_partial))
      as [_ Hupgraded]; [vm_compute; reflexivity|].
    destruct (Hupgraded eq_refl) as [_ Hchecked].
    destruct Hchecked as (_ & _ & _ & _ & Hmixed & _); [vm_compute; reflexivity|].
    destruct Hmixed as [msg Hmsg].
    + vm_compute. apply Exists_cons_hd. reflexivity.
    + vm_compute. apply Exists_cons_tl, Exists_cons_hd. reflexivity.
    + exists msg. etransitivity; [exact Hmsg|]. vm_compute. reflexivity.
  - edestruct (InitMetadataSourceIfNotExists_three_outcomes Toy.toy_executor
                 eq_refl true (Toy.start Toy.db_empty))
      as [_ Hupgraded]; [vm_compute; reflexivity|].
    destruct (Hupgraded eq_refl) as [_ Hchecked].
    destruct Hchecked as (_ & _ & _ & _ & _ & Hnone); [vm_compute; reflexivity|].
    destruct Hnone as (_ & _ & Hcreated); [vm_compute; repeat constructor|].
    destruct Hcreated as (_ & _ & _ & Hindexed); [vm_compute; reflexivity|].
    destruct Hindexed as [_ Hinsert]; [vm_compute; reflexivity|].
    eexists. split.
    + etransitivity;
        [eapply Hinsert; [vm_compute; reflexivity|vm_compute; reflexivity]|].
      vm_compute. reflexivity.
    + vm_compute. reflexivity.
Defined.

Lemma InitMetadataSource_insert_race_witness :
  (exists w4,
     InitMetadataSource Toy.toy_executor (Toy.start (Toy.db_raced 3))
     = (Returned OkStatus, w4)) /\
  (exists msg w4,
     InitMetadataSource Toy.toy_executor (Toy.start (Toy.db_raced 2))
     = (Returned (DataLossError msg), w4)).
Proof.
  split.
  - eexists.
    edestruct (InitMetadataSource_insert_race Toy.toy_executor
                 (Toy.start (Toy.db_raced 3))) as [Hsame _];
      [vm_compute; reflexivity..|].
    apply Hsame. reflexivity.
  - edestruct (InitMetadataSource_insert_race Toy.toy_executor
                 (Toy.start (Toy.db_raced 2))) as [_ Hdiffers];
      [vm_compute; reflexivity..|].
    destruct Hdiffers as [msg Hmsg]; [discriminate|].
    exists msg. eexists. exact Hmsg.
Defined.

(** * More of query_config_executor.cc *)

(** ** Substitution *)
Lemma imap_Forall {A B : Type} (P : B -> Prop) (l : list A) :
  forall (f : nat -> A -> B),
    (forall i x, P (f i x)) -> Forall P (imap f l).
Proof.
  induction l as [|x l IH]; intros f Hf; simpl; constructor; auto.
  apply IH. intros i y. apply Hf.
Qed.

Lemma make_replacements_dollar (parameters : list string) :
  Forall dollar_key (make_replacements parameters).
Proof.
  apply imap_Forall. intros i p. eexists. reflexivity.
Qed.

Lemma match_at_no_dollar (c : ascii) (s : string)
  (replacements : list (string * string)) :
  Ascii.eqb c "$" = false ->
  Forall dollar_key replacements ->
  match_at (String c s) replacements = None.
Proof.
  intros Hc. induction 1 as [|[key value] rest [k Hk] _ IH]; [reflexivity|].
  simpl in Hk. subst key. cbn -[ascii_dec]. rewrite IH.
  destruct (ascii_dec "$" c) as [<-|Hne]; [discriminate Hc|reflexivity].
Qed.

Lemma StrReplaceAll_from_literal (text rest : string)
  (replacements : list (string * string)) :
  dollar_free text = true ->
  Forall dollar_key replacements ->
  StrReplaceAll_from O (text ++ rest) replacements
  = text ++ StrReplaceAll_from O rest replacements.
Proof.
  intros Hfree Hkeys. induction text as [|c text IH]; [reflexivity|].
  simpl in Hfree. apply andb_true_iff in Hfree. destruct Hfree as [Hc Hfree].
  apply negb_true_iff in Hc.
  change (String c text ++ rest) with (String c (text ++ rest)).
  cbn [StrReplaceAll_from].
  rewrite (match_at_no_dollar _ _ _ Hc Hkeys). rewrite (IH Hfree). reflexivity.
Qed.


Lemma make_replacements_keyed (parameters : list string) :
  make_replacements parameters = keyed_by placeholder 0 parameters.
Proof.
  unfold make_replacements.
  change (imap (fun i p => (StrCat ["$"; to_string (Z.of_nat i)], p)) parameters)
    with (imap (fun i p => (placeholder (0 + i), p)) parameters).
  generalize 0%nat as offset.
  induction parameters as [|p rest IH]; intros offset; [reflexivity|].
  simpl. rewrite Nat.add_0_r. f_equal.
  rewrite <- IH. apply imap_ext. intros i x _. simpl.
  now rewrite Nat.add_succ_r.
Qed.

Lemma placeholder_digit (i : nat) : (i < 10)%nat -> placeholder i = digit_key i.
Proof.
  intros Hi. do 10 (destruct i as [|i]; [vm_compute; reflexivity|]). lia.
Qed.

Lemma keyed_by_digits (parameters : list string) :
  forall offset,
    (offset + length parameters <= 10)%nat ->
    keyed_by placeholder offset parameters = keyed_by digit_key offset parameters.
Proof.
  induction parameters as [|p rest IH]; intros offset Hlen; [reflexivity|].
  simpl in *. rewrite placeholder_digit by lia. f_equal. apply IH. lia.
Qed.

Lemma digit_injective (i j : nat) :
  (i < 10)%nat -> (j < 10)%nat -> digit_char i = digit_char j -> i = j.
Proof.
  unfold digit_char. intros Hi Hj E. apply (f_equal nat_of_ascii) in E.
  rewrite !nat_ascii_embedding in E by lia. lia.
Qed.

Lemma prefix_empty (s : string) : String.prefix "" s = true.
Proof. destruct s; reflexivity. Qed.

Lemma prefix_two (d1 d2 : ascii) (rest : string) :
  String.prefix (String "$" (String d1 "")) (String "$" (String d2 rest))
  = if ascii_dec d1 d2 then true else false.
Proof.
  cbn -[ascii_dec]. destruct (ascii_dec "$" "$") as [_|Hne]; [|congruence].
  destruct (ascii_dec d1 d2); [apply prefix_empty|reflexivity].
Qed.

Lemma match_at_cons_digit (j : nat) (p : string) (d : ascii) (rest : string)
  (others : list (string * string)) :
  match_at (String "$" (String d rest)) ((digit_key j, p) :: others)
  = match (if ascii_dec (digit_char j) d then Some (digit_key j, p) else None),
          match_at (String "$" (String d rest)) others with
    | Some (k1, v1), Some (k2, v2) =>
        if (String.length k1 <? String.length k2)%nat
        then Some (k2, v2) else Some (k1, v1)
    | Some kv, None => Some kv
    | None, other => other
    end.
Proof.
  cbn [match_at]. unfold digit_key at 1 2. rewrite prefix_two.
  change (String.eqb (String "$" (String (digit_char j) "")) "") with false.
  cbn [negb andb]. destruct (ascii_dec (digit_char j) d); reflexivity.
Qed.

Lemma match_at_keyed_miss (parameters : list string) :
  forall (offset : nat) (d : ascii) (rest : string),
    (offset + length parameters <= 10)%nat ->
    (forall j, (offset <= j < offset + length parameters)%nat ->
               digit_char j <> d) ->
    match_at (String "$" (String d rest)) (keyed_by digit_key offset parameters)
    = None.
Proof.
  induction parameters as [|p ps IH]; intros offset d rest Hlen Hmiss;
    [reflexivity|].
  simpl in Hlen. cbn [keyed_by]. rewrite match_at_cons_digit.
  rewrite IH by (try lia; intros j Hj; apply Hmiss; simpl; lia).
  destruct (ascii_dec (digit_char offset) d) as [E|_]; [|reflexivity].
  exfalso. apply (Hmiss offset); [simpl; lia|exact E].
Qed.

Lemma match_at_keyed_hit (parameters : list string) :
  forall (offset i : nat) (rest : string),
    (offset + length parameters <= 10)%nat ->
    (i < length parameters)%nat ->
    match_at (String "$" (String (digit_char (offset + i)) rest))
      (keyed_by digit_key offset parameters)
    = Some (digit_key (offset + i), nth i parameters "").
Proof.
  induction parameters as [|p ps IH]; intros offset i rest Hlen Hi;
    simpl in Hi, Hlen; [lia|].
  cbn [keyed_by]. rewrite match_at_cons_digit. destruct i as [|i].
  - rewrite Nat.add_0_r.
    rewrite match_at_keyed_miss;
      [|lia|intros j Hj E; apply digit_injective in E; lia].
    destruct (ascii_dec (digit_char offset) (digit_char offset)) as [_|Hne];
      [reflexivity|congruence].
  - replace (offset + S i)%nat with (S offset + i)%nat by lia.
    rewrite IH by lia.
    destruct (ascii_dec (digit_char offset) (digit_char (S offset + i))) as [E|_].
    + apply digit_injective in E; lia.
    + reflexivity.
Qed.

Lemma StrReplaceAll_from_placeholder (parameters : list string) (i : nat)
  (rest : string) :
  (i < length parameters <= 10)%nat ->
  StrReplaceAll_from O (placeholder i ++ rest) (make_replacements parameters)
  = nth i parameters "" ++ StrReplaceAll_from O rest (make_replacements parameters).
Proof.
  intros Hi. rewrite make_replacements_keyed, keyed_by_digits by (simpl; lia).
  rewrite (placeholder_digit i) by lia.
  change (digit_key i ++ rest) with (String "$" (String (digit_char i) rest)).
  cbn [StrReplaceAll_from].
  rewrite (match_at_keyed_hit parameters 0 i) by (simpl; lia).
  reflexivity.
Qed.

(** Substitution into a template cut into literal text and placeholders:
    every placeholder becomes its parameter and nothing else changes. *)
Lemma StrReplaceAll_instantiate (parameters : list string)
  (segments : list Segment) :
  (length parameters <= 10)%nat ->
  well_formed (length parameters) segments = true ->
  StrReplaceAll (render segments) (make_replacements parameters)
  = instantiate parameters segments.
Proof.
  intros Hlen. unfold StrReplaceAll.
  induction segments as [|[text|i] rest IH]; intros Hwf; [reflexivity| |];
    cbn [well_formed] in Hwf; apply andb_true_iff in Hwf;
    destruct Hwf as [Hhead Hrest]; cbn [render instantiate].
  - rewrite StrReplaceAll_from_literal;
      [|assumption|apply make_replacements_dollar].
    now rewrite IH.
  - apply Nat.ltb_lt in Hhead.
    rewrite StrReplaceAll_from_placeholder by lia. now rewrite IH.
Qed.

Section StatementProperties.

Context `{Collaborators}.
Variable this : QueryConfigExecutor.
Variable more : MoreTemplates.
Variable EscapeString : string -> string.
Variable SimpleAtoi_leftover : string -> Z.

(** X1. A call of [ExecuteQuery] whose template is literal text free of
    dollar signs interleaved with placeholders, with as many parameters as
    the template declares and at most ten, hands to the source exactly the
    template with every placeholder [$i] replaced by parameter [i].  The
    parameters go in verbatim: a dollar sign inside a parameter is not
    substituted again. *)
Theorem ExecuteQuery_substitutes :
  forall (t : TemplateQuery) (parameters : list string) (segments : list Segment)
         (rs : RecordSet) (w : World),
    query t = render segments ->
    parameter_num t = Z.of_nat (length parameters) ->
    (length parameters <= 10)%nat ->
    well_formed (length parameters) segments = true ->
    ExecuteQuery t parameters rs w
    = metadata_source_ExecuteQuery (instantiate parameters segments) rs w.
Proof.
  intros t parameters segments rs w Hq Hnum Hlen Hwf.
  unfold ExecuteQuery.
  assert (E : (10 <? length parameters)%nat = false) by (apply Nat.ltb_ge; lia).
  rewrite E. apply Z.eqb_eq in Hnum. rewrite Hnum. cbn [negb].
  rewrite Hq, StrReplaceAll_instantiate by assumption. reflexivity.
Qed.

Lemma ExecuteQueryTemplate_substitutes (t : TemplateQuery)
  (parameters : list string) (segments : list Segment) (w : World) :
  query t = render segments ->
  parameter_num t = Z.of_nat (length parameters) ->
  (length parameters <= 10)%nat ->
  well_formed (length parameters) segments = true ->
  ExecuteQueryTemplate t parameters w
  = ExecuteQueryString (instantiate parameters segments) w.
Proof.
  intros Hq Hnum Hlen Hwf.
  unfold ExecuteQueryTemplate, ExecuteQueryString, bind, ExecuteQuery.
  assert (E : (10 <? length parameters)%nat = false) by (apply Nat.ltb_ge; lia).
  rewrite E. apply Z.eqb_eq in Hnum. rewrite Hnum. cbn [negb].
  rewrite Hq, StrReplaceAll_instantiate by assumption. reflexivity.
Qed.

Lemma ExecuteQueryTemplate_mismatch (t : TemplateQuery)
  (parameters : list string) (w : World) :
  (length parameters <= 10)%nat ->
  parameter_num t <> Z.of_nat (length parameters) ->
  exists log, ExecuteQueryTemplate t parameters w = (Fatal log, w).
Proof.
  intros Hlen Hne. unfold ExecuteQueryTemplate, bind, ExecuteQuery.
  assert (E : (10 <? length parameters)%nat = false) by (apply Nat.ltb_ge; lia).
  rewrite E. apply Z.eqb_neq in Hne. rewrite Hne. cbn. eexists. reflexivity.
Qed.

(** X2. [InsertParentContext(parent_id, child_id)] binds the child first:
    in the statement that reaches the source, [$0] is the decimal
    [child_id] and [$1] the decimal [parent_id]. *)
Theorem InsertParentContext_binds_child_first :
  forall (parent_id child_id : Z) (segments : list Segment) (w : World),
    query (insert_parent_context more) = render segments ->
    parameter_num (insert_parent_context more) = 2 ->
    well_formed 2 segments = true ->
    InsertParentContext more parent_id child_id w
    = ExecuteQueryString
        (instantiate [to_string child_id; to_string parent_id] segments) w.
Proof.
  intros parent_id child_id segments w Hq Hnum Hwf.
  unfold InsertParentContext, Bind_int64.
  apply ExecuteQueryTemplate_substitutes;
    [assumption|exact Hnum|simpl; lia|assumption].
Qed.

(** X3. [InsertEventPath] with a step that holds neither an index nor a key
    returns OK and does nothing, whatever the template is.  With an index
    or a key it passes four parameters, so a template that does not
    declare four ends the process; with a template that declares four, the
    statement sent has [$0] the event id, [$1] the bare word [step_index]
    or [step_key] (not quoted), [$2] 1 or 0, and [$3] the index in decimal
    or the escaped key between single quotes. *)
Theorem InsertEventPath_cases :
  forall (event_id : Z) (w : World),
    InsertEventPath more EscapeString event_id StepNotSet w = (Returned OkStatus, w) /\
    (forall step,
       step <> StepNotSet ->
       parameter_num (insert_event_path more) <> 4 ->
       exists log,
         InsertEventPath more EscapeString event_id step w = (Fatal log, w)) /\
    (forall segments,
       query (insert_event_path more) = render segments ->
       parameter_num (insert_event_path more) = 4 ->
       well_formed 4 segments = true ->
       (forall index,
          InsertEventPath more EscapeString event_id (StepIndex index) w
          = ExecuteQueryString
              (instantiate
                 [to_string event_id; "step_index"; "1"; to_string index]
                 segments) w) /\
       (forall key,
          InsertEventPath more EscapeString event_id (StepKey key) w
          = ExecuteQueryString
              (instantiate
                 [to_string event_id; "step_key"; "0";
                  "'" ++ EscapeString key ++ "'"]
                 segments) w)).
Proof.
  intros event_id w. split; [reflexivity|]. split.
  - intros step Hset Hnum. destruct step as [index|key|]; [| |congruence];
      apply ExecuteQueryTemplate_mismatch; simpl; auto; lia.
  - intros segments Hq Hnum Hwf. split; intros x;
      unfold InsertEventPath, Bind_int64, Bind_bool, Bind_string, StrCat;
      cbn [String.concat];
      rewrite (ExecuteQueryTemplate_substitutes _ _ segments)
        by (try assumption; simpl; lia);
      reflexivity.
Qed.

(** X4. [SelectLastInsertID]: a status of the source that is not OK is
    returned as it is; with no record, or a first record without cells, the
    result is [Internal]; otherwise only the first cell of the first record
    is read: if [absl::SimpleAtoi] reads it the result is OK with that
    number, if not the result is [Internal].  The caller's value is kept on
    every error before the parse. *)
Theorem SelectLastInsertID_cases :
  forall (last_insert_id : Z) (w w1 : World) (st : Status) (rs : RecordSet),
    ExecuteQuery (select_last_insert_id more) [] empty_RecordSet w
    = (Returned (st, rs), w1) ->
    let result := SelectLastInsertID more SimpleAtoi_leftover last_insert_id w in
    (ok st = false -> result = (Returned (st, last_insert_id), w1)) /\
    (ok st = true -> records rs = [] ->
     exists msg, result = (Returned (InternalError msg, last_insert_id), w1)) /\
    (ok st = true ->
     forall record others,
       records rs = record :: others ->
       (values record = [] ->
        exists msg, result = (Returned (InternalError msg, last_insert_id), w1)) /\
       (forall cell cells,
          values record = cell :: cells ->
          (forall n, SimpleAtoi cell = Some n ->
                     result = (Returned (OkStatus, n), w1)) /\
          (SimpleAtoi cell = None ->
           exists msg,
             result
             = (Returned (InternalError msg, SimpleAtoi_leftover cell), w1)))).
Proof.
  intros last_insert_id w w1 st rs E result.
  unfold result, SelectLastInsertID, bind. rewrite E. cbn [fst snd].
  split; [|split].
  - intros Hok. rewrite Hok. reflexivity.
  - intros Hok Hrows. rewrite Hok. unfold records_size. rewrite Hrows.
    cbn. eexists. reflexivity.
  - intros Hok record others Hrows. rewrite Hok. unfold records_size.
    rewrite Hrows. cbn [negb length].
    assert (E0 : (Z.of_nat (S (length others)) =? 0)%Z = false)
      by (apply Z.eqb_neq; lia).
    rewrite E0. split.
    + intros Hcells. rewrite Hcells. cbn. eexists. reflexivity.
    + intros cell cells Hcells. rewrite Hcells. cbn [length].
      assert (E1 : (Z.of_nat (S (length cells)) =? 0)%Z = false)
        by (apply Z.eqb_neq; lia).
      rewrite E1. split.
      * intros n Hn. rewrite Hn. reflexivity.
      * intros Hn. rewrite Hn. eexists. reflexivity.
Qed.

(** X5. [SelectTypeByNameAndVersion] treats an empty version exactly like
    an absent one; a version that is not empty selects by name, version
    and kind, with name and version escaped and quoted. *)
Theorem SelectTypeByNameAndVersion_empty_version :
  forall (type_name : string) (type_kind : Z) (rs : RecordSet) (w : World),
    SelectTypeByNameAndVersion more EscapeString type_name (Some "") type_kind rs w
    = SelectTypeByNameAndVersion more EscapeString type_name None type_kind rs w /\
    (forall version,
       version <> "" ->
       SelectTypeByNameAndVersion more EscapeString type_name (Some version)
         type_kind rs w
       = ExecuteQuery (select_type_by_name_and_version more)
           ["'" ++ EscapeString type_name ++ "'";
            "'" ++ EscapeString version ++ "'"; to_string type_kind] rs w).
Proof.
  intros type_name type_kind rs w. split; [reflexivity|].
  intros version Hne. unfold SelectTypeByNameAndVersion.
  apply String.eqb_neq in Hne. rewrite Hne. reflexivity.
Qed.

End StatementProperties.

(** ** Probing, migration and initialisation: the other paths *)

Section OtherPaths.

Context `{Collaborators}.
Variable this : QueryConfigExecutor.

Lemma GetSchemaVersion_probes (db_version : Z) (w w' : World)
  (o : Outcome (Status * Z)) :
  GetSchemaVersion this db_version w = (o, w') ->
  exists t,
    trace w' = (trace w ++ t)%list /\
    t `prefix_of`
      [SourceQuery (query (check_mlmd_env_table (query_config_ this)));
       SourceQuery (query (check_tables_in_v0_13_2 (query_config_ this)))].
Proof.
  unfold GetSchemaVersion, bind.
  destruct (ExecuteQuery (check_mlmd_env_table (query_config_ this)) []
              empty_RecordSet w) as [o1 w1] eqn:E1.
  apply ExecuteQuery_no_parameters_trace in E1.
  destruct E1 as [[[r1 ->] Ht1] | [[log ->] ->]].
  2:{ intros E; inversion E; subst.
      exists []. rewrite app_nil_r. split; [reflexivity|apply prefix_nil]. }
  cbn [fst snd].
  assert (Hone : forall (o0 : Outcome (Status * Z)),
             (o0, w1) = (o, w') ->
             exists t,
               trace w' = (trace w ++ t)%list /\
               t `prefix_of`
                 [SourceQuery (query (check_mlmd_env_table (query_config_ this)));
                  SourceQuery (query (check_tables_in_v0_13_2 (query_config_ this)))]).
  { intros o0 E; inversion E; subst. eexists. split; [exact Ht1|].
    exists [SourceQuery (query (check_tables_in_v0_13_2 (query_config_ this)))].
    reflexivity. }
  destruct (ok (fst r1)).
  - destruct (records_size (snd r1) =? 0)%Z; [apply Hone|].
    destruct (1 <? records_size (snd r1))%Z; [apply Hone|].
    destruct (records (snd r1)) as [|record records]; [apply Hone|].
    destruct (values record) as [|cell cells]; [apply Hone|].
    destruct (SimpleAtoi cell); apply Hone.
  - destruct (ExecuteQuery (check_tables_in_v0_13_2 (query_config_ this)) []
                (snd r1) w1) as [o2 w2] eqn:E2.
    apply ExecuteQuery_no_parameters_trace in E2.
    destruct E2 as [[[r2 ->] Ht2] | [[log ->] ->]]; [|apply Hone].
    cbn [fst]. destruct (ok (fst r2)); intros E; inversion E; subst;
      (eexists; split; [rewrite Ht2, Ht1, <- app_assoc; reflexivity|reflexivity]).
Qed.

(** X6. [GetSchemaVersion] sends at most the two probes, in order, and
    never passes a status of the source to its caller: a status it returns
    has code OK, [Aborted], [DataLoss] or [NotFound], and whenever that
    status is not OK the caller's [db_version] is unchanged. *)
Theorem GetSchemaVersion_codes :
  forall (db_version : Z) (w w' : World) (o : Outcome (Status * Z)),
    GetSchemaVersion this db_version w = (o, w') ->
    (exists t,
       trace w' = (trace w ++ t)%list /\
       t `prefix_of`
         [SourceQuery (query (check_mlmd_env_table (query_config_ this)));
          SourceQuery (query (check_tables_in_v0_13_2 (query_config_ this)))]) /\
    (forall st v,
       o = Returned (st, v) ->
       (code st = kOk \/ code st = kAborted \/ code st = kDataLoss
        \/ code st = kNotFound) /\
       (ok st = false -> v = db_version)).
Proof.
  intros db_version w w' o E. split; [exact (GetSchemaVersion_probes _ _ _ _ E)|].
  revert E. unfold GetSchemaVersion, bind.
  destruct (ExecuteQuery (check_mlmd_env_table (query_config_ this)) []
              empty_RecordSet w) as [[r1|log|] w1];
    try (intros E st v Ho; subst o; discriminate).
  cbn [fst snd].
  destruct (ok (fst r1)).
  - destruct (records_size (snd r1) =? 0)%Z.
    { intros E st v Ho; subst o; inversion E; subst.
      split; [simpl; tauto|reflexivity]. }
    destruct (1 <? records_size (snd r1))%Z.
    { intros E st v Ho; subst o; inversion E; subst.
      split; [simpl; tauto|reflexivity]. }
    destruct (records (snd r1)) as [|record records];
      [intros E st v Ho; subst o; discriminate|].
    destruct (values record) as [|cell cells];
      [intros E st v Ho; subst o; discriminate|].
    destruct (SimpleAtoi cell); intros E st v Ho; subst o; [|discriminate].
    inversion E; subst. split; [simpl; tauto|discriminate].
  - destruct (ExecuteQuery (check_tables_in_v0_13_2 (query_config_ this)) []
                (snd r1) w1) as [[r2|log|] w2];
      try (intros E st v Ho; subst o; discriminate).
    cbn [fst]. destruct (ok (fst r2)); intros E st v Ho; subst o;
      inversion E; subst; (split; [simpl; tauto|]); [discriminate|reflexivity].
Qed.

(** X7. On an empty database ([GetSchemaVersion] reports [NotFound]) and on
    a database already at the library version,
    [UpgradeMetadataSourceIfOutOfDate] returns OK without running any
    migration, whether migration is enabled or not. *)
Theorem UpgradeMetadataSourceIfOutOfDate_nothing_to_do :
  forall (enable_migration : bool) (w w1 : World) (st : Status) (v : Z),
    GetSchemaVersion this 0 w = (Returned (st, v), w1) ->
    IsNotFound st = true \/ (ok st = true /\ v = GetLibraryVersion this) ->
    UpgradeMetadataSourceIfOutOfDate this enable_migration w
    = (Returned OkStatus, w1).
Proof.
  intros enable_migration w w1 st v HGet Hcase.
  unfold UpgradeMetadataSourceIfOutOfDate, bind. rewrite HGet. cbn [fst snd].
  destruct Hcase as [Hnf|[Hok ->]].
  - rewrite Hnf. cbn [negb andb]. unfold IsCompatible. cbn [fst snd].
    rewrite Z.eqb_refl. reflexivity.
  - rewrite (ok_not_IsNotFound _ Hok), Hok. cbn [negb andb].
    unfold IsCompatible. cbn [fst snd]. rewrite Z.eqb_refl. reflexivity.
Qed.

(** X8. A failure of the version probe other than [NotFound] ([Aborted],
    [DataLoss]) is returned by [UpgradeMetadataSourceIfOutOfDate] as it is,
    and nothing else is run. *)
Theorem UpgradeMetadataSourceIfOutOfDate_probe_error :
  forall (enable_migration : bool) (w w1 : World) (st : Status) (v : Z),
    GetSchemaVersion this 0 w = (Returned (st, v), w1) ->
    ok st = false -> IsNotFound st = false ->
    UpgradeMetadataSourceIfOutOfDate this enable_migration w = (Returned st, w1).
Proof.
  intros enable_migration w w1 st v HGet Hok Hnf.
  unfold UpgradeMetadataSourceIfOutOfDate, bind. rewrite HGet. cbn [fst snd].
  rewrite Hok, Hnf. reflexivity.
Qed.

Lemma run_upgrade_queries_app (pre post : list TemplateQuery) (w : World) :
  run_upgrade_queries (pre ++ post) w
  = bind (run_upgrade_queries pre)
      (fun st => if ok st then run_upgrade_queries post else ret st) w.
Proof.
  revert w. induction pre as [|q pre IH]; intros w; [reflexivity|].
  simpl. unfold bind in *.
  destruct (ExecuteQueryString (query q) w) as [[st|log|] w1]; try reflexivity.
  destruct (ok st) eqn:Hok; [apply IH|].
  unfold ret. now rewrite ok_with_context, Hok.
Qed.

(** X9. In the loop over the upgrade queries of a version, when the
    queries before [q] return OK and [q] does not, the loop returns the
    code of the source's status with the message prefixed by
    "Upgrade query failed: " and the text of [q]; the queries after [q] are
    not sent. *)
Theorem upgrade_query_failure :
  forall (pre post : list TemplateQuery) (q : TemplateQuery) (w w1 w2 : World)
         (st0 st : Status),
    run_upgrade_queries pre w = (Returned st0, w1) -> ok st0 = true ->
    ExecuteQueryString (query q) w1 = (Returned st, w2) -> ok st = false ->
    run_upgrade_queries (pre ++ q :: post) w
    = (Returned
         (MkStatus (code st) ("Upgrade query failed: " ++ query q ++ message st)),
       w2) /\
    trace w2 =
    (trace w ++ map (fun t => SourceQuery (query t)) (pre ++ [q]))%list.
Proof.
  intros pre post q w w1 w2 st0 st Hpre Hok0 Hq Hfail. split.
  - rewrite run_upgrade_queries_app. unfold bind at 1. rewrite Hpre, Hok0.
    simpl. unfold bind. rewrite Hq, Hfail. reflexivity.
  - destruct (runs_run_upgrade_queries _ _ _ _ Hpre) as (_ & t & Ht & _ & Hall).
    rewrite (Hall st0 eq_refl Hok0) in Ht.
    destruct (ExecuteQueryString_trace _ _ _ _ Hq) as [_ Ht2].
    rewrite Ht2, Ht, map_app, <- app_assoc. reflexivity.
Qed.

(** The function after its range check and its probe. *)
Lemma DowngradeMetadataSource_after_probe (to_schema_version : Z)
  (w w1 : World) (st : Status) (db_version : Z) :
  0 <= to_schema_version <= schema_version (query_config_ this) ->
  GetSchemaVersion this 0 w = (Returned (st, db_version), w1) ->
  IsNotFound st = false ->
  DowngradeMetadataSource this to_schema_version w =
  if negb (ok st) then (Returned st, w1)
  else if (schema_version (query_config_ this) <? db_version)%Z then
    (Returned
       (FailedPreconditionError
          (StrCat ["MLMD database version "; to_string db_version;
                   " is greater than library version ";
                   to_string (schema_version (query_config_ this));
                   ". The current library does not know how to downgrade it. ";
                   "Please upgrade the library to downgrade the schema."])),
     w1)
  else
    downgrade_loop this (Z.to_nat (db_version - to_schema_version))
      db_version to_schema_version w1.
Proof.
  intros Hin HGet Hnf. unfold DowngradeMetadataSource.
  assert (E : ((to_schema_version <? 0)%Z
               || (schema_version (query_config_ this) <? to_schema_version)%Z)%bool
              = false).
  { apply orb_false_iff. split; apply Z.ltb_ge; lia. }
  rewrite E. unfold bind. rewrite HGet. cbn [fst snd]. rewrite Hnf.
  destruct (negb (ok st)); [reflexivity|].
  destruct (schema_version (query_config_ this) <? db_version)%Z; reflexivity.
Qed.

(** X10. [DowngradeMetadataSource] never upgrades: for a target in range
    that is not below the version of the database, it returns OK and runs
    nothing after the probe. *)
Theorem DowngradeMetadataSource_nothing_to_do :
  forall (to_schema_version : Z) (w w1 : World) (st : Status) (db_version : Z),
    0 <= to_schema_version <= schema_version (query_config_ this) ->
    GetSchemaVersion this 0 w = (Returned (st, db_version), w1) ->
    ok st = true ->
    db_version <= to_schema_version ->
    DowngradeMetadataSource this to_schema_version w = (Returned OkStatus, w1).
Proof.
  intros to_schema_version w w1 st db_version Hin HGet Hok Hle.
  rewrite (DowngradeMetadataSource_after_probe _ _ _ _ _ Hin HGet
             (ok_not_IsNotFound _ Hok)).
  rewrite Hok. cbn [negb].
  assert (E : (schema_version (query_config_ this) <? db_version)%Z = false)
    by (apply Z.ltb_ge; lia).
  rewrite E.
  assert (E2 : (to_schema_version <? db_version)%Z = false)
    by (apply Z.ltb_ge; lia).
  destruct (Z.to_nat (db_version - to_schema_version)); simpl; now rewrite E2.
Qed.

(** X11. [DowngradeMetadataSource] with a target in range returns a probe
    failure other than [NotFound] as it is, and returns
    [FailedPrecondition] when the database is newer than the library; in
    both cases nothing is run after the probe. *)
Theorem DowngradeMetadataSource_refusals :
  forall (to_schema_version : Z) (w w1 : World) (st : Status) (db_version : Z),
    0 <= to_schema_version <= schema_version (query_config_ this) ->
    GetSchemaVersion this 0 w = (Returned (st, db_version), w1) ->
    (ok st = false -> IsNotFound st = false ->
     DowngradeMetadataSource this to_schema_version w = (Returned st, w1)) /\
    (ok st = true -> schema_version (query_config_ this) < db_version ->
     exists msg,
       DowngradeMetadataSource this to_schema_version w
       = (Returned (FailedPreconditionError msg), w1)).
Proof.
  intros to_schema_version w w1 st db_version Hin HGet. split.
  - intros Hok Hnf.
    rewrite (DowngradeMetadataSource_after_probe _ _ _ _ _ Hin HGet Hnf), Hok.
    reflexivity.
  - intros Hok Hnewer.
    rewrite (DowngradeMetadataSource_after_probe _ _ _ _ _ Hin HGet
               (ok_not_IsNotFound _ Hok)), Hok.
    cbn [negb].
    assert (E : (schema_version (query_config_ this) <? db_version)%Z = true)
      by (apply Z.ltb_lt; lia).
    rewrite E. eexists. reflexivity.
Qed.

(** X12. [DowngradeMetadataSource] looks the scheme up under the
    destination version: when a step down from [db_version] is due and
    [migration_schemes[db_version - 1]] is missing, the result is
    [Internal], naming that version, and nothing is run after the probe. *)
Theorem DowngradeMetadataSource_missing_scheme :
  forall (to_schema_version : Z) (w w1 : World) (st : Status) (db_version : Z),
    0 <= to_schema_version <= schema_version (query_config_ this) ->
    GetSchemaVersion this 0 w = (Returned (st, db_version), w1) ->
    ok st = true ->
    to_schema_version < db_version <= schema_version (query_config_ this) ->
    migration_schemes (query_config_ this) !! (db_version - 1) = None ->
    DowngradeMetadataSource this to_schema_version w
    = (Returned
         (InternalError
            ("Cannot find migration_schemes to version "
             ++ to_string (db_version - 1))),
       w1).
Proof.
  intros to_schema_version w w1 st db_version Hin HGet Hok Hdb Hmissing.
  rewrite (DowngradeMetadataSource_after_probe _ _ _ _ _ Hin HGet
             (ok_not_IsNotFound _ Hok)), Hok.
  cbn [negb].
  assert (E : (schema_version (query_config_ this) <? db_version)%Z = false)
    by (apply Z.ltb_ge; lia).
  rewrite E.
  assert (E2 : (to_schema_version <? db_version)%Z = true)
    by (apply Z.ltb_lt; lia).
  destruct (Z.to_nat (db_version - to_schema_version)) as [|fuel] eqn:Hfuel;
    [lia|].
  simpl. rewrite E2, Hmissing. reflexivity.
Qed.


Lemma insert_or_confirm_schema_version_probes (w w' : World) (o : Outcome Status) :
  insert_or_confirm_schema_version this w = (o, w') ->
  o <> OutOfFuel /\
  exists tail,
    trace w' =
    (trace w ++ Header (InsertSchemaVersion (GetLibraryVersion this)) :: tail)%list /\
    tail `prefix_of`
      [SourceQuery (query (check_mlmd_env_table (query_config_ this)));
       SourceQuery (query (check_tables_in_v0_13_2 (query_config_ this)))].
Proof.
  unfold insert_or_confirm_schema_version, bind.
  destruct (header (InsertSchemaVersion (GetLibraryVersion this)) w)
    as [o1 w1] eqn:E1.
  destruct (header_trace _ _ _ _ E1) as [Hfuel1 Ht1].
  assert (Hstop : forall (o0 : Outcome Status),
             o0 <> OutOfFuel -> (o0, w1) = (o, w') ->
             o <> OutOfFuel /\
             exists tail,
               trace w' =
               (trace w ++ Header (InsertSchemaVersion (GetLibraryVersion this))
                  :: tail)%list /\
               tail `prefix_of`
                 [SourceQuery (query (check_mlmd_env_table (query_config_ this)));
                  SourceQuery (query (check_tables_in_v0_13_2 (query_config_ this)))]).
  { intros o0 Hne E; inversion E; subst. split; [assumption|].
    exists []. split; [assumption|apply prefix_nil]. }
  destruct o1 as [st|log|]; [|apply Hstop; discriminate|congruence].
  destruct (ok st); cbn [negb]; [apply Hstop; discriminate|].
  destruct (GetSchemaVersion this (-1) w1) as [o2 w2] eqn:E2.
  destruct (GetSchemaVersion_trace _ _ _ _ _ E2) as [Hfuel2 _].
  destruct (GetSchemaVersion_probes _ _ _ _ E2) as (tail & Ht2 & Hp2).
  assert (Hread : forall (o0 : Outcome Status),
             o0 <> OutOfFuel -> (o0, w2) = (o, w') ->
             o <> OutOfFuel /\
             exists tail,
               trace w' =
               (trace w ++ Header (InsertSchemaVersion (GetLibraryVersion this))
                  :: tail)%list /\
               tail `prefix_of`
                 [SourceQuery (query (check_mlmd_env_table (query_config_ this)));
                  SourceQuery (query (check_tables_in_v0_13_2 (query_config_ this)))]).
  { intros o0 Hne E; inversion E; subst. split; [assumption|].
    exists tail. split; [|assumption].
    rewrite Ht2, Ht1, <- app_assoc. reflexivity. }
  destruct o2 as [r|log|]; [|apply Hread; discriminate|congruence].
  destruct (negb (ok (fst r))); [apply Hread; discriminate|].
  destruct (negb (snd r =? GetLibraryVersion this)%Z); apply Hread; discriminate.
Qed.

(** X13. However [InitMetadataSource] ends, what it did is either a prefix
    of the create statements followed by the index statements, or all of
    them followed by one call of [InsertSchemaVersion] with the library
    version and then at most the two probes of [GetSchemaVersion]: the
    schema version is never inserted before every table and index statement
    has run, and nothing is created after it. *)
Theorem InitMetadataSource_inserts_last :
  forall (w w' : World) (o : Outcome Status),
    InitMetadataSource this w = (o, w') ->
    let statements :=
      map (fun q => SourceQuery (query q))
        (create_table_queries this ++ secondary_indices (query_config_ this)) in
    o <> OutOfFuel /\
    exists t,
      trace w' = (trace w ++ t)%list /\
      (t `prefix_of` statements \/
       exists tail,
         t = (statements
              ++ Header (InsertSchemaVersion (GetLibraryVersion this)) :: tail)%list /\
         tail `prefix_of`
           [SourceQuery (query (check_mlmd_env_table (query_config_ this)));
            SourceQuery (query (check_tables_in_v0_13_2 (query_config_ this)))]).
Proof.
  intros w w' o E statements. subst statements. rewrite map_app.
  set (creates := map (fun q => SourceQuery (query q)) (create_table_queries this)).
  set (indices := map (fun q => SourceQuery (query q))
                    (secondary_indices (query_config_ this))).
  set (probes := [SourceQuery (query (check_mlmd_env_table (query_config_ this)));
                  SourceQuery (query (check_tables_in_v0_13_2 (query_config_ this)))]).
  set (insert := Header (InsertSchemaVersion (GetLibraryVersion this))).
  unfold InitMetadataSource, bind in E.
  destruct (run_create_queries (create_table_queries this) w)
    as [o1 w1] eqn:E1.
  destruct (runs_run_create_queries _ _ _ _ E1) as (Hf1 & t1 & Ht1 & Hp1 & Hall1).
  fold creates in Hp1, Hall1.
  assert (Hearly : forall (o0 : Outcome Status),
             o0 <> OutOfFuel -> (o0, w1) = (o, w') ->
             o <> OutOfFuel /\
             exists t,
               trace w' = (trace w ++ t)%list /\
               (t `prefix_of` (creates ++ indices)%list \/
                exists tail,
                  t = ((creates ++ indices) ++ insert :: tail)%list /\
                  tail `prefix_of` probes)).
  { intros o0 Hne E0; inversion E0; subst. split; [assumption|].
    exists t1. split; [assumption|]. left. now apply prefix_app_r. }
  destruct o1 as [st1|log|]; [|(eapply Hearly; [|exact E]; discriminate)|congruence].
  destruct (ok st1) eqn:Hok1; [|(eapply Hearly; [|exact E]; discriminate)].
  rewrite (Hall1 st1 eq_refl Hok1) in Ht1. clear Hearly.
  destruct (run_secondary_indices (secondary_indices (query_config_ this)) w1)
    as [o2 w2] eqn:E2.
  destruct (runs_run_secondary_indices _ _ _ _ E2) as (Hf2 & t2 & Ht2 & Hp2 & Hall2).
  fold indices in Hp2, Hall2.
  assert (Hmid : forall (o0 : Outcome Status),
             o0 <> OutOfFuel -> (o0, w2) = (o, w') ->
             o <> OutOfFuel /\
             exists t,
               trace w' = (trace w ++ t)%list /\
               (t `prefix_of` (creates ++ indices)%list \/
                exists tail,
                  t = ((creates ++ indices) ++ insert :: tail)%list /\
                  tail `prefix_of` probes)).
  { intros o0 Hne E0; inversion E0; subst. split; [assumption|].
    eexists. split; [rewrite Ht2, Ht1, <- app_assoc; reflexivity|].
    left. now apply prefix_app. }
  destruct o2 as [st2|log|]; [|(eapply Hmid; [|exact E]; discriminate)|congruence].
  destruct (ok st2) eqn:Hok2; [|(eapply Hmid; [|exact E]; discriminate)].
  rewrite (Hall2 st2 eq_refl Hok2) in Ht2. clear Hmid.
  destruct (insert_or_confirm_schema_version_probes _ _ _ E)
    as (Hf3 & tail & Ht3 & Hp3).
  split; [assumption|]. eexists. split.
  - rewrite Ht3, Ht2, Ht1, <- !app_assoc. reflexivity.
  - right. exists tail. split; [|assumption]. now rewrite <- !app_assoc.
Qed.

(** X14. With a pinned query version, [InitMetadataSourceIfNotExists] is
    the single call [CheckSchemaVersionAlignsWithQueryVersion]: it does not
    upgrade, check tables or create anything. *)
Theorem InitMetadataSourceIfNotExists_pinned :
  forall (pinned : Z) (enable : bool) (w w' : World) (o : Outcome Status),
    query_schema_version this = Some pinned ->
    InitMetadataSourceIfNotExists this enable w = (o, w') ->
    InitMetadataSourceIfNotExists this enable w
    = header CheckSchemaVersionAlignsWithQueryVersion w /\
    trace w' =
    (trace w ++ [Header CheckSchemaVersionAlignsWithQueryVersion])%list.
Proof.
  intros pinned enable w w' o Hpin E.
  unfold InitMetadataSourceIfNotExists in *. rewrite Hpin in *.
  split; [reflexivity|]. exact (proj2 (header_trace _ _ _ _ E)).
Qed.

(** X15. Without a pinned query version, when the upgrade step does not
    return OK, [InitMetadataSourceIfNotExists] returns that status in the
    world the upgrade left: no table is checked and nothing is created. *)
Theorem InitMetadataSourceIfNotExists_upgrade_failure :
  forall (enable : bool) (w w1 : World) (st : Status),
    query_schema_version this = None ->
    UpgradeMetadataSourceIfOutOfDate this enable w = (Returned st, w1) ->
    ok st = false ->
    InitMetadataSourceIfNotExists this enable w = (Returned st, w1).
Proof.
  intros enable w w1 st Hpin HUp Hfail.
  unfold InitMetadataSourceIfNotExists. rewrite Hpin.
  unfold bind at 1. rewrite HUp, Hfail. reflexivity.
Qed.

(** X16. [ListNodeIDsUsingOptions] always returns, and sends at most one
    statement to the source; when it sends none, the record set comes back
    as it went in.  When the candidate ids are not an empty list and the
    node kind is not one of the three, or one of the three clause helpers
    rejects the options, it returns a status that is not OK without
    sending anything. *)
Theorem ListNodeIDsUsingOptions_one_statement :
  forall (node : Node) (options : ListOperationOptions)
         (candidate_ids : option (list Z)) (rs : RecordSet) (w w' : World)
         (o : Outcome (Status * RecordSet)),
    ListNodeIDsUsingOptions node options candidate_ids rs w = (o, w') ->
    (exists st rs', o = Returned (st, rs') /\
       ((w' = w /\ rs' = rs) \/
        exists sql, trace w' = (trace w ++ [SourceQuery sql])%list)) /\
    (candidate_ids <> Some [] ->
     node = NodeOther \/
     (forall s, ok (fst (AppendOrderingThresholdClause options s)) = false) \/
     (forall s, ok (fst (AppendOrderByClause options s)) = false) \/
     (forall s, ok (fst (AppendLimitClause options s)) = false) ->
     exists st, o = Returned (st, rs) /\ ok st = false /\ w' = w).
Proof.
  intros node options candidate_ids rs w w' o.
  unfold ListNodeIDsUsingOptions.
  destruct (match candidate_ids with Some [] => true | _ => false end) eqn:Hempty.
  { intros E; inversion E; subst. split.
    - exists OkStatus, rs. split; [reflexivity|]. left. split; reflexivity.
    - intros Hne. destruct candidate_ids as [[|]|]; congruence. }
  set (prefix_sql := match node with
                 | NodeArtifact => Some "SELECT `id` FROM `Artifact` WHERE"
                 | NodeExecution => Some "SELECT `id` FROM `Execution` WHERE"
                 | NodeContext => Some "SELECT `id` FROM `Context` WHERE"
                 | NodeOther => None
                 end).
  assert (Hsel : node = NodeOther -> prefix_sql = None) by (intros ->; reflexivity).
  destruct prefix_sql as [sel|].
  2:{ intros E; inversion E; subst. split.
      - eexists _, rs. split; [reflexivity|]. left. split; reflexivity.
      - intros _ _. eexists. repeat split. }
  set (sql0 := match candidate_ids with
               | Some ids => sel ++ StrCat [" `id` IN ("; Bind_ids ids; ") AND "]
               | None => sel
               end).
  destruct (ok (fst (AppendOrderingThresholdClause options sql0))) eqn:H1; cbn [negb].
  2:{ intros E; inversion E; subst. split.
      - eexists _, rs. split; [reflexivity|]. left. split; reflexivity.
      - intros _ _. eexists. repeat split. exact H1. }
  destruct (ok (fst (AppendOrderByClause options
                       (snd (AppendOrderingThresholdClause options sql0))))) eqn:H2;
    cbn [negb].
  2:{ intros E; inversion E; subst. split.
      - eexists _, rs. split; [reflexivity|]. left. split; reflexivity.
      - intros _ _. eexists. repeat split. exact H2. }
  destruct (ok (fst (AppendLimitClause options
                       (snd (AppendOrderByClause options
                               (snd (AppendOrderingThresholdClause options sql0)))))))
    eqn:H3; cbn [negb].
  2:{ intros E; inversion E; subst. split.
      - eexists _, rs. split; [reflexivity|]. left. split; reflexivity.
      - intros _ _. eexists. repeat split. exact H3. }
  unfold ExecuteQueryStringInto. intros E.
  destruct (metadata_source_ExecuteQuery_returns
              (snd (AppendLimitClause options
                      (snd (AppendOrderByClause options
                              (snd (AppendOrderingThresholdClause options sql0))))))
              rs w) as (st & rs' & d & E').
  rewrite E' in E. inversion E; subst. split.
  - exists st, rs'. split; [reflexivity|]. right. eexists. reflexivity.
  - intros _ [Hother|[Hall|[Hall|Hall]]].
    + specialize (Hsel Hother). discriminate.
    + rewrite Hall in H1. discriminate.
    + rewrite Hall in H2. discriminate.
    + rewrite Hall in H3. discriminate.
Qed.

End OtherPaths.

(** * mlmd_bench: the byte counters *)

Lemma add_property_comm (j1 j2 : string) (z1 z2 : MlmdBench.Value) (y : Z) :
  MlmdBench.add_property j1 z1 (MlmdBench.add_property j2 z2 y)
  = MlmdBench.add_property j2 z2 (MlmdBench.add_property j1 z1 y).
Proof. unfold MlmdBench.add_property. lia. Qed.

Lemma properties_bytes_insert (properties : gmap string MlmdBench.Value)
  (name : string) (value : MlmdBench.Value) :
  properties !! name = None ->
  MlmdBench.GetTransferredBytesForNodeProperties (<[name := value]> properties)
  = MlmdBench.GetTransferredBytesForNodeProperties properties
    + MlmdBench.size name
    + MlmdBench.size (MlmdBench.Value_string_value value).
Proof.
  intros Hfresh. unfold MlmdBench.GetTransferredBytesForNodeProperties.
  rewrite map_fold_insert_L; [reflexivity| |assumption].
  intros. apply add_property_comm.
Qed.

Lemma properties_bytes_nonneg (properties : gmap string MlmdBench.Value) :
  0 <= MlmdBench.GetTransferredBytesForNodeProperties properties.
Proof.
  unfold MlmdBench.GetTransferredBytesForNodeProperties.
  apply (map_fold_weak_ind (fun r _ => 0 <= r)); [lia|].
  intros name value m r _ Hr. unfold MlmdBench.add_property, MlmdBench.size. lia.
Qed.

(** X17.  [GetTransferredBytesForNodeProperties] counts, for every
    property, the length of its name and the length of its string value
    only: an empty map counts 0 and the count is never negative; adding a
    property under a new name adds the length of the name, plus the length
    of the string when the value is a string and nothing more when it is an
    int, a double, a struct or unset; putting a value under a name that is
    already there changes the count by the difference of the two string
    values' lengths. *)
Theorem GetTransferredBytesForNodeProperties_counts :
  forall (properties : gmap string MlmdBench.Value) (name : string)
         (value : MlmdBench.Value),
    MlmdBench.GetTransferredBytesForNodeProperties ∅ = 0 /\
    0 <= MlmdBench.GetTransferredBytesForNodeProperties properties /\
    (properties !! name = None ->
     MlmdBench.GetTransferredBytesForNodeProperties (<[name := value]> properties)
     = MlmdBench.GetTransferredBytesForNodeProperties properties
       + MlmdBench.size name
       + match value with
         | MlmdBench.string_value s => MlmdBench.size s
         | _ => 0
         end) /\
    (forall old,
       properties !! name = Some old ->
       MlmdBench.GetTransferredBytesForNodeProperties (<[name := value]> properties)
       = MlmdBench.GetTransferredBytesForNodeProperties properties
         - MlmdBench.size (MlmdBench.Value_string_value old)
         + MlmdBench.size (MlmdBench.Value_string_value value)).
Proof.
  intros properties name value. split; [reflexivity|].
  split; [apply properties_bytes_nonneg|]. split.
  - intros Hfresh. rewrite properties_bytes_insert by assumption.
    destruct value; reflexivity.
  - intros old Hold.
    rewrite <- insert_delete_eq.
    rewrite properties_bytes_insert by apply lookup_delete_eq.
    unfold MlmdBench.GetTransferredBytesForNodeProperties.
    rewrite (map_fold_delete_L _ 0 name old properties);
      [|intros; apply add_property_comm|assumption].
    unfold MlmdBench.add_property.
    lia.
Qed.

Lemma bytes_as_lower_bound (kind : MlmdBench.NodeKind) (node : MlmdBench.Node)
  (b : Z) :
  MlmdBench.bytes_as kind node = Some b -> 32 <= b.
Proof.
  destruct kind, node as [a|e|c]; simpl; intros E; inversion E; subst;
    unfold MlmdBench.GetTransferredBytes_Artifact,
      MlmdBench.GetTransferredBytes_Execution,
      MlmdBench.GetTransferredBytes_Context, MlmdBench.size,
      MlmdBench.kInt64IdSize, MlmdBench.kInt64TypeIdSize,
      MlmdBench.kInt64CreateTimeSize, MlmdBench.kInt64LastUpdateTimeSize,
      MlmdBench.kEnumStateSize.
  - pose proof (properties_bytes_nonneg (MlmdBench.artifact_properties a)).
    pose proof (properties_bytes_nonneg (MlmdBench.artifact_custom_properties a)).
    lia.
  - pose proof (properties_bytes_nonneg (MlmdBench.execution_properties e)).
    pose proof (properties_bytes_nonneg (MlmdBench.execution_custom_properties e)).
    lia.
  - pose proof (properties_bytes_nonneg (MlmdBench.context_properties c)).
    pose proof (properties_bytes_nonneg (MlmdBench.context_custom_properties c)).
    lia.
Qed.

Lemma all_nodes_from_shift (kind : MlmdBench.NodeKind) (type_name : string)
  (nodes : list MlmdBench.Node) :
  forall bytes,
    MlmdBench.all_nodes_under_a_type_from kind type_name nodes bytes
    = option_map (Z.add bytes)
        (MlmdBench.all_nodes_under_a_type_from kind type_name nodes 0).
Proof.
  induction nodes as [|node rest IH]; intros bytes; simpl.
  - f_equal. lia.
  - destruct (MlmdBench.type_as kind node) as [type|]; [|reflexivity].
    destruct (MlmdBench.bytes_as kind node) as [b|]; [|reflexivity].
    destruct (String.eqb type type_name).
    + rewrite (IH (bytes + b)), (IH (0 + b)).
      destruct (MlmdBench.all_nodes_under_a_type_from kind type_name rest 0);
        simpl; [f_equal; lia|reflexivity].
    + apply IH.
Qed.

Lemma type_as_bytes_as (kind : MlmdBench.NodeKind) (node : MlmdBench.Node) :
  MlmdBench.type_as kind node = None <-> MlmdBench.bytes_as kind node = None.
Proof. destruct kind, node; simpl; split; congruence. Qed.

(** X18.  [GetTransferredBytesForAllNodesUnderAType<NT>] over the nodes
    the benchmark holds: the count of a concatenation is the sum of the
    counts of its parts; no count comes back exactly when some node holds
    another kind than [NT] (there [absl::get<NT>] raises, whatever the
    node's type name is); a count that comes back is at least 32 bytes for
    every node of the kind whose type is [type_name]; and it is 0 when all
    nodes are of the kind and none has that type. *)
Theorem GetTransferredBytesForAllNodesUnderAType_sums :
  forall (kind : MlmdBench.NodeKind) (type_name : string)
         (nodes more_nodes : list MlmdBench.Node),
    let count := MlmdBench.GetTransferredBytesForAllNodesUnderAType kind type_name in
    (count (nodes ++ more_nodes)%list =
     match count nodes, count more_nodes with
     | Some a, Some b => Some (a + b)
     | _, _ => None
     end) /\
    (count nodes = None <->
     Exists (fun node => MlmdBench.type_as kind node = None) nodes) /\
    (forall total,
       count nodes = Some total ->
       32 * Z.of_nat (length (List.filter (MlmdBench.under_type kind type_name) nodes))
       <= total) /\
    (Forall (fun node => MlmdBench.under_type kind type_name node = false) nodes ->
     Forall (fun node => MlmdBench.type_as kind node <> None) nodes ->
     count nodes = Some 0).
Proof.
  intros kind type_name nodes more_nodes count. subst count.
  unfold MlmdBench.GetTransferredBytesForAllNodesUnderAType.
  split; [|split; [|split]].
  - induction nodes as [|node rest IH]; simpl.
    + destruct (MlmdBench.all_nodes_under_a_type_from kind type_name more_nodes 0);
        reflexivity.
    + destruct (MlmdBench.type_as kind node) as [type|]; [|reflexivity].
      destruct (MlmdBench.bytes_as kind node) as [b|]; [|reflexivity].
      destruct (String.eqb type type_name); [|exact IH].
      rewrite (all_nodes_from_shift _ _ (rest ++ more_nodes)),
        (all_nodes_from_shift _ _ rest), IH.
      destruct (MlmdBench.all_nodes_under_a_type_from kind type_name rest 0);
        [|reflexivity].
      destruct (MlmdBench.all_nodes_under_a_type_from kind type_name more_nodes 0);
        simpl; [f_equal; lia|reflexivity].
  - induction nodes as [|node rest IH]; simpl.
    + split; [discriminate|]. intros Hex. inversion Hex.
    + destruct (MlmdBench.type_as kind node) as [type|] eqn:Htype.
      * destruct (MlmdBench.bytes_as kind node) as [b|] eqn:Hbytes;
          [|apply type_as_bytes_as in Hbytes; congruence].
        rewrite all_nodes_from_shift.
        destruct (MlmdBench.all_nodes_under_a_type_from kind type_name rest 0)
          as [r|] eqn:Hrest; simpl.
        -- split; [discriminate|]. intros Hex. inversion Hex; subst;
             [congruence|]. apply IH in H0. discriminate.
        -- split; [|reflexivity]. intros _. apply Exists_cons_tl. now apply IH.
      * split; [|reflexivity]. intros _. apply Exists_cons_hd. exact Htype.
  - induction nodes as [|node rest IH]; intros total; simpl.
    + intros E; inversion E; subst. simpl. lia.
    + unfold MlmdBench.under_type at 1.
      destruct (MlmdBench.type_as kind node) as [type|]; [|discriminate].
      destruct (MlmdBench.bytes_as kind node) as [b|] eqn:Hb; [|discriminate].
      rewrite all_nodes_from_shift.
      destruct (MlmdBench.all_nodes_under_a_type_from kind type_name rest 0)
        as [r|]; [|destruct (String.eqb type type_name); discriminate].
      specialize (IH r eq_refl). apply bytes_as_lower_bound in Hb.
      destruct (String.eqb type type_name); simpl; intros E; inversion E; subst;
        simpl length; lia.
  - induction nodes as [|node rest IH]; [reflexivity|].
    intros Hnone Hkind. inversion Hnone; subst. inversion Hkind; subst.
    simpl. unfold MlmdBench.under_type in H1.
    destruct (MlmdBench.type_as kind node) as [type|] eqn:Htype; [|congruence].
    destruct (MlmdBench.bytes_as kind node) as [b|] eqn:Hbytes;
      [|apply type_as_bytes_as in Hbytes; congruence].
    rewrite H1. now apply IH.
Qed.

(** ** The further properties on the toy source *)

Lemma ExecuteQuery_substitutes_witness :
  ExecuteQuery (select_type_by_id ToyStatements.toy_more) ["7"; "$0"]
    empty_RecordSet (Toy.start Toy.db_empty)
  = metadata_source_ExecuteQuery
      "SELECT * FROM `Type` WHERE id = 7 AND type_kind = $0;"
      empty_RecordSet (Toy.start Toy.db_empty).
Proof.
  apply (ExecuteQuery_substitutes (select_type_by_id ToyStatements.toy_more)
           ["7"; "$0"] ToyStatements.select_by_id_segments);
    [reflexivity|reflexivity|simpl; lia|reflexivity].
Defined.

Lemma InsertParentContext_binds_child_first_witness :
  InsertParentContext ToyStatements.toy_more 1 2 (Toy.start Toy.db_empty)
  = ExecuteQueryString
      "INSERT INTO `ParentContext`(`context_id`, `parent_context_id`) VALUES (2, 1);"
      (Toy.start Toy.db_empty).
Proof.
  apply (InsertParentContext_binds_child_first ToyStatements.toy_more 1 2
           ToyStatements.insert_parent_context_segments);
    reflexivity.
Defined.

Lemma InsertEventPath_cases_witness :
  (exists log,
     InsertEventPath ToyStatements.broken_more ToyStatements.toy_escape 5
       (StepIndex 3) (Toy.start Toy.db_empty)
     = (Fatal log, Toy.start Toy.db_empty)) /\
  InsertEventPath ToyStatements.toy_more ToyStatements.toy_escape 5
    (StepIndex 3) (Toy.start Toy.db_empty)
  = ExecuteQueryString
      "INSERT INTO `EventPath`(`event_id`, `is_index_step`, `step_index`) VALUES (5, 1, 3);"
      (Toy.start Toy.db_empty) /\
  InsertEventPath ToyStatements.toy_more ToyStatements.toy_escape 5
    (StepKey "it's") (Toy.start Toy.db_empty)
  = ExecuteQueryString
      "INSERT INTO `EventPath`(`event_id`, `is_index_step`, `step_key`) VALUES (5, 0, 'it\'s');"
      (Toy.start Toy.db_empty).
Proof.
  split; [|split].
  - destruct (InsertEventPath_cases ToyStatements.broken_more
                ToyStatements.toy_escape 5 (Toy.start Toy.db_empty))
      as (_ & Hfatal & _).
    apply Hfatal; discriminate.
  - destruct (InsertEventPath_cases ToyStatements.toy_more
                ToyStatements.toy_escape 5 (Toy.start Toy.db_empty))
      as (_ & _ & Hsent).
    destruct (Hsent ToyStatements.insert_event_path_segments eq_refl eq_refl eq_refl)
      as [Hindex _].
    exact (Hindex 3).
  - destruct (InsertEventPath_cases ToyStatements.toy_more
                ToyStatements.toy_escape 5 (Toy.start Toy.db_empty))
      as (_ & _ & Hsent).
    destruct (Hsent ToyStatements.insert_event_path_segments eq_refl eq_refl eq_refl)
      as [_ Hkey].
    exact (Hkey "it's").
Defined.

Lemma SelectLastInsertID_cases_witness :
  @SelectLastInsertID ToyStatements.toy2 ToyStatements.toy_more
    ToyStatements.toy_leftover 9 (ToyStatements.start (Toy.db_rows ["42"; "43"]))
  = (Returned (OkStatus, 42),
     MkWorld (Toy.db_rows ["42"; "43"]) [SourceQuery ToyStatements.last_insert_sql]) /\
  (exists msg,
     @SelectLastInsertID ToyStatements.toy2 ToyStatements.toy_more
       ToyStatements.toy_leftover 9 (ToyStatements.start (Toy.db_rows ["abc"]))
     = (Returned (InternalError msg, 0),
        MkWorld (Toy.db_rows ["abc"]) [SourceQuery ToyStatements.last_insert_sql])) /\
  (exists msg,
     @SelectLastInsertID ToyStatements.toy2 ToyStatements.toy_more
       ToyStatements.toy_leftover 9 (ToyStatements.start (Toy.db_rows [""]))
     = (Returned (InternalError msg, 9),
        MkWorld (Toy.db_rows [""]) [SourceQuery ToyStatements.last_insert_sql])) /\
  (exists msg,
     @SelectLastInsertID ToyStatements.toy2 ToyStatements.toy_more
       ToyStatements.toy_leftover 9 (ToyStatements.start (Toy.db_rows []))
     = (Returned (InternalError msg, 9),
        MkWorld (Toy.db_rows []) [SourceQuery ToyStatements.last_insert_sql])) /\
  @SelectLastInsertID ToyStatements.toy2 ToyStatements.broken_more
    ToyStatements.toy_leftover 9 (ToyStatements.start (Toy.db_rows ["42"]))
  = (Returned (InternalError "syntax error", 9),
     MkWorld (Toy.db_rows ["42"]) [SourceQuery Toy.failing_sql]).
Proof.
  split; [|split; [|split; [|split]]].
  - edestruct (@SelectLastInsertID_cases ToyStatements.toy2 ToyStatements.toy_more
                 ToyStatements.toy_leftover 9
                 (ToyStatements.start (Toy.db_rows ["42"; "43"])))
      as (_ & _ & Hrows); [vm_compute; reflexivity|].
    edestruct (Hrows eq_refl) as [_ Hcell]; [reflexivity|].
    edestruct Hcell as [Hparsed _]; [reflexivity|].
    apply Hparsed. reflexivity.
  - edestruct (@SelectLastInsertID_cases ToyStatements.toy2 ToyStatements.toy_more
                 ToyStatements.toy_leftover 9
                 (ToyStatements.start (Toy.db_rows ["abc"])))
      as (_ & _ & Hrows); [vm_compute; reflexivity|].
    edestruct (Hrows eq_refl) as [_ Hcell]; [reflexivity|].
    edestruct Hcell as [_ Hunread]; [reflexivity|].
    apply Hunread. reflexivity.
  - edestruct (@SelectLastInsertID_cases ToyStatements.toy2 ToyStatements.toy_more
                 ToyStatements.toy_leftover 9
                 (ToyStatements.start (Toy.db_rows [""])))
      as (_ & _ & Hrows); [vm_compute; reflexivity|].
    edestruct (Hrows eq_refl) as [Hnocell _]; [reflexivity|].
    apply Hnocell. reflexivity.
  - edestruct (@SelectLastInsertID_cases ToyStatements.toy2 ToyStatements.toy_more
                 ToyStatements.toy_leftover 9
                 (ToyStatements.start (Toy.db_rows [])))
      as (_ & Hnorow & _); [vm_compute; reflexivity|].
    apply Hnorow; reflexivity.
  - edestruct (@SelectLastInsertID_cases ToyStatements.toy2 ToyStatements.broken_more
                 ToyStatements.toy_leftover 9
                 (ToyStatements.start (Toy.db_rows ["42"])))
      as (Hfail & _); [vm_compute; reflexivity|].
    apply Hfail. reflexivity.
Defined.

Lemma SelectTypeByNameAndVersion_empty_version_witness :
  SelectTypeByNameAndVersion ToyStatements.toy_more ToyStatements.toy_escape
    "Model" (Some "v1") 1 empty_RecordSet (Toy.start Toy.db_empty)
  = ExecuteQuery (select_type_by_name_and_version ToyStatements.toy_more)
      ["'Model'"; "'v1'"; "1"] empty_RecordSet (Toy.start Toy.db_empty).
Proof.
  destruct (SelectTypeByNameAndVersion_empty_version ToyStatements.toy_more
              ToyStatements.toy_escape "Model" 1 empty_RecordSet
              (Toy.start Toy.db_empty)) as [_ Hversion].
  apply Hversion. discriminate.
Defined.

Lemma GetSchemaVersion_codes_witness :
  exists st v,
    fst (GetSchemaVersion Toy.toy_executor 7 (Toy.start (Toy.db_rows ["2"; "3"])))
    = Returned (st, v) /\
    (code st = kOk \/ code st = kAborted \/ code st = kDataLoss
     \/ code st = kNotFound) /\
    ok st = false /\ v = 7.
Proof.
  pose proof (proj2 (GetSchemaVersion_codes Toy.toy_executor 7
                       (Toy.start (Toy.db_rows ["2"; "3"]))
                       (snd (GetSchemaVersion Toy.toy_executor 7
                               (Toy.start (Toy.db_rows ["2"; "3"]))))
                       (fst (GetSchemaVersion Toy.toy_executor 7
                               (Toy.start (Toy.db_rows ["2"; "3"]))))
                       (surjective_pairing _))) as Hcodes.
  edestruct Hcodes as [Hcode Hkept]; [vm_compute; reflexivity|].
  eexists _, _. split; [vm_compute; reflexivity|].
  split; [exact Hcode|]. split; [reflexivity|]. apply Hkept. reflexivity.
Defined.

Lemma UpgradeMetadataSourceIfOutOfDate_nothing_to_do_witness :
  UpgradeMetadataSourceIfOutOfDate Toy.toy_executor false (Toy.start Toy.db_empty)
  = (Returned OkStatus, Toy.probed_twice Toy.db_empty) /\
  UpgradeMetadataSourceIfOutOfDate Toy.toy_executor true (Toy.start (Toy.db_at 3))
  = (Returned OkStatus, Toy.probed (Toy.db_at 3)).
Proof.
  split.
  - apply (UpgradeMetadataSourceIfOutOfDate_nothing_to_do Toy.toy_executor false
             (Toy.start Toy.db_empty) (Toy.probed_twice Toy.db_empty)
             (NotFoundError "it looks an empty db is given.") 0 eq_refl).
    left. reflexivity.
  - apply (UpgradeMetadataSourceIfOutOfDate_nothing_to_do Toy.toy_executor true
             (Toy.start (Toy.db_at 3)) (Toy.probed (Toy.db_at 3)) OkStatus 3 eq_refl).
    right. split; reflexivity.
Defined.

Lemma UpgradeMetadataSourceIfOutOfDate_probe_error_witness :
  exists msg,
    UpgradeMetadataSourceIfOutOfDate Toy.toy_executor true
      (Toy.start (Toy.db_rows []))
    = (Returned (AbortedError msg), Toy.probed (Toy.db_rows [])).
Proof.
  eexists.
  eapply (UpgradeMetadataSourceIfOutOfDate_probe_error Toy.toy_executor true
            (Toy.start (Toy.db_rows [])) (Toy.probed (Toy.db_rows [])) _ 0);
    [vm_compute; reflexivity|reflexivity|reflexivity].
Defined.

Lemma upgrade_query_failure_witness :
  exists w2,
    run_upgrade_queries ToyStatements.failing_upgrade (Toy.start (Toy.db_at 1))
    = (Returned (InternalError "Upgrade query failed: SELECT broken;syntax error"), w2)
    /\ trace w2 = [SourceQuery "up to 2 a"; SourceQuery Toy.failing_sql].
Proof.
  edestruct (upgrade_query_failure [Toy.T "up to 2 a"] [Toy.T "up to 2 c"]
               (Toy.T Toy.failing_sql) (Toy.start (Toy.db_at 1)))
    as [Hresult Htrace];
    [vm_compute; reflexivity|reflexivity|vm_compute; reflexivity|reflexivity|].
  eexists. split; [exact Hresult|exact Htrace].
Defined.

Lemma DowngradeMetadataSource_nothing_to_do_witness :
  DowngradeMetadataSource Toy.toy_executor 3 (Toy.start (Toy.db_at 1))
  = (Returned OkStatus, Toy.probed (Toy.db_at 1)).
Proof.
  apply (DowngradeMetadataSource_nothing_to_do Toy.toy_executor 3
           (Toy.start (Toy.db_at 1)) (Toy.probed (Toy.db_at 1)) OkStatus 1);
    [simpl; lia|reflexivity|reflexivity|lia].
Defined.

Lemma DowngradeMetadataSource_refusals_witness :
  (exists msg,
     DowngradeMetadataSource Toy.toy_executor 1 (Toy.start (Toy.db_rows ["2"; "3"]))
     = (Returned (DataLossError msg), Toy.probed (Toy.db_rows ["2"; "3"]))) /\
  (exists msg,
     DowngradeMetadataSource Toy.toy_executor 1 (Toy.start (Toy.db_at 5))
     = (Returned (FailedPreconditionError msg), Toy.probed (Toy.db_at 5))).
Proof.
  split.
  - eexists.
    edestruct (DowngradeMetadataSource_refusals Toy.toy_executor 1
                 (Toy.start (Toy.db_rows ["2"; "3"]))
                 (Toy.probed (Toy.db_rows ["2"; "3"]))) as [Hprobe _];
      [simpl; lia|vm_compute; reflexivity|].
    apply Hprobe; reflexivity.
  - edestruct (DowngradeMetadataSource_refusals Toy.toy_executor 1
                 (Toy.start (Toy.db_at 5)) (Toy.probed (Toy.db_at 5)) OkStatus 5)
      as [_ Hnewer]; [simpl; lia|reflexivity|].
    apply Hnewer; [reflexivity|simpl; lia].
Defined.

Lemma DowngradeMetadataSource_missing_scheme_witness :
  DowngradeMetadataSource Toy.gap_executor 0 (Toy.start (Toy.db_at 3))
  = (Returned (InternalError "Cannot find migration_schemes to version 2"),
     Toy.probed (Toy.db_at 3)).
Proof.
  apply (DowngradeMetadataSource_missing_scheme Toy.gap_executor 0
           (Toy.start (Toy.db_at 3)) (Toy.probed (Toy.db_at 3)) OkStatus 3);
    [simpl; lia|reflexivity|reflexivity|simpl; lia|reflexivity].
Defined.

Lemma InitMetadataSource_inserts_last_witness :
  exists t,
    trace (snd (InitMetadataSource Toy.toy_executor (Toy.start (Toy.db_raced 2))))
    = (trace (Toy.start (Toy.db_raced 2)) ++ t)%list /\
    (t `prefix_of`
       map (fun q => SourceQuery (query q))
         (create_table_queries Toy.toy_executor
          ++ secondary_indices (query_config_ Toy.toy_executor)) \/
     exists tail,
       t = (map (fun q => SourceQuery (query q))
              (create_table_queries Toy.toy_executor
               ++ secondary_indices (query_config_ Toy.toy_executor))
            ++ Header (InsertSchemaVersion (GetLibraryVersion Toy.toy_executor))
               :: tail)%list /\
       tail `prefix_of`
         [SourceQuery (query (check_mlmd_env_table (query_config_ Toy.toy_executor)));
          SourceQuery (query (check_tables_in_v0_13_2 (query_config_ Toy.toy_executor)))]).
Proof.
  exact (proj2 (InitMetadataSource_inserts_last Toy.toy_executor
                  (Toy.start (Toy.db_raced 2))
                  (snd (InitMetadataSource Toy.toy_executor (Toy.start (Toy.db_raced 2))))
                  (fst (InitMetadataSource Toy.toy_executor (Toy.start (Toy.db_raced 2))))
                  (surjective_pairing _))).
Defined.

Lemma InitMetadataSourceIfNotExists_pinned_witness :
  InitMetadataSourceIfNotExists ToyStatements.pinned_executor true
    (Toy.start Toy.db_empty)
  = header CheckSchemaVersionAlignsWithQueryVersion (Toy.start Toy.db_empty).
Proof.
  exact (proj1 (InitMetadataSourceIfNotExists_pinned ToyStatements.pinned_executor
                  2 true (Toy.start Toy.db_empty)
                  (MkWorld Toy.db_empty [Header CheckSchemaVersionAlignsWithQueryVersion])
                  (Returned OkStatus) eq_refl eq_refl)).
Defined.

Lemma InitMetadataSourceIfNotExists_upgrade_failure_witness :
  exists msg,
    InitMetadataSourceIfNotExists Toy.toy_executor true (Toy.start (Toy.db_at 5))
    = (Returned (FailedPreconditionError msg), Toy.probed (Toy.db_at 5)).
Proof.
  eexists.
  eapply (InitMetadataSourceIfNotExists_upgrade_failure Toy.toy_executor true
            (Toy.start (Toy.db_at 5)) (Toy.probed (Toy.db_at 5)));
    [reflexivity|vm_compute; reflexivity|reflexivity].
Defined.

Lemma ListNodeIDsUsingOptions_one_statement_witness :
  exists st,
    ListNodeIDsUsingOptions NodeArtifact (ToyStatements.page_options 0)
      (Some [1; 2]) empty_RecordSet (Toy.start Toy.db_empty)
    = (Returned (st, empty_RecordSet), Toy.start Toy.db_empty)
    /\ ok st = false.
Proof.
  edestruct (ListNodeIDsUsingOptions_one_statement NodeArtifact
               (ToyStatements.page_options 0) (Some [1; 2]) empty_RecordSet
               (Toy.start Toy.db_empty))
    as [_ Hrejected]; [apply surjective_pairing|].
  destruct Hrejected as (st & Ho & Hfail & Hw); [discriminate| |].
  - right. right. right. intros s. reflexivity.
  - exists st. split; [|exact Hfail].
    rewrite (surjective_pairing (ListNodeIDsUsingOptions _ _ _ _ _)).
    now rewrite Ho, Hw.
Defined.

Lemma GetTransferredBytesForNodeProperties_counts_witness :
  MlmdBench.GetTransferredBytesForNodeProperties
    (<["stage" := MlmdBench.int_value 7]>
       (MlmdBench.artifact_properties MlmdBench.model_a)) = 21 /\
  MlmdBench.GetTransferredBytesForNodeProperties
    (<["owner" := MlmdBench.string_value "bo"]>
       (MlmdBench.artifact_properties MlmdBench.model_a)) = 15.
Proof.
  split.
  - destruct (GetTransferredBytesForNodeProperties_counts
                (MlmdBench.artifact_properties MlmdBench.model_a)
                "stage" (MlmdBench.int_value 7)) as (_ & _ & Hfresh & _).
    rewrite Hfresh; [vm_compute; reflexivity|vm_compute; reflexivity].
  - destruct (GetTransferredBytesForNodeProperties_counts
                (MlmdBench.artifact_properties MlmdBench.model_a)
                "owner" (MlmdBench.string_value "bo")) as (_ & _ & _ & Hover).
    rewrite (Hover (MlmdBench.string_value "ann"));
      [vm_compute; reflexivity|vm_compute; reflexivity].
Defined.

Lemma GetTransferredBytesForAllNodesUnderAType_sums_witness :
  MlmdBench.GetTransferredBytesForAllNodesUnderAType MlmdBench.KArtifact "Model"
    ([MlmdBench.ArtifactNode MlmdBench.model_a]
     ++ [MlmdBench.ArtifactNode MlmdBench.data_b])%list = Some 61 /\
  32 <= 61 /\
  MlmdBench.GetTransferredBytesForAllNodesUnderAType MlmdBench.KArtifact "Model"
    [MlmdBench.ArtifactNode MlmdBench.data_b] = Some 0.
Proof.
  split; [|split].
  - destruct (GetTransferredBytesForAllNodesUnderAType_sums MlmdBench.KArtifact
                "Model" [MlmdBench.ArtifactNode MlmdBench.model_a]
                [MlmdBench.ArtifactNode MlmdBench.data_b]) as (Happ & _).
    rewrite Happ. vm_compute. reflexivity.
  - destruct (GetTransferredBytesForAllNodesUnderAType_sums MlmdBench.KArtifact
                "Model" [MlmdBench.ArtifactNode MlmdBench.model_a] [])
      as (_ & _ & Hbound & _).
    apply (Hbound 61). vm_compute. reflexivity.
  - destruct (GetTransferredBytesForAllNodesUnderAType_sums MlmdBench.KArtifact
                "Model" [MlmdBench.ArtifactNode MlmdBench.data_b] [])
      as (_ & _ & _ & Hzero).
    apply Hzero.
    + constructor; [vm_compute; reflexivity|constructor].
    + constructor; [discriminate|constructor].
Defined.
